(** * mirror-to-gitea: discovery, filtering, target resolution and mirroring

    A shallow embedding of the Go program (packages [config], [logger],
    [github] (imported as [ghrepo]), [gitea] and [main]) and the proofs of the
    properties its specification states about it.

    Conventions.
    - A Go [string] is a [string], the sequence of its bytes;
      [EmptyString] is the Go empty string.
    - A Go [(T, error)] result is a [Result T]; a bare [error] is an
      [option string] holding the message, [None] being [nil].
    - A Go struct is a record; where two structs of one package share a
      field name each lives in a module of its own, its type being [t].
    - [log.Printf] appends the formatted line to the [logs] of the process
      state; every call of [Client.doRequest] is appended to its [calls],
      as the request it asks for.  The request leaves the process unless
      it cannot be built ([http.NotBuilt]); [transmitted] gives the
      requests that do.
    - A paginated listing of the source is the finite sequence of the
      answers to one pagination loop ([github.Listing]).
    - What comes from libraries outside the program is a parameter:
      [doublestar.Match], the JSON decoders and the random generator of
      package [gitea], the source client and the network behind the
      destination client.

    The function [main] is embedded over what it takes from outside the
    program ([main.Runtime]): it gives the exit status of the process and
    what the process wrote to standard output.  The order in which [range]
    visits the keys of a map is a parameter of it.  The shell loop of the
    container entry point, which runs the program again after the delay,
    is not embedded. *)

From Stdlib Require Import ZArith String Ascii List Bool Lia.
From stdpp Require Import base option list gmap strings pretty.

Local Open Scope string_scope.
Local Open Scope Z_scope.
Local Open Scope list_scope.

(** ** Results and the pieces of the Go library the program calls *)

Inductive Result (A : Type) : Type :=
| Ok (a : A)
| Err (e : string).
Arguments Ok {A} a.
Arguments Err {A} e.

Definition is_empty (s : string) : bool :=
  match s with
  | EmptyString => true
  | String _ _ => false
  end.

(** The double quote character, for the messages that print one. *)
Definition dquote : string := String (ascii_of_nat 34) EmptyString.

(** [%d] of an integer and of a length. *)
Definition fmt_d (z : Z) : string := pretty z.
Definition fmt_len {A} (l : list A) : string := pretty (Z.of_nat (length l)).

Module strings.

(** [strings.Split(s, sep)] for a separator of one byte, the only kind
    the program uses: one more part than there are separators. *)
Fixpoint Split (s : string) (sep : ascii) : list string :=
  match s with
  | EmptyString => [EmptyString]
  | String c rest =>
      if Ascii.eqb c sep then EmptyString :: Split rest sep
      else match Split rest sep with
           | [] => [String c EmptyString]
           | p :: ps => String c p :: ps
           end
  end.

Fixpoint stripPrefix (prefix s : string) : option string :=
  match prefix with
  | EmptyString => Some s
  | String a prefix' =>
      match s with
      | EmptyString => None
      | String b s' => if Ascii.eqb a b then stripPrefix prefix' s' else None
      end
  end.

(** White space as [strings.TrimSpace] sees it in the bytes of a string:
    the runes that [unicode.IsSpace] accepts, each as its UTF-8 encoding.
    These are the six ASCII spaces (tab, line feed, vertical tab, form
    feed, carriage return, space), U+0085, U+00A0, U+1680, U+2000 to
    U+200A, U+2028, U+2029, U+202F, U+205F and U+3000.  A byte sequence
    that is not valid UTF-8 decodes to U+FFFD, which is no space, and no
    encoding in the list begins or ends another. *)
Definition bytes (codes : list nat) : string :=
  fold_right (fun code s => String (ascii_of_nat code) s) EmptyString codes.

Definition spaceRunes : list string :=
  map bytes
    ([ [9]; [10]; [11]; [12]; [13]; [32]; [194; 133]; [194; 160]; [225; 154; 128] ]
     ++ map (fun low => [226; 128; low]) (seq 128 11)
     ++ [ [226; 128; 168]; [226; 128; 169]; [226; 128; 175]; [226; 129; 159];
          [227; 128; 128] ])%nat.

(** The rest of [s] after the first of [prefixes] it begins with. *)
Fixpoint stripAny (prefixes : list string) (s : string) : option string :=
  match prefixes with
  | [] => None
  | prefix :: others =>
      match stripPrefix prefix s with
      | Some rest => Some rest
      | None => stripAny others s
      end
  end.

(** The loop over the leading runes: [fuel] bounds the number of runes
    taken off, and the length of the string is enough. *)
Fixpoint trimStart (prefixes : list string) (fuel : nat) (s : string) : string :=
  match fuel with
  | O => s
  | S fuel =>
      match stripAny prefixes s with
      | Some rest => trimStart prefixes fuel rest
      | None => s
      end
  end.

Fixpoint reverse (s : string) : string :=
  match s with
  | EmptyString => EmptyString
  | String c rest => reverse rest +:+ String c EmptyString
  end.

(** [strings.TrimLeftFunc(s, unicode.IsSpace)], and
    [strings.TrimRightFunc(s, unicode.IsSpace)], which decodes the runes
    from the end: here the leading runes of the reversed string, for the
    reversed encodings. *)
Definition TrimLeft (s : string) : string := trimStart spaceRunes (String.length s) s.

Definition TrimRight (s : string) : string :=
  reverse (trimStart (map reverse spaceRunes) (String.length s) (reverse s)).

Definition TrimSpace (s : string) : string := TrimRight (TrimLeft s).

Definition TrimPrefix (s prefix : string) : string :=
  match stripPrefix prefix s with
  | Some rest => rest
  | None => s
  end.

Definition HasSuffix (s suffix : string) : bool :=
  let n := String.length s in
  let k := String.length suffix in
  (k <=? n)%nat && String.eqb (substring (n - k) k s) suffix.

Definition TrimSuffix (s suffix : string) : string :=
  if HasSuffix s suffix
  then substring 0 (String.length s - String.length suffix) s
  else s.

End strings.

Module strconv.

Definition digit (c : ascii) : option Z :=
  let n := nat_of_ascii c in
  if ((48 <=? n)%nat && (n <=? 57)%nat) then Some (Z.of_nat n - 48) else None.

Fixpoint digits (s : string) (acc : Z) : option Z :=
  match s with
  | EmptyString => Some acc
  | String c rest =>
      match digit c with
      | Some d => digits rest (10 * acc + d)
      | None => None
      end
  end.

Definition unsigned (s : string) : option Z :=
  match s with
  | EmptyString => None
  | _ => digits s 0
  end.

(** [strconv.Atoi]: an optional sign and decimal digits, within the range
    of a 64-bit [int]. *)
Definition Atoi (s : string) : Result Z :=
  let parsed :=
    match s with
    | String "+" rest => unsigned rest
    | String "-" rest => Z.opp <$> unsigned rest
    | _ => unsigned s
    end in
  match parsed with
  | Some z =>
      if (- 2 ^ 63 <=? z) && (z <? 2 ^ 63) then Ok z
      else Err ("strconv.Atoi: parsing " +:+ dquote +:+ s +:+ dquote +:+ ": value out of range")
  | None => Err ("strconv.Atoi: parsing " +:+ dquote +:+ s +:+ dquote +:+ ": invalid syntax")
  end.

End strconv.

(** ** Package [config] *)

Module config.

Module GitHubConfig.
Record t := mk {
  Username : string;
  Token : string;
  SkipForks : bool;
  PrivateRepositories : bool;
  MirrorIssues : bool;
  MirrorStarred : bool;
  MirrorOrganizations : bool;
  UseSpecificUser : bool;
  SingleRepo : string;
  IncludeOrgs : list string;
  ExcludeOrgs : list string;
  PreserveOrgStructure : bool;
  SkipStarredIssues : bool
}.
End GitHubConfig.

Module GiteaConfig.
Record t := mk {
  URL : string;
  Token : string;
  Organization : string;
  Visibility : string;
  StarredReposOrg : string
}.
End GiteaConfig.

Record Config := mkConfig {
  GitHub : GitHubConfig.t;
  Gitea : GiteaConfig.t;
  DryRun : bool;
  Delay : Z;
  Include : list string;
  Exclude : list string;
  SingleRun : bool
}.

Section Environment.

(** The process environment: [os.Getenv] gives the empty string for a
    variable that is not set. *)
Variable environ : gmap string string.

Definition Getenv (variable : string) : string :=
  default EmptyString (environ !! variable).

Definition readEnv (variable : string) : string := Getenv variable.

Definition mustReadEnv (variable : string) : Result string :=
  let val := Getenv variable in
  if is_empty val
  then Err ("invalid configuration, please provide " +:+ variable)
  else Ok val.

Definition readBoolean (variable : string) : bool :=
  let val := Getenv variable in
  String.eqb val "true" || String.eqb val "TRUE" || String.eqb val "1".

Definition readInt (variable : string) (defaultValue : Z) : Z :=
  let val := Getenv variable in
  if is_empty val then defaultValue
  else match strconv.Atoi val with
       | Err _ => defaultValue
       | Ok intVal => intVal
       end.

Definition splitAndTrim (s : string) : list string :=
  if is_empty s then []
  else
    let parts := strings.Split s "," in
    fold_left
      (fun result part =>
         let trimmed := strings.TrimSpace part in
         if negb (is_empty trimmed) then result ++ [trimmed] else result)
      parts [].

Definition defaultDelay : Z := 3600.
Definition defaultInclude : string := "*".
Definition defaultExclude : string := EmptyString.

Definition Load : Result Config :=
  match mustReadEnv "GITHUB_USERNAME" with
  | Err err => Err err
  | Ok githubUsername =>
  match mustReadEnv "GITEA_URL" with
  | Err err => Err err
  | Ok giteaURL =>
  match mustReadEnv "GITEA_TOKEN" with
  | Err err => Err err
  | Ok giteaToken =>
    let githubToken := readEnv "GITHUB_TOKEN" in
    let privateRepositories := readBoolean "MIRROR_PRIVATE_REPOSITORIES" in
    let mirrorIssues := readBoolean "MIRROR_ISSUES" in
    let mirrorStarred := readBoolean "MIRROR_STARRED" in
    let mirrorOrganizations := readBoolean "MIRROR_ORGANIZATIONS" in
    let singleRepo := readEnv "SINGLE_REPO" in
    if privateRepositories && is_empty githubToken
    then Err "invalid configuration, mirroring private repositories requires setting GITHUB_TOKEN"
    else if (mirrorIssues || mirrorStarred || mirrorOrganizations || negb (is_empty singleRepo))
            && is_empty githubToken
    then Err "invalid configuration, mirroring issues, starred repositories, organizations, or a single repo requires setting GITHUB_TOKEN"
    else
      let includeStr := readEnv "INCLUDE" in
      let includeStr := if is_empty includeStr then defaultInclude else includeStr in
      let excludeStr := readEnv "EXCLUDE" in
      let excludeStr := if is_empty excludeStr then defaultExclude else excludeStr in
      let starredOrg := readEnv "GITEA_STARRED_ORGANIZATION" in
      let starredOrg := if is_empty starredOrg then "github" else starredOrg in
      let visibility := readEnv "GITEA_ORG_VISIBILITY" in
      let visibility := if is_empty visibility then "public" else visibility in
      Ok {| GitHub := {| GitHubConfig.Username := githubUsername;
                         GitHubConfig.Token := githubToken;
                         GitHubConfig.SkipForks := readBoolean "SKIP_FORKS";
                         GitHubConfig.PrivateRepositories := privateRepositories;
                         GitHubConfig.MirrorIssues := mirrorIssues;
                         GitHubConfig.MirrorStarred := mirrorStarred;
                         GitHubConfig.MirrorOrganizations := mirrorOrganizations;
                         GitHubConfig.UseSpecificUser := readBoolean "USE_SPECIFIC_USER";
                         GitHubConfig.SingleRepo := singleRepo;
                         GitHubConfig.IncludeOrgs := splitAndTrim (readEnv "INCLUDE_ORGS");
                         GitHubConfig.ExcludeOrgs := splitAndTrim (readEnv "EXCLUDE_ORGS");
                         GitHubConfig.PreserveOrgStructure := readBoolean "PRESERVE_ORG_STRUCTURE";
                         GitHubConfig.SkipStarredIssues := readBoolean "SKIP_STARRED_ISSUES" |};
            Gitea := {| GiteaConfig.URL := giteaURL;
                        GiteaConfig.Token := giteaToken;
                        GiteaConfig.Organization := readEnv "GITEA_ORGANIZATION";
                        GiteaConfig.Visibility := visibility;
                        GiteaConfig.StarredReposOrg := starredOrg |};
            DryRun := readBoolean "DRY_RUN";
            Delay := readInt "DELAY" defaultDelay;
            Include := splitAndTrim includeStr;
            Exclude := splitAndTrim excludeStr;
            SingleRun := readBoolean "SINGLE_RUN" |}
  end end end.

End Environment.

(** The source credential is required by [Load] exactly for these modes. *)
Definition tokenRequired (cfg : Config) : bool :=
  GitHubConfig.PrivateRepositories (GitHub cfg)
  || GitHubConfig.MirrorIssues (GitHub cfg)
  || GitHubConfig.MirrorStarred (GitHub cfg)
  || GitHubConfig.MirrorOrganizations (GitHub cfg)
  || negb (is_empty (GitHubConfig.SingleRepo (GitHub cfg))).

End config.

(** ** The source API client (package [go-github]) as the program uses it *)

Module github.

(** What a paginated endpoint answers to the requests of one pagination
    loop [for { ...; if resp.NextPage == 0 { break }; opt.Page = resp.NextPage }]:
    the call fails, or it answers a page that is the last one
    ([resp.NextPage == 0]), or a page followed by the answer to the request
    for [resp.NextPage].  A source listing has finitely many pages. *)
Inductive Listing (A : Type) : Type :=
| PageError (err : string)
| LastPage (items : list A)
| NextPage (items : list A) (rest : Listing A).
Arguments PageError {A} err.
Arguments LastPage {A} items.
Arguments NextPage {A} items rest.

Module Repository.
Record t := mk {
  Name : string;
  CloneURL : string;
  Private : bool;
  Fork : bool;
  OwnerLogin : string;
  FullName : string;
  HasIssues : bool
}.
End Repository.

Module Organization.
Record t := mk { Login : string }.
End Organization.

Module StarredRepository.
Record t := mk { Repository : Repository.t }.
End StarredRepository.

(** [CreatedAt] holds the creation time as [Format("2006-01-02")] prints
    it; [Labels] holds the label names. *)
Module Issue.
Record t := mk {
  Title : string;
  Body : string;
  State : string;
  UserLogin : string;
  CreatedAt : string;
  Labels : list string
}.
End Issue.

Record Client := mkClient {
  (* Repositories.Get(ctx, owner, repo) *)
  Repositories_Get : string -> string -> Result Repository.t;
  (* Repositories.List(ctx, user, opt) by opt.Affiliation and opt.Visibility *)
  Repositories_List : string -> string -> string -> Listing Repository.t;
  (* Activity.ListStarred(ctx, user, opt) *)
  Activity_ListStarred : string -> Listing StarredRepository.t;
  (* Organizations.List(ctx, user, opt) *)
  Organizations_List : string -> Listing Organization.t;
  (* Search.Repositories(ctx, query, opt), each page being result.Repositories *)
  Search_Repositories : string -> Listing Repository.t;
  (* Repositories.ListByOrg(ctx, org, opt) *)
  Repositories_ListByOrg : string -> Listing Repository.t;
  (* Issues.ListByRepo(ctx, owner, repo, opt) by opt.State *)
  Issues_ListByRepo : string -> string -> string -> Listing Issue.t
}.

End github.

(** ** Requests to the destination and the state of the process *)

Module http.

(** A marshalled request body: the JSON object of a struct or map, as the
    list of the members that are written, in order. *)
Inductive Value : Type :=
| VString (s : string)
| VInt (z : Z)
| VBool (b : bool)
| VStrings (items : list string).

Definition Object : Type := list (string * Value).

Record Request := mkRequest {
  method : string;
  path : string;
  body : option Object
}.

(** How one call of [Client.doRequest] ends: the request is not built
    ([json.Marshal] or [http.NewRequest] returns an error, as for a URL
    that does not parse) and nothing is sent; or the request is sent and
    no response arrives ([httpClient.Do] fails); or the response arrives
    with its status and reading its body fails; or the response and its
    body arrive. *)
Inductive Outcome : Type :=
| NotBuilt (err : string)
| SendFailed (err : string)
| ReadFailed (status : Z) (err : string)
| Replied (respBody : string) (status : Z).

(** Whether the request of a call left the process. *)
Definition built (outcome : Outcome) : bool :=
  match outcome with
  | NotBuilt _ => false
  | _ => true
  end.

Definition StatusOK : Z := 200.
Definition StatusCreated : Z := 201.
Definition StatusNoContent : Z := 204.
Definition StatusUnprocessableEntity : Z := 422.

Definition member (name : string) (o : Object) : option Value :=
  snd <$> List.find (fun kv => String.eqb (fst kv) name) o.

End http.

(** The state the program threads: the lines logged so far, the calls of
    [Client.doRequest] so far (oldest first), each as the request it
    asks for, and the number of random numbers drawn so far.  The request
    of a call reaches the destination unless it cannot be built. *)
Record State := mkState {
  logs : list string;
  calls : list http.Request;
  draws : nat
}.

Definition M (A : Type) : Type := State -> A * State.

Definition ret {A} (a : A) : M A := fun s => (a, s).

Definition bind {A B} (m : M A) (k : A -> M B) : M B :=
  fun s => let (a, s') := m s in k a s'.

Notation "'let*' x := m 'in' k" := (bind m (fun x => k))
  (at level 10, x pattern, m at level 100, k at level 200).
Notation "m ;;; k" := (bind m (fun _ => k))
  (at level 100, right associativity).

(** [log.Printf] with the line already formatted. *)
Definition Printf (line : string) : M unit :=
  fun s => (tt, {| logs := logs s ++ [line]; calls := calls s; draws := draws s |}).

Definition initial : State := {| logs := []; calls := []; draws := 0 |}.

(** ** Package [logger] *)

Module logger.

Record Logger := mkLogger { prefix : string }.

Definition New : Logger := {| prefix := EmptyString |}.

(** [%v] of the variadic [args], each shown by its own [%v]. *)
Fixpoint joinSpaces (args : list string) : string :=
  match args with
  | [] => EmptyString
  | [a] => a
  | a :: rest => a +:+ " " +:+ joinSpaces rest
  end.

Definition fmt_args (args : list string) : string := "[" +:+ joinSpaces args +:+ "]".

(** [timestamp] is [time.Now().Format(time.RFC3339)] at the call. *)
Definition Info (l : Logger) (timestamp msg : string) (args : list string) : M unit :=
  if (0 <? length args)%nat
  then Printf ("[" +:+ timestamp +:+ "] INFO: " +:+ msg +:+ " " +:+ fmt_args args)
  else Printf ("[" +:+ timestamp +:+ "] INFO: " +:+ msg).

Definition Error (l : Logger) (timestamp msg : string) (args : list string) : M unit :=
  if (0 <? length args)%nat
  then Printf ("[" +:+ timestamp +:+ "] ERROR: " +:+ msg +:+ " " +:+ fmt_args args)
  else Printf ("[" +:+ timestamp +:+ "] ERROR: " +:+ msg).

(** The struct [redactedConfig] of [ShowConfig]. *)
Module RedactedGitHub.
Record t := mk {
  Username : string;
  Token : string;
  SkipForks : bool;
  PrivateRepositories : bool;
  MirrorIssues : bool;
  MirrorStarred : bool;
  MirrorOrganizations : bool;
  UseSpecificUser : bool;
  SingleRepo : string;
  IncludeOrgs : list string;
  ExcludeOrgs : list string;
  PreserveOrgStructure : bool;
  SkipStarredIssues : bool
}.
End RedactedGitHub.

Module RedactedGitea.
Record t := mk {
  URL : string;
  Token : string;
  Organization : string;
  Visibility : string;
  StarredReposOrg : string
}.
End RedactedGitea.

Record RedactedConfig := mkRedactedConfig {
  GitHub : RedactedGitHub.t;
  Gitea : RedactedGitea.t;
  DryRun : bool;
  Delay : Z;
  Include : list string;
  Exclude : list string;
  SingleRun : bool
}.

(** "Create a copy of config with redacted tokens". *)
Definition redacted (cfg : config.Config) : RedactedConfig :=
  {| GitHub :=
       {| RedactedGitHub.Username := config.GitHubConfig.Username (config.GitHub cfg);
          RedactedGitHub.Token := "[REDACTED]";
          RedactedGitHub.SkipForks := config.GitHubConfig.SkipForks (config.GitHub cfg);
          RedactedGitHub.PrivateRepositories :=
            config.GitHubConfig.PrivateRepositories (config.GitHub cfg);
          RedactedGitHub.MirrorIssues := config.GitHubConfig.MirrorIssues (config.GitHub cfg);
          RedactedGitHub.MirrorStarred := config.GitHubConfig.MirrorStarred (config.GitHub cfg);
          RedactedGitHub.MirrorOrganizations :=
            config.GitHubConfig.MirrorOrganizations (config.GitHub cfg);
          RedactedGitHub.UseSpecificUser :=
            config.GitHubConfig.UseSpecificUser (config.GitHub cfg);
          RedactedGitHub.SingleRepo := config.GitHubConfig.SingleRepo (config.GitHub cfg);
          RedactedGitHub.IncludeOrgs := config.GitHubConfig.IncludeOrgs (config.GitHub cfg);
          RedactedGitHub.ExcludeOrgs := config.GitHubConfig.ExcludeOrgs (config.GitHub cfg);
          RedactedGitHub.PreserveOrgStructure :=
            config.GitHubConfig.PreserveOrgStructure (config.GitHub cfg);
          RedactedGitHub.SkipStarredIssues :=
            config.GitHubConfig.SkipStarredIssues (config.GitHub cfg) |};
     Gitea :=
       {| RedactedGitea.URL := config.GiteaConfig.URL (config.Gitea cfg);
          RedactedGitea.Token := "[REDACTED]";
          RedactedGitea.Organization := config.GiteaConfig.Organization (config.Gitea cfg);
          RedactedGitea.Visibility := config.GiteaConfig.Visibility (config.Gitea cfg);
          RedactedGitea.StarredReposOrg :=
            config.GiteaConfig.StarredReposOrg (config.Gitea cfg) |};
     DryRun := config.DryRun cfg;
     Delay := config.Delay cfg;
     Include := config.Include cfg;
     Exclude := config.Exclude cfg;
     SingleRun := config.SingleRun cfg |}.

(** [ShowConfig].  [MarshalIndent] is [json.MarshalIndent] on the redacted
    struct with the prefix and indent of the call; the result is the text
    written to standard output by [fmt.Printf], if any. *)
Definition ShowConfig (l : Logger) (timestamp : string)
  (MarshalIndent : RedactedConfig -> Result string) (cfg : config.Config)
  : M (option string) :=
  let redactedConfig := redacted cfg in
  match MarshalIndent redactedConfig with
  | Err err =>
      Error l timestamp "Failed to marshal config" [err] ;;;
      ret None
  | Ok configJSON =>
      ret (Some ("Applied configuration:" +:+ String (ascii_of_nat 10) EmptyString
                 +:+ configJSON +:+ String (ascii_of_nat 10) EmptyString))
  end.

End logger.

(** ** Package [github] of the program, imported as [ghrepo] *)

Module ghrepo.

Record Repository := mkRepository {
  Name : string;
  URL : string;
  Private : bool;
  Fork : bool;
  Owner : string;
  FullName : string;
  HasIssues : bool;
  Organization : string;
  Starred : bool
}.

Record FetchOptions := mkFetchOptions {
  Username : string;
  PrivateRepositories : bool;
  SkipForks : bool;
  MirrorStarred : bool;
  MirrorOrganizations : bool;
  SingleRepo : string;
  IncludeOrgs : list string;
  ExcludeOrgs : list string;
  PreserveOrgStructure : bool;
  UseSpecificUser : bool
}.

(** [repo.Starred = true] and [repo.Organization = orgName] on a record. *)
Definition setStarred (repo : Repository) : Repository :=
  {| Name := Name repo; URL := URL repo; Private := Private repo;
     Fork := Fork repo; Owner := Owner repo; FullName := FullName repo;
     HasIssues := HasIssues repo; Organization := Organization repo;
     Starred := true |}.

Definition setOrganization (orgName : string) (repo : Repository) : Repository :=
  {| Name := Name repo; URL := URL repo; Private := Private repo;
     Fork := Fork repo; Owner := Owner repo; FullName := FullName repo;
     HasIssues := HasIssues repo; Organization := orgName;
     Starred := Starred repo |}.

Definition toRepository (repo : github.Repository.t) (preserveOrg : bool) : Repository :=
  {| Name := github.Repository.Name repo;
     URL := github.Repository.CloneURL repo;
     Private := github.Repository.Private repo;
     Fork := github.Repository.Fork repo;
     Owner := github.Repository.OwnerLogin repo;
     FullName := github.Repository.FullName repo;
     HasIssues := github.Repository.HasIssues repo;
     Organization := EmptyString;
     Starred := false |}.

Definition toRepositoryList (repos : list github.Repository.t) (preserveOrg : bool)
  : list Repository :=
  fold_left (fun result repo => result ++ [toRepository repo preserveOrg]) repos [].

Definition withoutForks (repositories : list Repository) : list Repository :=
  fold_left (fun result repo => if negb (Fork repo) then result ++ [repo] else result)
            repositories [].

(** The body of the loop of [filterDuplicates] on [seen] and [result];
    [seen[url]] of a key that is absent is [false]. *)
Definition dedupStep (acc : gmap string bool * list Repository) (repo : Repository)
  : gmap string bool * list Repository :=
  let (seen, result) := acc in
  if negb (default false (seen !! URL repo))
  then (<[URL repo := true]> seen, result ++ [repo])
  else (seen, result).

Definition filterDuplicates (repositories : list Repository) : list Repository :=
  snd (fold_left dedupStep repositories (∅, [])).

(** The pagination loops that give up at the first failing page
    ([return nil, err]): those of [fetchPublicRepositories],
    [fetchPrivateRepositories], [fetchStarredRepositories] and of the
    enumeration of organizations.  [pick] is what the loop appends of each
    item of a page. *)
Fixpoint paginate {A B} (pick : A -> B) (pages : github.Listing A) (all : list B)
  : Result (list B) :=
  match pages with
  | github.PageError err => Err err
  | github.LastPage items => Ok (all ++ map pick items)
  | github.NextPage items rest => paginate pick rest (all ++ map pick items)
  end.

Definition fetchSingleRepository (client : github.Client) (repoURL : string)
  : Result Repository :=
  let repoPath := repoURL in
  let repoPath := strings.TrimPrefix repoPath "https://github.com/" in
  let repoPath := strings.TrimSuffix repoPath ".git" in
  let parts := strings.Split repoPath "/" in
  match parts with
  | [owner; repoName] =>
      match github.Repositories_Get client owner repoName with
      | Err err => Err ("error fetching single repository " +:+ repoURL +:+ ": " +:+ err)
      | Ok repo => Ok (toRepository repo false)
      end
  | _ => Err ("invalid repository URL format: " +:+ repoURL)
  end.

Definition fetchPublicRepositories (client : github.Client) (username : string)
  : Result (list Repository) :=
  match paginate id (github.Repositories_List client username EmptyString EmptyString) [] with
  | Err err => Err err
  | Ok allRepos => Ok (toRepositoryList allRepos false)
  end.

Definition fetchPrivateRepositories (client : github.Client) : Result (list Repository) :=
  match paginate id (github.Repositories_List client EmptyString "owner" "private") [] with
  | Err err => Err err
  | Ok allRepos => Ok (toRepositoryList allRepos false)
  end.

Definition fetchStarredRepositories (client : github.Client) (username : string)
  : Result (list Repository) :=
  let listed :=
    if negb (is_empty username)
    then paginate github.StarredRepository.Repository
                  (github.Activity_ListStarred client username) []
    else paginate github.StarredRepository.Repository
                  (github.Activity_ListStarred client EmptyString) [] in
  match listed with
  | Err err => Err err
  | Ok allRepos =>
      let repos := toRepositoryList allRepos false in
      Ok (map setStarred repos)
  end.

(** The two loops over the include and exclude lists of organization
    names, each leaving at the first equal name. *)
Fixpoint named (orgName : string) (names : list string) : bool :=
  match names with
  | [] => false
  | name :: rest => if String.eqb orgName name then true else named orgName rest
  end.

Definition selectOrganizations (allOrgs : list github.Organization.t)
  (includeOrgs excludeOrgs : list string) : list github.Organization.t :=
  fold_left
    (fun orgsToProcess org =>
       let orgName := github.Organization.Login org in
       if (0 <? length includeOrgs)%nat && negb (named orgName includeOrgs)
       then orgsToProcess
       else if named orgName excludeOrgs then orgsToProcess
       else orgsToProcess ++ [org])
    allOrgs [].

(** The pagination loops of one organization's repositories: a failing
    page is logged and ends the loop ([break]) with [orgRepos] as it is. *)
Fixpoint paginateOrg (orgName : string) (pages : github.Listing github.Repository.t)
  (orgRepos : list github.Repository.t) : M (list github.Repository.t) :=
  match pages with
  | github.PageError err =>
      Printf ("Error fetching repositories for org " +:+ orgName +:+ ": " +:+ err) ;;;
      ret orgRepos
  | github.LastPage items => ret (orgRepos ++ items)
  | github.NextPage items rest => paginateOrg orgName rest (orgRepos ++ items)
  end.

(** The body of the loop of [fetchOrganizationRepositories] over
    [orgsToProcess]. *)
Definition fetchOneOrganization (client : github.Client)
  (preserveOrgStructure privateRepoAccess : bool)
  (allOrgRepos : list Repository) (org : github.Organization.t) : M (list Repository) :=
  let orgName := github.Organization.Login org in
  Printf ("Fetching repositories for organization: " +:+ orgName) ;;;
  let* orgRepos :=
    if privateRepoAccess then
      Printf ("Using search API to fetch both public and private repositories for org: "
              +:+ orgName) ;;;
      let searchQuery := "org:" +:+ orgName in
      let* orgRepos := paginateOrg orgName (github.Search_Repositories client searchQuery) [] in
      Printf ("Found " +:+ fmt_len orgRepos +:+ " repositories (public and private) for org: "
              +:+ orgName) ;;;
      ret orgRepos
    else
      let* orgRepos := paginateOrg orgName (github.Repositories_ListByOrg client orgName) [] in
      Printf ("Found " +:+ fmt_len orgRepos +:+ " public repositories for org: " +:+ orgName) ;;;
      ret orgRepos in
  let repos := toRepositoryList orgRepos preserveOrgStructure in
  let repos := if preserveOrgStructure then map (setOrganization orgName) repos else repos in
  ret (allOrgRepos ++ repos).

Fixpoint forOrganizations (client : github.Client)
  (preserveOrgStructure privateRepoAccess : bool)
  (orgsToProcess : list github.Organization.t) (allOrgRepos : list Repository)
  : M (list Repository) :=
  match orgsToProcess with
  | [] => ret allOrgRepos
  | org :: rest =>
      let* allOrgRepos :=
        fetchOneOrganization client preserveOrgStructure privateRepoAccess allOrgRepos org in
      forOrganizations client preserveOrgStructure privateRepoAccess rest allOrgRepos
  end.

Definition fetchOrganizationRepositories (client : github.Client) (username : string)
  (includeOrgs excludeOrgs : list string) (preserveOrgStructure privateRepoAccess : bool)
  : M (Result (list Repository)) :=
  let listed :=
    if negb (is_empty username)
    then paginate id (github.Organizations_List client username) []
    else paginate id (github.Organizations_List client EmptyString) [] in
  match listed with
  | Err err => ret (Err err)
  | Ok allOrgs =>
      let orgsToProcess := selectOrganizations allOrgs includeOrgs excludeOrgs in
      Printf ("Processing repositories from " +:+ fmt_len orgsToProcess +:+ " organizations") ;;;
      let* allOrgRepos :=
        forOrganizations client preserveOrgStructure privateRepoAccess orgsToProcess [] in
      ret (Ok allOrgRepos)
  end.

(** The four collection steps of the standard mode of [GetRepositories],
    each appending to [repositories] or leaving with the wrapped error. *)
Definition collectPublic (client : github.Client) (opts : FetchOptions)
  (repositories : list Repository) : Result (list Repository) :=
  match fetchPublicRepositories client (Username opts) with
  | Err err => Err ("failed to fetch public repositories: " +:+ err)
  | Ok publicRepos => Ok (repositories ++ publicRepos)
  end.

Definition collectPrivate (client : github.Client) (opts : FetchOptions)
  (repositories : list Repository) : Result (list Repository) :=
  if PrivateRepositories opts then
    match fetchPrivateRepositories client with
    | Err err => Err ("failed to fetch private repositories: " +:+ err)
    | Ok privateRepos => Ok (repositories ++ privateRepos)
    end
  else Ok repositories.

Definition collectStarred (client : github.Client) (opts : FetchOptions)
  (repositories : list Repository) : Result (list Repository) :=
  if MirrorStarred opts then
    let username := if UseSpecificUser opts then Username opts else EmptyString in
    match fetchStarredRepositories client username with
    | Err err => Err ("failed to fetch starred repositories: " +:+ err)
    | Ok starredRepos => Ok (repositories ++ starredRepos)
    end
  else Ok repositories.

Definition collectOrganizations (client : github.Client) (opts : FetchOptions)
  (repositories : list Repository) : M (Result (list Repository)) :=
  if MirrorOrganizations opts then
    let username := if UseSpecificUser opts then Username opts else EmptyString in
    let* fetched :=
      fetchOrganizationRepositories client username (IncludeOrgs opts) (ExcludeOrgs opts)
                                    (PreserveOrgStructure opts) (PrivateRepositories opts) in
    match fetched with
    | Err err => ret (Err ("failed to fetch organization repositories: " +:+ err))
    | Ok orgRepos => ret (Ok (repositories ++ orgRepos))
    end
  else ret (Ok repositories).

Definition skipForks (opts : FetchOptions) (repositories : list Repository)
  : list Repository :=
  if SkipForks opts then withoutForks repositories else repositories.

(** The standard mode of [GetRepositories] up to "Filter duplicates":
    owned, then private, then starred, then organizations. *)
Definition collectAll (client : github.Client) (opts : FetchOptions)
  : M (Result (list Repository)) :=
  match collectPublic client opts [] with
  | Err err => ret (Err err)
  | Ok repositories =>
  match collectPrivate client opts repositories with
  | Err err => ret (Err err)
  | Ok repositories =>
  match collectStarred client opts repositories with
  | Err err => ret (Err err)
  | Ok repositories => collectOrganizations client opts repositories
  end end end.

Definition GetRepositories (client : github.Client) (opts : FetchOptions)
  : M (Result (list Repository)) :=
  if negb (is_empty (SingleRepo opts)) then
    match fetchSingleRepository client (SingleRepo opts) with
    | Err err => ret (Err err)
    | Ok repo => ret (Ok (skipForks opts ([] ++ [repo])))
    end
  else
    let* collected := collectAll client opts in
    match collected with
    | Err err => ret (Err err)
    | Ok repositories =>
        let repositories := filterDuplicates repositories in
        ret (Ok (skipForks opts repositories))
    end.

(** [NewClient]: the client without credential for an empty token, the
    client authenticated by the token otherwise.  [anonymous] and
    [authenticated] are the source as the two clients reach it. *)
Definition NewClient (anonymous : github.Client) (authenticated : string -> github.Client)
  (token : string) : github.Client :=
  if is_empty token then anonymous else authenticated token.


End ghrepo.

(** ** Package [gitea] *)

Module gitea.

Module Target.
Record t := mk {
  ID : Z;
  Name : string;
  Type_ : string (* "user" or "organization" *)
}.
End Target.

Module User.
Record t := mk { ID : Z; Username : string }.
End User.

Module Organization.
Record t := mk { ID : Z; Username : string }.
End Organization.

Module MigrateRepoRequest.
Record t := mk {
  AuthToken : string;
  CloneAddr : string;
  Mirror : bool;
  RepoName : string;
  UID : Z;
  Private : bool
}.
(** [json.Marshal] by the struct tags; [auth_token] is [omitempty]. *)
Definition marshal (r : t) : http.Object :=
  (if is_empty (AuthToken r) then [] else [("auth_token", http.VString (AuthToken r))])
  ++ [("clone_addr", http.VString (CloneAddr r));
      ("mirror", http.VBool (Mirror r));
      ("repo_name", http.VString (RepoName r));
      ("uid", http.VInt (UID r));
      ("private", http.VBool (Private r))].
End MigrateRepoRequest.

Module Issue.
Record t := mk {
  Title : string;
  Body : string;
  State : string;
  Closed : bool
}.
Definition marshal (i : t) : http.Object :=
  [("title", http.VString (Title i));
   ("body", http.VString (Body i));
   ("state", http.VString (State i));
   ("closed", http.VBool (Closed i))].
End Issue.

Module Label.
Record t := mk { Name : string; Color : string }.
Definition marshal (l : t) : http.Object :=
  [("name", http.VString (Name l)); ("color", http.VString (Color l))].
End Label.

Module IssueResponse.
Record t := mk { Number : Z }.
End IssueResponse.

(** The client.  [httpClient] is the HTTP library, the network and the
    destination behind it: how a call of [doRequest] ends, given the calls
    this client made before it.  The URL of a request is [baseURL]
    followed by its path, and its [Authorization] header carries
    [token]. *)
Record Client := mkClient {
  baseURL : string;
  token : string;
  httpClient : list http.Request -> http.Request -> http.Outcome
}.

(** What the package takes from [encoding/json] and [math/rand]: the
    decoders of the three response bodies it reads, and the sequence of
    numbers the generator gives. *)
Record Library := mkLibrary {
  unmarshalUser : string -> Result User.t;
  unmarshalOrganization : string -> Result Organization.t;
  unmarshalIssueResponse : string -> Result IssueResponse.t;
  randSource : nat -> Z
}.

(** [NewClient].  [network] is what is behind the [http.Client] with its
    timeout of 30 seconds. *)
Definition NewClient (network : list http.Request -> http.Request -> http.Outcome)
  (cfg : config.GiteaConfig.t) : Client :=
  {| baseURL := config.GiteaConfig.URL cfg;
     token := config.GiteaConfig.Token cfg;
     httpClient := network |}.


Section WithClient.

Variable lib : Library.
Variable c : Client.

Definition doRequest (method path : string) (body : option http.Object)
  : M (string * Z * option string) :=
  fun s =>
    let req := http.mkRequest method path body in
    let s' := {| logs := logs s; calls := calls s ++ [req]; draws := draws s |} in
    match httpClient c (calls s) req with
    | http.NotBuilt err => ((EmptyString, 0, Some err), s')
    | http.SendFailed err => ((EmptyString, 0, Some err), s')
    | http.ReadFailed status err => ((EmptyString, status, Some err), s')
    | http.Replied respBody status => ((respBody, status, None), s')
    end.

Definition GetUser : M (Result Target.t) :=
  let* (respBody, statusCode, err) := doRequest "GET" "/api/v1/user" None in
  match err with
  | Some err => ret (Err err)
  | None =>
      if negb (statusCode =? http.StatusOK)
      then ret (Err ("failed to get user: status " +:+ fmt_d statusCode))
      else match unmarshalUser lib respBody with
           | Err err => ret (Err err)
           | Ok user =>
               ret (Ok {| Target.ID := User.ID user;
                          Target.Name := User.Username user;
                          Target.Type_ := "user" |})
           end
  end.

Definition GetOrganization (orgName : string) : M (Result Target.t) :=
  let* (respBody, statusCode, err) := doRequest "GET" ("/api/v1/orgs/" +:+ orgName) None in
  match err with
  | Some err => ret (Err err)
  | None =>
      if negb (statusCode =? http.StatusOK)
      then ret (Err ("failed to get organization " +:+ orgName +:+ ": status "
                     +:+ fmt_d statusCode))
      else match unmarshalOrganization lib respBody with
           | Err err => ret (Err err)
           | Ok org =>
               ret (Ok {| Target.ID := Organization.ID org;
                          Target.Name := orgName;
                          Target.Type_ := "organization" |})
           end
  end.

Definition CreateOrganization (orgName visibility : string) (dryRun : bool)
  : M (option string) :=
  if dryRun then
    Printf ("DRY RUN: Would create Gitea organization: " +:+ orgName +:+ " ("
            +:+ visibility +:+ ")") ;;;
    ret None
  else
    let* (_, statusCode, _) := doRequest "GET" ("/api/v1/orgs/" +:+ orgName) None in
    if statusCode =? http.StatusOK then
      Printf ("Organization " +:+ orgName +:+ " already exists") ;;;
      ret None
    else
      let createReq := [("username", http.VString orgName);
                        ("visibility", http.VString visibility)] in
      let* (_, statusCode, err) := doRequest "POST" "/api/v1/orgs" (Some createReq) in
      match err with
      | Some err => ret (Some err)
      | None =>
          if (statusCode =? http.StatusCreated)
             || (statusCode =? http.StatusUnprocessableEntity)
          then Printf ("Created organization: " +:+ orgName) ;;; ret None
          else ret (Some ("failed to create organization " +:+ orgName +:+ ": status "
                          +:+ fmt_d statusCode))
      end.

Definition IsRepositoryMirrored (repoName : string) (target : Target.t)
  : M (bool * option string) :=
  let path := "/api/v1/repos/" +:+ Target.Name target +:+ "/" +:+ repoName in
  let* (_, statusCode, _) := doRequest "GET" path None in
  ret (statusCode =? http.StatusOK, None).

Definition MirrorRepository (repo : ghrepo.Repository) (target : Target.t)
  (githubToken : string) : M (option string) :=
  let migrateReq :=
    {| MigrateRepoRequest.AuthToken := githubToken;
       MigrateRepoRequest.CloneAddr := ghrepo.URL repo;
       MigrateRepoRequest.Mirror := true;
       MigrateRepoRequest.RepoName := ghrepo.Name repo;
       MigrateRepoRequest.UID := Target.ID target;
       MigrateRepoRequest.Private := ghrepo.Private repo |} in
  let* (_, statusCode, err) :=
    doRequest "POST" "/api/v1/repos/migrate" (Some (MigrateRepoRequest.marshal migrateReq)) in
  match err with
  | Some err => ret (Some err)
  | None =>
      if negb (statusCode =? http.StatusCreated)
      then ret (Some ("failed to mirror repository " +:+ ghrepo.Name repo +:+ ": status "
                      +:+ fmt_d statusCode))
      else Printf ("Successfully mirrored: " +:+ ghrepo.Name repo) ;;; ret None
  end.

Definition StarRepository (repoName : string) (target : Target.t) (dryRun : bool)
  : M (option string) :=
  if dryRun then
    Printf ("DRY RUN: Would star repository in Gitea: " +:+ Target.Name target +:+ "/"
            +:+ repoName) ;;;
    ret None
  else
    let path := "/api/v1/user/starred/" +:+ Target.Name target +:+ "/" +:+ repoName in
    let* (_, statusCode, err) := doRequest "PUT" path None in
    match err with
    | Some err => ret (Some err)
    | None =>
        if negb (statusCode =? http.StatusNoContent)
        then ret (Some ("failed to star repository " +:+ Target.Name target +:+ "/"
                        +:+ repoName +:+ ": status " +:+ fmt_d statusCode))
        else Printf ("Successfully starred repository in Gitea: " +:+ Target.Name target
                     +:+ "/" +:+ repoName) ;;;
             ret None
    end.

(** [rand.Intn(n)]: the next number of the generator, in [0, n). *)
Definition randIntn (n : Z) : M Z :=
  fun s => (randSource lib (draws s) mod n,
            {| logs := logs s; calls := calls s; draws := S (draws s) |}).

Definition hexDigit (d : Z) : string := substring (Z.to_nat d) 1 "0123456789abcdef".

(** [%0wx] of a number below [16^w]. *)
Fixpoint fmt_0x (width : nat) (z : Z) : string :=
  match width with
  | O => EmptyString
  | S w => fmt_0x w (z / 16) +:+ hexDigit (z mod 16)
  end.

Definition generateRandomColor : M string :=
  let* n := randIntn 16777215 in
  ret (fmt_0x 6 n).

(** [%v] of an error that may be [nil]. *)
Definition fmt_v (err : option string) : string :=
  match err with
  | Some e => e
  | None => "<nil>"
  end.

Definition addLabelToIssue (repo : ghrepo.Repository) (target : Target.t)
  (issueNumber : Z) (labelName : string) : M unit :=
  let labelPath := "/api/v1/repos/" +:+ Target.Name target +:+ "/" +:+ ghrepo.Name repo
                   +:+ "/labels" in
  let* color := generateRandomColor in
  let label := {| Label.Name := labelName; Label.Color := color |} in
  doRequest "POST" labelPath (Some (Label.marshal label)) ;;;
  let issueLabelPath := "/api/v1/repos/" +:+ Target.Name target +:+ "/" +:+ ghrepo.Name repo
                        +:+ "/issues/" +:+ fmt_d issueNumber +:+ "/labels" in
  let labelList := [("labels", http.VStrings [labelName])] in
  let* (_, statusCode, err) := doRequest "POST" issueLabelPath (Some labelList) in
  if negb (match err with None => true | Some _ => false end)
     || negb (statusCode =? http.StatusOK)
  then Printf ("Error adding label " +:+ labelName +:+ " to issue: " +:+ fmt_v err)
  else ret tt.

Fixpoint addLabels (repo : ghrepo.Repository) (target : Target.t) (issueNumber : Z)
  (labels : list string) : M unit :=
  match labels with
  | [] => ret tt
  | label :: rest =>
      addLabelToIssue repo target issueNumber label ;;;
      addLabels repo target issueNumber rest
  end.

Definition createGiteaIssue (issue : github.Issue.t) (repo : ghrepo.Repository)
  (target : Target.t) : M (option string) :=
  let body := "*Originally created by @" +:+ github.Issue.UserLogin issue +:+ " on "
              +:+ github.Issue.CreatedAt issue +:+ "*" +:+ String (ascii_of_nat 10)
              (String (ascii_of_nat 10) EmptyString) +:+ github.Issue.Body issue in
  let giteaIssue :=
    {| Issue.Title := github.Issue.Title issue;
       Issue.Body := body;
       Issue.State := github.Issue.State issue;
       Issue.Closed := String.eqb (github.Issue.State issue) "closed" |} in
  let path := "/api/v1/repos/" +:+ Target.Name target +:+ "/" +:+ ghrepo.Name repo
              +:+ "/issues" in
  let* (respBody, statusCode, err) := doRequest "POST" path (Some (Issue.marshal giteaIssue)) in
  match err with
  | Some err => ret (Some err)
  | None =>
      if negb (statusCode =? http.StatusCreated)
      then ret (Some ("failed to create issue: status " +:+ fmt_d statusCode))
      else match unmarshalIssueResponse lib respBody with
           | Err err => ret (Some err)
           | Ok issueResp =>
               Printf ("Created issue #" +:+ fmt_d (IssueResponse.Number issueResp) +:+ ": "
                       +:+ github.Issue.Title issue) ;;;
               (if (0 <? length (github.Issue.Labels issue))%nat
                then addLabels repo target (IssueResponse.Number issueResp)
                               (github.Issue.Labels issue)
                else ret tt) ;;;
               ret None
           end
  end.

(** The pagination loop of [fetchGitHubIssues]. *)
Fixpoint paginateIssues (repo : ghrepo.Repository) (pages : github.Listing github.Issue.t)
  (allIssues : list github.Issue.t) : Result (list github.Issue.t) :=
  match pages with
  | github.PageError err =>
      Err ("error fetching issues for " +:+ ghrepo.Owner repo +:+ "/" +:+ ghrepo.Name repo
           +:+ ": " +:+ err)
  | github.LastPage issues => Ok (allIssues ++ issues)
  | github.NextPage issues rest => paginateIssues repo rest (allIssues ++ issues)
  end.

Definition fetchGitHubIssues (ghClient : github.Client) (repo : ghrepo.Repository)
  : Result (list github.Issue.t) :=
  paginateIssues repo
    (github.Issues_ListByRepo ghClient (ghrepo.Owner repo) (ghrepo.Name repo) "all") [].

Fixpoint createIssues (issues : list github.Issue.t) (repo : ghrepo.Repository)
  (target : Target.t) : M unit :=
  match issues with
  | [] => ret tt
  | issue :: rest =>
      let* err := createGiteaIssue issue repo target in
      match err with
      | Some err =>
          Printf ("Error creating issue '" +:+ github.Issue.Title issue +:+ "': " +:+ err)
      | None => ret tt
      end ;;;
      createIssues rest repo target
  end.

Definition MirrorIssues (ghClient : github.Client) (repo : ghrepo.Repository)
  (target : Target.t) (githubToken : string) (dryRun : bool) : M (option string) :=
  if negb (ghrepo.HasIssues repo) then
    Printf ("Repository " +:+ ghrepo.Name repo
            +:+ " doesn't have issues enabled. Skipping issues mirroring.") ;;;
    ret None
  else if dryRun then
    Printf ("DRY RUN: Would mirror issues for repository: " +:+ ghrepo.Name repo) ;;;
    ret None
  else
    match fetchGitHubIssues ghClient repo with
    | Err err => ret (Some err)
    | Ok issues =>
        Printf ("Found " +:+ fmt_len issues +:+ " issues for " +:+ ghrepo.Name repo) ;;;
        createIssues issues repo target ;;;
        Printf ("Completed mirroring issues for " +:+ ghrepo.Name repo) ;;;
        ret None
    end.

End WithClient.

End gitea.

(** ** Package [main] *)

Module main.

Import config.

Section Filter.

(** [doublestar.Match(pattern, name)]: whether the name matches, and the
    error for a malformed pattern. *)
Variable doublestar_Match : string -> string -> bool * option string.

(** The loops over [include] and over [exclude], each leaving at the
    first pattern that matches without error. *)
Fixpoint anyMatch (patterns : list string) (name : string) : bool :=
  match patterns with
  | [] => false
  | pattern :: rest =>
      let (matched, err) := doublestar_Match pattern name in
      match err with
      | None => if matched then true else anyMatch rest name
      | Some _ => anyMatch rest name
      end
  end.

Definition filterRepositories (repos : list ghrepo.Repository) (include exclude : list string)
  : list ghrepo.Repository :=
  fold_left
    (fun filtered repo =>
       let includeMatch := anyMatch include (ghrepo.Name repo) in
       if negb includeMatch then filtered
       else
         let excludeMatch := anyMatch exclude (ghrepo.Name repo) in
         if negb excludeMatch then filtered ++ [repo] else filtered)
    repos [].

End Filter.

Section Mirror.

Variable lib : gitea.Library.
Variable giteaClient : gitea.Client.
Variable ghClient : github.Client.
Variable cfg : Config.
Variable giteaUser : gitea.Target.t.
Variable orgTargets : gmap string gitea.Target.t.

Definition getDefaultTarget : M gitea.Target.t :=
  if negb (is_empty (GiteaConfig.Organization (Gitea cfg))) then
    let* org := gitea.GetOrganization lib giteaClient (GiteaConfig.Organization (Gitea cfg)) in
    match org with
    | Ok org => ret org
    | Err err =>
        Printf ("Warning: Failed to get Gitea organization "
                +:+ GiteaConfig.Organization (Gitea cfg) +:+ ", using user instead: " +:+ err) ;;;
        ret giteaUser
    end
  else ret giteaUser.

Definition typeAndName (t : gitea.Target.t) : string :=
  gitea.Target.Type_ t +:+ " " +:+ gitea.Target.Name t.

(** The first part of [mirrorRepository]: "Determine the target (user or
    organization)". *)
Definition resolveTarget (repo : ghrepo.Repository) : M gitea.Target.t :=
  if ghrepo.Starred repo && negb (is_empty (GiteaConfig.StarredReposOrg (Gitea cfg))) then
    let* starredOrg :=
      gitea.GetOrganization lib giteaClient (GiteaConfig.StarredReposOrg (Gitea cfg)) in
    match starredOrg with
    | Ok starredOrg =>
        Printf ("Using organization " +:+ dquote +:+ GiteaConfig.StarredReposOrg (Gitea cfg)
                +:+ dquote +:+ " for starred repository: " +:+ ghrepo.Name repo) ;;;
        ret starredOrg
    | Err _ =>
        Printf ("Could not find organization " +:+ dquote
                +:+ GiteaConfig.StarredReposOrg (Gitea cfg) +:+ dquote
                +:+ " for starred repositories, using default target") ;;;
        getDefaultTarget
    end
  else if GitHubConfig.PreserveOrgStructure (GitHub cfg)
          && negb (is_empty (ghrepo.Organization repo)) then
    match orgTargets !! ghrepo.Organization repo with
    | Some target => ret target
    | None =>
        Printf ("No Gitea organization found for " +:+ ghrepo.Organization repo
                +:+ ", using default target") ;;;
        getDefaultTarget
    end
  else getDefaultTarget.

(** "Star the repository if it's marked as starred", after the mirror
    was created. *)
Definition starMirror (repo : ghrepo.Repository) (giteaTarget : gitea.Target.t) : M unit :=
  if ghrepo.Starred repo then
    let* err := gitea.StarRepository giteaClient (ghrepo.Name repo) giteaTarget (DryRun cfg) in
    match err with
    | Some err =>
        Printf ("Warning: Failed to star repository " +:+ ghrepo.Name repo +:+ ": " +:+ err)
    | None => ret tt
    end
  else ret tt.

Definition shouldMirrorIssues (repo : ghrepo.Repository) : bool :=
  GitHubConfig.MirrorIssues (GitHub cfg)
  && negb (ghrepo.Starred repo && GitHubConfig.SkipStarredIssues (GitHub cfg)).

(** "Mirror issues if requested". *)
Definition replicateIssues (repo : ghrepo.Repository) (giteaTarget : gitea.Target.t)
  : M unit :=
  if shouldMirrorIssues repo && negb (DryRun cfg) then
    let* err := gitea.MirrorIssues lib giteaClient ghClient repo giteaTarget
                                   (GitHubConfig.Token (GitHub cfg)) (DryRun cfg) in
    match err with
    | Some err =>
        Printf ("Warning: Failed to mirror issues for " +:+ ghrepo.Name repo +:+ ": " +:+ err)
    | None => ret tt
    end
  else if ghrepo.Starred repo && GitHubConfig.SkipStarredIssues (GitHub cfg) then
    Printf ("Skipping issues for starred repository: " +:+ ghrepo.Name repo)
  else ret tt.

(** The last part of [mirrorRepository], from "Mirroring repository to"
    on: create the mirror, then star it and mirror its issues. *)
Definition createMirror (repo : ghrepo.Repository) (giteaTarget : gitea.Target.t)
  : M (option string) :=
  Printf ("Mirroring repository to " +:+ typeAndName giteaTarget +:+ ": " +:+ ghrepo.Name repo
          +:+ (if ghrepo.Starred repo then " (will be starred)" else EmptyString)) ;;;
  let* err := gitea.MirrorRepository giteaClient repo giteaTarget
                                     (GitHubConfig.Token (GitHub cfg)) in
  match err with
  | Some err => ret (Some err)
  | None =>
      starMirror repo giteaTarget ;;;
      replicateIssues repo giteaTarget ;;;
      ret None
  end.

Definition mirrorRepository (repo : ghrepo.Repository) : M (option string) :=
  let* giteaTarget := resolveTarget repo in
  let* (isAlreadyMirrored, err) :=
    gitea.IsRepositoryMirrored giteaClient (ghrepo.Name repo) giteaTarget in
  match err with
  | Some err => ret (Some err)
  | None =>
      if ghrepo.Starred repo then
        if isAlreadyMirrored then
          Printf ("Repository " +:+ ghrepo.Name repo +:+ " is already mirrored in "
                  +:+ typeAndName giteaTarget +:+ "; checking if it needs to be starred.") ;;;
          gitea.StarRepository giteaClient (ghrepo.Name repo) giteaTarget (DryRun cfg)
        else if DryRun cfg then
          Printf ("DRY RUN: Would mirror and star repository to " +:+ typeAndName giteaTarget
                  +:+ ": " +:+ ghrepo.Name repo +:+ " (starred)") ;;;
          ret None
        else createMirror repo giteaTarget
      else if isAlreadyMirrored then
        Printf ("Repository " +:+ ghrepo.Name repo +:+ " is already mirrored in "
                +:+ typeAndName giteaTarget +:+ "; doing nothing.") ;;;
        ret None
      else if DryRun cfg then
        Printf ("DRY RUN: Would mirror repository to " +:+ typeAndName giteaTarget
                +:+ ": " +:+ ghrepo.Name repo) ;;;
        ret None
      else createMirror repo giteaTarget
  end.

End Mirror.

(** What the function [main] takes from outside the program. *)
Record Runtime := mkRuntime {
  (* the environment of the process *)
  environ : gmap string string;
  (* time.Now().Format(time.RFC3339) in the logger *)
  clock : string;
  (* json.MarshalIndent on the redacted configuration *)
  marshalIndent : logger.RedactedConfig -> Result string;
  (* the network and the destination behind the destination client *)
  network : list http.Request -> http.Request -> http.Outcome;
  (* the source without and with a credential *)
  anonymousSource : github.Client;
  authenticatedSource : string -> github.Client;
  library : gitea.Library;
  doublestarMatch : string -> string -> bool * option string;
  (* the order in which [range] visits the keys of a map *)
  rangeOrder : gmap string bool -> list string
}.

Section Main.

Variable rt : Runtime.

(** "Get unique organization names from repositories". *)
Definition uniqueOrganizations (filteredRepos : list ghrepo.Repository) : gmap string bool :=
  fold_left
    (fun uniqueOrgs repo =>
       if negb (is_empty (ghrepo.Organization repo))
       then <[ghrepo.Organization repo := true]> uniqueOrgs
       else uniqueOrgs)
    filteredRepos ∅.

(** "Create or get each organization in Gitea": the loop over the names
    in the order of [range]. *)
Fixpoint prepareOrganizations (giteaClient : gitea.Client) (cfg : Config)
  (orgNames : list string) (orgTargets : gmap string gitea.Target.t)
  : M (gmap string gitea.Target.t) :=
  match orgNames with
  | [] => ret orgTargets
  | orgName :: rest =>
      Printf ("Preparing Gitea organization for GitHub organization: " +:+ orgName) ;;;
      let* err := gitea.CreateOrganization giteaClient orgName
                    (GiteaConfig.Visibility (Gitea cfg)) (DryRun cfg) in
      match err with
      | Some err =>
          Printf ("Error creating Gitea organization " +:+ orgName +:+ ": " +:+ err) ;;;
          prepareOrganizations giteaClient cfg rest orgTargets
      | None =>
          let* orgTarget := gitea.GetOrganization (library rt) giteaClient orgName in
          match orgTarget with
          | Err err =>
              Printf ("Error getting Gitea organization " +:+ orgName +:+ ": " +:+ err) ;;;
              prepareOrganizations giteaClient cfg rest orgTargets
          | Ok orgTarget =>
              prepareOrganizations giteaClient cfg rest (<[orgName := orgTarget]> orgTargets)
          end
      end
  end.

(** "Mirror repositories": the loop over [filteredRepos]. *)
Fixpoint mirrorAll (giteaClient : gitea.Client) (ghClient : github.Client) (cfg : Config)
  (giteaUser : gitea.Target.t) (orgTargets : gmap string gitea.Target.t)
  (filteredRepos : list ghrepo.Repository) : M unit :=
  match filteredRepos with
  | [] => ret tt
  | repo :: rest =>
      let* err := mirrorRepository (library rt) giteaClient ghClient cfg giteaUser orgTargets
                                   repo in
      match err with
      | Some err =>
          Printf ("Error mirroring repository " +:+ ghrepo.Name repo +:+ ": " +:+ err)
      | None => ret tt
      end ;;;
      mirrorAll giteaClient ghClient cfg giteaUser orgTargets rest
  end.

(** [log.Fatalf]: the line is logged and the process exits with status 1. *)
Definition Fatalf {A} (line : string) (output : A) : M (Z * A) :=
  Printf line ;;; ret (1, output).

(** [main]: the exit status of the process and what it wrote to standard
    output. *)
Definition main : M (Z * option string) :=
  match Load (environ rt) with
  | Err err => Fatalf ("invalid configuration: " +:+ err) None
  | Ok cfg =>
      let lgr := logger.New in
      let* output := logger.ShowConfig lgr (clock rt) (marshalIndent rt) cfg in
      let giteaClient := gitea.NewClient (network rt) (Gitea cfg) in
      (if negb (is_empty (GiteaConfig.Organization (Gitea cfg))) then
         let* err := gitea.CreateOrganization giteaClient (GiteaConfig.Organization (Gitea cfg))
                       (GiteaConfig.Visibility (Gitea cfg)) (DryRun cfg) in
         match err with
         | Some err =>
             Printf ("Warning: Failed to create Gitea organization "
                     +:+ GiteaConfig.Organization (Gitea cfg) +:+ ": " +:+ err)
         | None => ret tt
         end
       else ret tt) ;;;
      (if GitHubConfig.MirrorStarred (GitHub cfg)
          && negb (is_empty (GiteaConfig.StarredReposOrg (Gitea cfg))) then
         let* err := gitea.CreateOrganization giteaClient
                       (GiteaConfig.StarredReposOrg (Gitea cfg))
                       (GiteaConfig.Visibility (Gitea cfg)) (DryRun cfg) in
         match err with
         | Some err =>
             Printf ("Warning: Failed to create Gitea starred organization "
                     +:+ GiteaConfig.StarredReposOrg (Gitea cfg) +:+ ": " +:+ err)
         | None => ret tt
         end
       else ret tt) ;;;
      let ghClient := ghrepo.NewClient (anonymousSource rt) (authenticatedSource rt)
                        (GitHubConfig.Token (GitHub cfg)) in
      let* githubRepos :=
        ghrepo.GetRepositories ghClient
          {| ghrepo.Username := GitHubConfig.Username (GitHub cfg);
             ghrepo.PrivateRepositories := GitHubConfig.PrivateRepositories (GitHub cfg);
             ghrepo.SkipForks := GitHubConfig.SkipForks (GitHub cfg);
             ghrepo.MirrorStarred := GitHubConfig.MirrorStarred (GitHub cfg);
             ghrepo.MirrorOrganizations := GitHubConfig.MirrorOrganizations (GitHub cfg);
             ghrepo.SingleRepo := GitHubConfig.SingleRepo (GitHub cfg);
             ghrepo.IncludeOrgs := GitHubConfig.IncludeOrgs (GitHub cfg);
             ghrepo.ExcludeOrgs := GitHubConfig.ExcludeOrgs (GitHub cfg);
             ghrepo.PreserveOrgStructure := GitHubConfig.PreserveOrgStructure (GitHub cfg);
             ghrepo.UseSpecificUser := GitHubConfig.UseSpecificUser (GitHub cfg) |} in
      match githubRepos with
      | Err err => Fatalf ("Failed to fetch GitHub repositories: " +:+ err) output
      | Ok githubRepos =>
          let filteredRepos :=
            filterRepositories (doublestarMatch rt) githubRepos (Include cfg) (Exclude cfg) in
          Printf ("Found " +:+ fmt_len filteredRepos +:+ " repositories to mirror") ;;;
          let* giteaUser := gitea.GetUser (library rt) giteaClient in
          match giteaUser with
          | Err err => Fatalf ("Failed to get Gitea user: " +:+ err) output
          | Ok giteaUser =>
              let* orgTargets :=
                if GitHubConfig.PreserveOrgStructure (GitHub cfg) then
                  let uniqueOrgs := uniqueOrganizations filteredRepos in
                  prepareOrganizations giteaClient cfg (rangeOrder rt uniqueOrgs) ∅
                else ret ∅ in
              mirrorAll giteaClient ghClient cfg giteaUser orgTargets filteredRepos ;;;
              Printf "Mirroring process completed" ;;;
              ret (0, output)
          end
      end
  end.

End Main.


End main.

(** * Vocabulary of the statements, and sample inputs *)

(** The first record of a list that has the clone URL [url]. *)
Definition firstWithURL (url : string) (repositories : list ghrepo.Repository)
  : option ghrepo.Repository :=
  List.find (fun repo => String.eqb (ghrepo.URL repo) url) repositories.

(** The state of the loop of [filterDuplicates] after the records [done]:
    [seen] holds their URLs, [result] holds for each URL its first record,
    in the order of [done]. *)
Record loopInv (done : list ghrepo.Repository) (seen : gmap string bool)
  (result : list ghrepo.Repository) : Prop := {
  inv_seen : forall url, default false (seen !! url) = true <-> url ∈ map ghrepo.URL done;
  inv_first : forall repo, repo ∈ result <-> firstWithURL (ghrepo.URL repo) done = Some repo;
  inv_nodup : NoDup (map ghrepo.URL result);
  inv_sub : sublist result done
}.

(** A pattern matches a name when the matcher says so without error. *)
Definition matches (doublestar_Match : string -> string -> bool * option string)
  (pattern name : string) : Prop :=
  doublestar_Match pattern name = (true, None).

(** A matcher for the examples: [doublestar.Match] on names and patterns
    of ASCII characters without path separator and without backslash, in
    which braces are balanced and stand in no class.  Its patterns are
    made of literal characters, [?] (any one character), [*] (any run of
    characters), classes [[abc]], [[a-z]], [[!a]] and groups of
    alternatives [{a,b}].  As in the library, nothing checks a pattern
    before it is used: a class that does not end, or is empty, is reported
    as [ErrBadPattern] when the matching reaches it or, the name not
    matching, looks at the rest of the pattern; the alternatives of a
    group are tried from left to right, each with the rest of the pattern,
    and the first that matches or reports an error decides, so that an
    alternative after a matching one is never looked at. *)
Inductive Item : Type :=
| Single (ch : ascii)
| Range (lo hi : ascii).

Inductive Token : Type :=
| Lit (ch : ascii)
| AnyOne
| AnyRun
| Class (negate : bool) (items : list Item).

(** The items of a class up to its closing bracket, and what follows the
    bracket; [last] is the character a range can start from. *)
Fixpoint classItems (last : option ascii) (pattern : string)
  : option (list Item * string) :=
  match pattern with
  | EmptyString => None
  | String "]" rest => Some ([], rest)
  | String ch rest =>
      let single :=
        match classItems (Some ch) rest with
        | Some (items, rest') => Some (Single ch :: items, rest')
        | None => None
        end in
      match last, rest with
      | Some lo, String hi rest' =>
          if Ascii.eqb ch "-" && negb (Ascii.eqb hi "]") then
            match classItems None rest' with
            | Some (items, rest'') => Some (Range lo hi :: items, rest'')
            | None => None
            end
          else single
      | _, _ => single
      end
  end.

(** The class that [pattern] begins with, after its opening bracket. *)
Definition class (pattern : string) : option (Token * string) :=
  let (negate, pattern) :=
    match pattern with
    | String "!" rest => (true, rest)
    | String "^" rest => (true, rest)
    | _ => (false, pattern)
    end in
  match pattern with
  | EmptyString => None
  | String "]" _ => None
  | _ =>
      match classItems None pattern with
      | Some (items, rest) => Some (Class negate items, rest)
      | None => None
      end
  end.

(** A pattern read up to its first group of alternatives. *)
Inductive Parsed : Type :=
| Malformed
| Plain (tokens : list Token)
| Branch (tokens : list Token) (rest : string).

Definition after (token : Token) (parsed : Parsed) : Parsed :=
  match parsed with
  | Malformed => Malformed
  | Plain tokens => Plain (token :: tokens)
  | Branch tokens rest => Branch (token :: tokens) rest
  end.

Fixpoint parse (fuel : nat) (pattern : string) : Parsed :=
  match pattern, fuel with
  | EmptyString, _ => Plain []
  | _, O => Malformed
  | String "{" rest, _ => Branch [] rest
  | String "[" rest, S fuel =>
      match class rest with
      | Some (token, rest') => after token (parse fuel rest')
      | None => Malformed
      end
  | String "*" rest, S fuel => after AnyRun (parse fuel rest)
  | String "?" rest, S fuel => after AnyOne (parse fuel rest)
  | String ch rest, S fuel => after (Lit ch) (parse fuel rest)
  end.

(** The alternatives of a group, from after its opening brace to its
    closing brace, and what follows the closing brace. *)
Fixpoint closing (depth : nat) (pattern : string) : option (string * string) :=
  match pattern with
  | EmptyString => None
  | String ch rest =>
      if Ascii.eqb ch "}" && (depth =? 0)%nat then Some (EmptyString, rest)
      else
        let depth := if Ascii.eqb ch "{" then S depth
                     else if Ascii.eqb ch "}" then pred depth else depth in
        match closing depth rest with
        | Some (body, rest') => Some (String ch body, rest')
        | None => None
        end
  end.

Fixpoint alternatives (depth : nat) (body : string) : list string :=
  match body with
  | EmptyString => [EmptyString]
  | String ch rest =>
      if Ascii.eqb ch "," && (depth =? 0)%nat then EmptyString :: alternatives 0 rest
      else
        let depth := if Ascii.eqb ch "{" then S depth
                     else if Ascii.eqb ch "}" then pred depth else depth in
        match alternatives depth rest with
        | [] => [String ch EmptyString]
        | alt :: alts => String ch alt :: alts
        end
  end.

Definition itemMatches (ch : ascii) (item : Item) : bool :=
  match item with
  | Single ch' => Ascii.eqb ch ch'
  | Range lo hi => ((nat_of_ascii lo <=? nat_of_ascii ch)
                    && (nat_of_ascii ch <=? nat_of_ascii hi))%nat
  end.

Definition tokenMatches (token : Token) (ch : ascii) : bool :=
  match token with
  | Lit ch' => Ascii.eqb ch ch'
  | AnyOne => negb (Ascii.eqb ch "/")
  | AnyRun => false
  | Class negate items => xorb negate (existsb (itemMatches ch) items)
  end.

Fixpoint star (rest : string -> bool) (name : string) : bool :=
  rest name
  || match name with
     | EmptyString => false
     | String ch name' => negb (Ascii.eqb ch "/") && star rest name'
     end.

Fixpoint glob (tokens : list Token) (name : string) : bool :=
  match tokens with
  | [] => is_empty name
  | AnyRun :: tokens' => star (glob tokens') name
  | token :: tokens' =>
      match name with
      | EmptyString => false
      | String ch name' => tokenMatches token ch && glob tokens' name'
      end
  end.

Definition ErrBadPattern : string := "syntax error in pattern".

(** [fuel] bounds the number of groups taken apart; every group that is
    taken apart makes the pattern shorter. *)
Fixpoint expand (fuel : nat) (before : list Token) (pattern name : string)
  : bool * option string :=
  match parse (String.length pattern) pattern with
  | Malformed => (false, Some ErrBadPattern)
  | Plain tokens => (glob (before ++ tokens) name, None)
  | Branch tokens rest =>
      match closing 0 rest, fuel with
      | Some (body, rest'), S fuel =>
          (fix try (alts : list string) : bool * option string :=
             match alts with
             | [] => (false, None)
             | alt :: alts' =>
                 let result := expand fuel (before ++ tokens) (alt +:+ rest') name in
                 match result, alts' with
                 | (false, None), _ :: _ => try alts'
                 | _, _ => result
                 end
             end) (alternatives 0 body)
      | _, _ => (false, Some ErrBadPattern)
      end
  end.

Definition sampleMatch (pattern name : string) : bool * option string :=
  expand (String.length pattern) [] pattern name.

Definition sampleRepo (name : string) (fork starred : bool) : ghrepo.Repository :=
  {| ghrepo.Name := name;
     ghrepo.URL := "https://github.com/octo/" +:+ name +:+ ".git";
     ghrepo.Private := false;
     ghrepo.Fork := fork;
     ghrepo.Owner := "octo";
     ghrepo.FullName := "octo/" +:+ name;
     ghrepo.HasIssues := true;
     ghrepo.Organization := EmptyString;
     ghrepo.Starred := starred |}.

(** A source account for the examples: two owned repositories on two
    pages, one of them starred as well, one more starred repository, and
    two organizations, the listing of [acme] failing on its second page. *)
Definition sampleSource (name : string) : github.Repository.t :=
  {| github.Repository.Name := name;
     github.Repository.CloneURL := "https://github.com/octo/" +:+ name +:+ ".git";
     github.Repository.Private := false;
     github.Repository.Fork := false;
     github.Repository.OwnerLogin := "octo";
     github.Repository.FullName := "octo/" +:+ name;
     github.Repository.HasIssues := true |}.

Definition sampleIssue : github.Issue.t :=
  {| github.Issue.Title := "Crash on start";
     github.Issue.Body := "It crashes.";
     github.Issue.State := "closed";
     github.Issue.UserLogin := "mona";
     github.Issue.CreatedAt := "2024-02-29";
     github.Issue.Labels := ["bug"] |}.

Definition sampleGitHub : github.Client :=
  {| github.Repositories_Get := fun owner repo => Ok (sampleSource repo);
     github.Repositories_List := fun user affiliation visibility =>
       if String.eqb visibility "private" then github.LastPage []
       else github.NextPage [sampleSource "lib-a"] (github.LastPage [sampleSource "app-x"]);
     github.Activity_ListStarred := fun user =>
       github.LastPage [ {| github.StarredRepository.Repository := sampleSource "lib-a" |};
                         {| github.StarredRepository.Repository := sampleSource "lib-b" |} ];
     github.Organizations_List := fun user =>
       github.LastPage [ {| github.Organization.Login := "acme" |};
                         {| github.Organization.Login := "zeta" |} ];
     github.Search_Repositories := fun query => github.PageError "rate limited";
     github.Repositories_ListByOrg := fun org =>
       if String.eqb org "acme"
       then github.NextPage [sampleSource "tool"] (github.PageError "boom")
       else github.LastPage [sampleSource "zeta-core"];
     github.Issues_ListByRepo := fun owner repo state => github.LastPage [sampleIssue] |}.

Definition sampleOptions : ghrepo.FetchOptions :=
  {| ghrepo.Username := "octo";
     ghrepo.PrivateRepositories := false;
     ghrepo.SkipForks := true;
     ghrepo.MirrorStarred := true;
     ghrepo.MirrorOrganizations := false;
     ghrepo.SingleRepo := EmptyString;
     ghrepo.IncludeOrgs := [];
     ghrepo.ExcludeOrgs := [];
     ghrepo.PreserveOrgStructure := false;
     ghrepo.UseSpecificUser := false |}.

(** What the collection modes of [sampleOptions] give on [sampleGitHub],
    in order: the owned [lib-a] and [app-x], then the starred [lib-a] and
    [lib-b]. *)
Definition sampleCombined : list ghrepo.Repository :=
  [ sampleRepo "lib-a" false false; sampleRepo "app-x" false false;
    sampleRepo "lib-a" false true; sampleRepo "lib-b" false true ].

(** The items of the pages of a listing that arrive before its first
    failing page, and the error of that page if there is one. *)
Fixpoint fetched {A} (pages : github.Listing A) : list A :=
  match pages with
  | github.PageError _ => []
  | github.LastPage items => items
  | github.NextPage items rest => items ++ fetched rest
  end.

Fixpoint failure {A} (pages : github.Listing A) : option string :=
  match pages with
  | github.PageError err => Some err
  | github.LastPage _ => None
  | github.NextPage _ rest => failure rest
  end.

(** The listing [fetchOrganizationRepositories] pages through for one
    organization, and the records the organization adds to the output. *)
Definition orgListing (client : github.Client) (privateRepoAccess : bool) (orgName : string)
  : github.Listing github.Repository.t :=
  if privateRepoAccess then github.Search_Repositories client ("org:" +:+ orgName)
  else github.Repositories_ListByOrg client orgName.

Definition contribution (client : github.Client)
  (preserveOrgStructure privateRepoAccess : bool) (org : github.Organization.t)
  : list ghrepo.Repository :=
  let orgName := github.Organization.Login org in
  let repos := map (fun repo => ghrepo.toRepository repo preserveOrgStructure)
                   (fetched (orgListing client privateRepoAccess orgName)) in
  if preserveOrgStructure then map (ghrepo.setOrganization orgName) repos else repos.

Definition failed {A} (pages : github.Listing A) : bool :=
  match failure pages with
  | Some _ => true
  | None => false
  end.

(** The state after the lines were logged, in order. *)
Definition loggedAll (lines : list string) (s : State) : State :=
  {| logs := logs s ++ lines; calls := calls s; draws := draws s |}.

(** The line that reports the failing page of the listing of an
    organization, and the lines [fetchOrganizationRepositories] logs for
    one organization: the failure, if there is one, comes before the
    count of the records that were fetched. *)
Definition organizationFailureLine (orgName err : string) : string :=
  "Error fetching repositories for org " +:+ orgName +:+ ": " +:+ err.

Definition organizationLines (client : github.Client) (privateRepoAccess : bool)
  (org : github.Organization.t) : list string :=
  let orgName := github.Organization.Login org in
  let pages := orgListing client privateRepoAccess orgName in
  ["Fetching repositories for organization: " +:+ orgName]
  ++ (if privateRepoAccess
      then ["Using search API to fetch both public and private repositories for org: "
            +:+ orgName]
      else [])
  ++ match failure pages with
     | Some err => [organizationFailureLine orgName err]
     | None => []
     end
  ++ ["Found " +:+ fmt_len (fetched pages)
      +:+ (if privateRepoAccess then " repositories (public and private) for org: "
           else " public repositories for org: ")
      +:+ orgName].

(** The user whose starred repositories and organizations are listed. *)
Definition listedUser (opts : ghrepo.FetchOptions) : string :=
  if ghrepo.UseSpecificUser opts then ghrepo.Username opts else EmptyString.

(** Some listing whose failure [GetRepositories] returns fails: the owned
    repositories, the private ones, the starred ones or the organizations
    of the account, each if its mode is enabled. *)
Definition fatalListingFails (client : github.Client) (opts : ghrepo.FetchOptions) : bool :=
  failed (github.Repositories_List client (ghrepo.Username opts) EmptyString EmptyString)
  || (ghrepo.PrivateRepositories opts
      && failed (github.Repositories_List client EmptyString "owner" "private"))
  || (ghrepo.MirrorStarred opts
      && failed (github.Activity_ListStarred client (listedUser opts)))
  || (ghrepo.MirrorOrganizations opts
      && failed (github.Organizations_List client (listedUser opts))).

Definition isErr {A} (r : Result A) : bool :=
  match r with
  | Err _ => true
  | Ok _ => false
  end.

(** The environment of the test suite's [provideMandatory]. *)
Definition mandatoryEnv : gmap string string :=
  <["GITHUB_USERNAME" := "test-username"]>
  (<["GITEA_URL" := "https://gitea.url"]>
  (<["GITEA_TOKEN" := "secret-gitea-token"]> ∅)).

(** A computation [keeps] a relation on states when, started in any
    state, it ends in a related one. *)
Definition keeps (R : State -> State -> Prop) {A} (m : M A) : Prop :=
  forall s, R s (snd (m s)).

(** The requests that [doRequest] was called for between two states all
    satisfy [P]. *)
Definition sends (P : http.Request -> Prop) (s s' : State) : Prop :=
  exists new, calls s' = calls s ++ new /\ Forall P new.

(** Lines are only ever added to the log. *)
Definition logsGrow (s s' : State) : Prop :=
  exists more, logs s' = logs s ++ more.

Definition isGET (req : http.Request) : Prop := http.method req = "GET".

Definition anyRequest (req : http.Request) : Prop := True.

(** [log.Printf] seen as a change of state. *)
Definition logged (line : string) (s : State) : State := snd (Printf line s).

(** The line the orchestrator logs in dry-run mode for a repository that
    is not mirrored yet. *)
Definition dryRunLine (repo : ghrepo.Repository) (giteaTarget : gitea.Target.t) : string :=
  if ghrepo.Starred repo
  then "DRY RUN: Would mirror and star repository to " +:+ main.typeAndName giteaTarget
       +:+ ": " +:+ ghrepo.Name repo +:+ " (starred)"
  else "DRY RUN: Would mirror repository to " +:+ main.typeAndName giteaTarget
       +:+ ": " +:+ ghrepo.Name repo.

(** A destination for the examples: the paths of [existing] answer a
    [GET] with 200 and all others with 404, starring answers
    [starStatus], and every [POST] answers 201. *)
Definition sampleServer (existing : list string) (starStatus : Z)
  : list http.Request -> http.Request -> http.Outcome :=
  fun history req =>
    if String.eqb (http.method req) "GET" then
      if existsb (String.eqb (http.path req)) existing
      then http.Replied "{}" 200
      else http.Replied "Not Found" 404
    else if String.eqb (http.method req) "PUT" then http.Replied EmptyString starStatus
    else http.Replied "{}" 201.

Definition sampleGitea (existing : list string) (starStatus : Z) : gitea.Client :=
  {| gitea.baseURL := "https://gitea.url";
     gitea.token := "secret-gitea-token";
     gitea.httpClient := sampleServer existing starStatus |}.

Definition sampleLibrary : gitea.Library :=
  {| gitea.unmarshalUser := fun _ => Ok {| gitea.User.ID := 1; gitea.User.Username := "octo" |};
     gitea.unmarshalOrganization := fun _ =>
       Ok {| gitea.Organization.ID := 7; gitea.Organization.Username := "github" |};
     gitea.unmarshalIssueResponse := fun _ => Ok {| gitea.IssueResponse.Number := 1 |};
     gitea.randSource := fun k => 255 + Z.of_nat k |}.

Definition sampleUser : gitea.Target.t :=
  {| gitea.Target.ID := 1; gitea.Target.Name := "octo"; gitea.Target.Type_ := "user" |}.

Definition sampleConfig (dryRun : bool) : config.Config :=
  {| config.GitHub :=
       {| config.GitHubConfig.Username := "octo";
          config.GitHubConfig.Token := "ghp_token";
          config.GitHubConfig.SkipForks := false;
          config.GitHubConfig.PrivateRepositories := false;
          config.GitHubConfig.MirrorIssues := true;
          config.GitHubConfig.MirrorStarred := true;
          config.GitHubConfig.MirrorOrganizations := false;
          config.GitHubConfig.UseSpecificUser := false;
          config.GitHubConfig.SingleRepo := EmptyString;
          config.GitHubConfig.IncludeOrgs := [];
          config.GitHubConfig.ExcludeOrgs := [];
          config.GitHubConfig.PreserveOrgStructure := true;
          config.GitHubConfig.SkipStarredIssues := false |};
     config.Gitea :=
       {| config.GiteaConfig.URL := "https://gitea.url";
          config.GiteaConfig.Token := "secret-gitea-token";
          config.GiteaConfig.Organization := EmptyString;
          config.GiteaConfig.Visibility := "public";
          config.GiteaConfig.StarredReposOrg := "github" |};
     config.DryRun := dryRun;
     config.Delay := 3600;
     config.Include := ["*"];
     config.Exclude := [];
     config.SingleRun := true |}.

Definition githubOrg : gitea.Target.t :=
  {| gitea.Target.ID := 7; gitea.Target.Name := "github";
     gitea.Target.Type_ := "organization" |}.

(** The two lines [mirrorRepository] logs when it resolves the target of
    a starred repository. *)
Definition usingStarredOrgLine (cfg : config.Config) (repo : ghrepo.Repository) : string :=
  "Using organization " +:+ dquote +:+ config.GiteaConfig.StarredReposOrg (config.Gitea cfg)
  +:+ dquote +:+ " for starred repository: " +:+ ghrepo.Name repo.

Definition noStarredOrgLine (cfg : config.Config) : string :=
  "Could not find organization " +:+ dquote
  +:+ config.GiteaConfig.StarredReposOrg (config.Gitea cfg) +:+ dquote
  +:+ " for starred repositories, using default target".

(** A configuration that differs from [sampleConfig] in what target
    resolution could look at besides the starred organization. *)
Definition sampleOrgTargets : gmap string gitea.Target.t :=
  <["acme" := {| gitea.Target.ID := 9; gitea.Target.Name := "acme";
                 gitea.Target.Type_ := "organization" |}]> ∅.

Definition starredOrgEnv : gmap string string :=
  <["GITHUB_TOKEN" := "ghp_token"]> (<["MIRROR_STARRED" := "true"]> mandatoryEnv).

(** The configuration [Load] gives for [starredOrgEnv]. *)
Definition starredOrgConfig : config.Config :=
  {| config.GitHub :=
       {| config.GitHubConfig.Username := "test-username";
          config.GitHubConfig.Token := "ghp_token";
          config.GitHubConfig.SkipForks := false;
          config.GitHubConfig.PrivateRepositories := false;
          config.GitHubConfig.MirrorIssues := false;
          config.GitHubConfig.MirrorStarred := true;
          config.GitHubConfig.MirrorOrganizations := false;
          config.GitHubConfig.UseSpecificUser := false;
          config.GitHubConfig.SingleRepo := EmptyString;
          config.GitHubConfig.IncludeOrgs := [];
          config.GitHubConfig.ExcludeOrgs := [];
          config.GitHubConfig.PreserveOrgStructure := false;
          config.GitHubConfig.SkipStarredIssues := false |};
     config.Gitea :=
       {| config.GiteaConfig.URL := "https://gitea.url";
          config.GiteaConfig.Token := "secret-gitea-token";
          config.GiteaConfig.Organization := EmptyString;
          config.GiteaConfig.Visibility := "public";
          config.GiteaConfig.StarredReposOrg := "github" |};
     config.DryRun := false;
     config.Delay := 3600;
     config.Include := ["*"];
     config.Exclude := [];
     config.SingleRun := false |}.

(** The lines of the orchestrator the statements name. *)
Definition mirroringLine (repo : ghrepo.Repository) (giteaTarget : gitea.Target.t) : string :=
  "Mirroring repository to " +:+ main.typeAndName giteaTarget +:+ ": " +:+ ghrepo.Name repo
  +:+ (if ghrepo.Starred repo then " (will be starred)" else EmptyString).

Definition alreadyMirroredLine (repo : ghrepo.Repository) (giteaTarget : gitea.Target.t)
  : string :=
  "Repository " +:+ ghrepo.Name repo +:+ " is already mirrored in "
  +:+ main.typeAndName giteaTarget
  +:+ (if ghrepo.Starred repo then "; checking if it needs to be starred."
       else "; doing nothing.").

Definition starWarning (repo : ghrepo.Repository) (err : string) : string :=
  "Warning: Failed to star repository " +:+ ghrepo.Name repo +:+ ": " +:+ err.

Definition issuesWarning (repo : ghrepo.Repository) (err : string) : string :=
  "Warning: Failed to mirror issues for " +:+ ghrepo.Name repo +:+ ": " +:+ err.

(** The request [IsRepositoryMirrored] sends and the request
    [MirrorRepository] sends. *)
Definition existenceRequest (repoName : string) (target : gitea.Target.t) : http.Request :=
  http.mkRequest "GET" ("/api/v1/repos/" +:+ gitea.Target.Name target +:+ "/" +:+ repoName)
                 None.

Definition migrateBody (repo : ghrepo.Repository) (target : gitea.Target.t)
  (githubToken : string) : http.Object :=
  gitea.MigrateRepoRequest.marshal
    {| gitea.MigrateRepoRequest.AuthToken := githubToken;
       gitea.MigrateRepoRequest.CloneAddr := ghrepo.URL repo;
       gitea.MigrateRepoRequest.Mirror := true;
       gitea.MigrateRepoRequest.RepoName := ghrepo.Name repo;
       gitea.MigrateRepoRequest.UID := gitea.Target.ID target;
       gitea.MigrateRepoRequest.Private := ghrepo.Private repo |}.

Definition migrateRequest (repo : ghrepo.Repository) (target : gitea.Target.t)
  (githubToken : string) : http.Request :=
  http.mkRequest "POST" "/api/v1/repos/migrate" (Some (migrateBody repo target githubToken)).

(** The status code [doRequest] returns for an outcome. *)
Definition statusCode (outcome : http.Outcome) : Z :=
  match outcome with
  | http.NotBuilt _ => 0
  | http.SendFailed _ => 0
  | http.ReadFailed status _ => status
  | http.Replied _ status => status
  end.

(** The state after [doRequest] was called for a request. *)
Definition sent (req : http.Request) (s : State) : State :=
  {| logs := logs s; calls := calls s ++ [req]; draws := draws s |}.

(** A destination where the mirror of the starred [lib-b] exists in the
    organization [github] and starring answers 500. *)
Definition starFailsGitea : gitea.Client :=
  sampleGitea ["/api/v1/orgs/github"; "/api/v1/repos/github/lib-b"] 500.

(** A destination without mirrors where starring answers 500, and a
    source whose issue listing fails. *)
Definition noMirrorStarFailsGitea : gitea.Client :=
  sampleGitea ["/api/v1/orgs/github"] 500.

Definition issuesFailGitHub : github.Client :=
  {| github.Repositories_Get := github.Repositories_Get sampleGitHub;
     github.Repositories_List := github.Repositories_List sampleGitHub;
     github.Activity_ListStarred := github.Activity_ListStarred sampleGitHub;
     github.Organizations_List := github.Organizations_List sampleGitHub;
     github.Search_Repositories := github.Search_Repositories sampleGitHub;
     github.Repositories_ListByOrg := github.Repositories_ListByOrg sampleGitHub;
     github.Issues_ListByRepo := fun owner repo state => github.PageError "502 Bad Gateway" |}.

(** An environment that sets a source credential and enables no mode that
    requires one, and the configuration [Load] gives for it. *)
Definition tokenOnlyEnv : gmap string string :=
  <["GITHUB_TOKEN" := "ghp_token"]> mandatoryEnv.

Definition tokenOnlyConfig : config.Config :=
  {| config.GitHub :=
       {| config.GitHubConfig.Username := "test-username";
          config.GitHubConfig.Token := "ghp_token";
          config.GitHubConfig.SkipForks := false;
          config.GitHubConfig.PrivateRepositories := false;
          config.GitHubConfig.MirrorIssues := false;
          config.GitHubConfig.MirrorStarred := false;
          config.GitHubConfig.MirrorOrganizations := false;
          config.GitHubConfig.UseSpecificUser := false;
          config.GitHubConfig.SingleRepo := EmptyString;
          config.GitHubConfig.IncludeOrgs := [];
          config.GitHubConfig.ExcludeOrgs := [];
          config.GitHubConfig.PreserveOrgStructure := false;
          config.GitHubConfig.SkipStarredIssues := false |};
     config.Gitea :=
       {| config.GiteaConfig.URL := "https://gitea.url";
          config.GiteaConfig.Token := "secret-gitea-token";
          config.GiteaConfig.Organization := EmptyString;
          config.GiteaConfig.Visibility := "public";
          config.GiteaConfig.StarredReposOrg := "github" |};
     config.DryRun := false;
     config.Delay := 3600;
     config.Include := ["*"];
     config.Exclude := [];
     config.SingleRun := false |}.

(** A destination that answers every request with status 200 and a body
    that cannot be read. *)
Definition brokenBodyGitea : gitea.Client :=
  {| gitea.baseURL := "https://gitea.url";
     gitea.token := "secret-gitea-token";
     gitea.httpClient := fun history req => http.ReadFailed 200 "unexpected EOF" |}.

(** Collection from the organizations of the account, keeping their
    structure, and a source whose listing of organizations fails. *)
Definition orgOptions : ghrepo.FetchOptions :=
  {| ghrepo.Username := "octo";
     ghrepo.PrivateRepositories := false;
     ghrepo.SkipForks := false;
     ghrepo.MirrorStarred := false;
     ghrepo.MirrorOrganizations := true;
     ghrepo.SingleRepo := EmptyString;
     ghrepo.IncludeOrgs := [];
     ghrepo.ExcludeOrgs := [];
     ghrepo.PreserveOrgStructure := true;
     ghrepo.UseSpecificUser := false |}.

Definition orgsFailGitHub : github.Client :=
  {| github.Repositories_Get := github.Repositories_Get sampleGitHub;
     github.Repositories_List := github.Repositories_List sampleGitHub;
     github.Activity_ListStarred := github.Activity_ListStarred sampleGitHub;
     github.Organizations_List := fun user => github.PageError "503 Service Unavailable";
     github.Search_Repositories := github.Search_Repositories sampleGitHub;
     github.Repositories_ListByOrg := github.Repositories_ListByOrg sampleGitHub;
     github.Issues_ListByRepo := github.Issues_ListByRepo sampleGitHub |}.

(** The no-break space U+00A0 in UTF-8. *)
Definition nbsp : string := strings.bytes [194; 160]%nat.

(** Whether a character occurs in a string. *)
Fixpoint hasChar (ch : ascii) (s : string) : bool :=
  match s with
  | EmptyString => false
  | String ch' s' => Ascii.eqb ch ch' || hasChar ch s'
  end.

(** A source whose single repositories are forks, and the options of the
    single-repository mode with fork skipping. *)
Definition forkGitHub : github.Client :=
  {| github.Repositories_Get := fun owner repo =>
       Ok {| github.Repository.Name := repo;
             github.Repository.CloneURL := "https://github.com/" +:+ owner +:+ "/" +:+ repo
                                           +:+ ".git";
             github.Repository.Private := false;
             github.Repository.Fork := true;
             github.Repository.OwnerLogin := owner;
             github.Repository.FullName := owner +:+ "/" +:+ repo;
             github.Repository.HasIssues := false |};
     github.Repositories_List := github.Repositories_List sampleGitHub;
     github.Activity_ListStarred := github.Activity_ListStarred sampleGitHub;
     github.Organizations_List := github.Organizations_List sampleGitHub;
     github.Search_Repositories := github.Search_Repositories sampleGitHub;
     github.Repositories_ListByOrg := github.Repositories_ListByOrg sampleGitHub;
     github.Issues_ListByRepo := github.Issues_ListByRepo sampleGitHub |}.

Definition singleOptions (skipForks : bool) : ghrepo.FetchOptions :=
  {| ghrepo.Username := "octo";
     ghrepo.PrivateRepositories := false;
     ghrepo.SkipForks := skipForks;
     ghrepo.MirrorStarred := true;
     ghrepo.MirrorOrganizations := true;
     ghrepo.SingleRepo := "https://github.com/octo/lib-a.git";
     ghrepo.IncludeOrgs := [];
     ghrepo.ExcludeOrgs := [];
     ghrepo.PreserveOrgStructure := false;
     ghrepo.UseSpecificUser := false |}.

(** The listings of the owned, the private and the starred repositories
    as [GetRepositories] asks for them. *)
Definition ownedListing (client : github.Client) (opts : ghrepo.FetchOptions)
  : github.Listing github.Repository.t :=
  github.Repositories_List client (ghrepo.Username opts) EmptyString EmptyString.

Definition privateListing (client : github.Client) : github.Listing github.Repository.t :=
  github.Repositories_List client EmptyString "owner" "private".

(** What [fetchSingleRepository] returns once the reference [repoURL] is
    read as [owner] and [repoName]. *)
Definition singleLookup (client : github.Client) (repoURL owner repoName : string)
  : Result ghrepo.Repository :=
  match github.Repositories_Get client owner repoName with
  | Err err => Err ("error fetching single repository " +:+ repoURL +:+ ": " +:+ err)
  | Ok repo => Ok (ghrepo.toRepository repo false)
  end.

(** The requests of the destination client that the statements name. *)
Definition organizationRequest (orgName : string) : http.Request :=
  http.mkRequest "GET" ("/api/v1/orgs/" +:+ orgName) None.

Definition userRequest : http.Request := http.mkRequest "GET" "/api/v1/user" None.

Definition createOrganizationRequest (orgName visibility : string) : http.Request :=
  http.mkRequest "POST" "/api/v1/orgs"
    (Some [("username", http.VString orgName); ("visibility", http.VString visibility)]).

Definition starRequest (repoName : string) (target : gitea.Target.t) : http.Request :=
  http.mkRequest "PUT"
    ("/api/v1/user/starred/" +:+ gitea.Target.Name target +:+ "/" +:+ repoName) None.

(** The response arrived, was read and has the status [status]. *)
Definition repliedWith (status : Z) (outcome : http.Outcome) : Prop :=
  exists respBody, outcome = http.Replied respBody status.

(** The listing of the issues of a repository as [fetchGitHubIssues] asks
    for it. *)
Definition issueListing (ghClient : github.Client) (repo : ghrepo.Repository)
  : github.Listing github.Issue.t :=
  github.Issues_ListByRepo ghClient (ghrepo.Owner repo) (ghrepo.Name repo) "all".

(** The title of the issue a request carries, if it carries one. *)
Definition issueTitle (req : http.Request) : option string :=
  match http.body req with
  | Some object =>
      match http.member "title" object with
      | Some (http.VString title) => Some title
      | _ => None
      end
  | None => None
  end.

Definition noIssue (req : http.Request) : Prop := issueTitle req = None.

(** The issue was created: the response has status 201 and decodes. *)
Definition issueCreated (lib : gitea.Library) (outcome : http.Outcome) : Prop :=
  exists respBody issueResp,
    outcome = http.Replied respBody 201
    /\ gitea.unmarshalIssueResponse lib respBody = Ok issueResp.

(** The path of the issues of a repository under a target. *)
Definition issuesPath (repo : ghrepo.Repository) (target : gitea.Target.t) : string :=
  "/api/v1/repos/" +:+ gitea.Target.Name target +:+ "/" +:+ ghrepo.Name repo +:+ "/issues".

(** The line [getDefaultTarget] logs when the lookup of the configured
    organization fails. *)
Definition defaultTargetWarning (cfg : config.Config) (err : string) : string :=
  "Warning: Failed to get Gitea organization "
  +:+ config.GiteaConfig.Organization (config.Gitea cfg) +:+ ", using user instead: " +:+ err.

(** The line [mirrorRepository] logs when no pre-resolved target exists
    for the organization of a repository. *)
Definition noOrgTargetLine (repo : ghrepo.Repository) : string :=
  "No Gitea organization found for " +:+ ghrepo.Organization repo +:+ ", using default target".

(** A destination that has no repository and refuses to create one. *)
Definition refusingGitea : gitea.Client :=
  {| gitea.baseURL := "https://gitea.url";
     gitea.token := "secret-gitea-token";
     gitea.httpClient := fun history req =>
       if String.eqb (http.method req) "GET" then http.Replied "Not Found" 404
       else http.Replied "Conflict" 409 |}.

(** [sampleConfig] without dry-run and with the issues of starred
    repositories skipped. *)
Definition skipStarredIssuesConfig : config.Config :=
  {| config.GitHub :=
       {| config.GitHubConfig.Username := "octo";
          config.GitHubConfig.Token := "ghp_token";
          config.GitHubConfig.SkipForks := false;
          config.GitHubConfig.PrivateRepositories := false;
          config.GitHubConfig.MirrorIssues := true;
          config.GitHubConfig.MirrorStarred := true;
          config.GitHubConfig.MirrorOrganizations := false;
          config.GitHubConfig.UseSpecificUser := false;
          config.GitHubConfig.SingleRepo := EmptyString;
          config.GitHubConfig.IncludeOrgs := [];
          config.GitHubConfig.ExcludeOrgs := [];
          config.GitHubConfig.PreserveOrgStructure := true;
          config.GitHubConfig.SkipStarredIssues := true |};
     config.Gitea := config.Gitea (sampleConfig false);
     config.DryRun := false;
     config.Delay := 3600;
     config.Include := ["*"];
     config.Exclude := [];
     config.SingleRun := true |}.

(** A configuration with other credentials. *)
Definition withTokens (githubToken giteaToken : string) (cfg : config.Config)
  : config.Config :=
  {| config.GitHub :=
       {| config.GitHubConfig.Username := config.GitHubConfig.Username (config.GitHub cfg);
          config.GitHubConfig.Token := githubToken;
          config.GitHubConfig.SkipForks := config.GitHubConfig.SkipForks (config.GitHub cfg);
          config.GitHubConfig.PrivateRepositories :=
            config.GitHubConfig.PrivateRepositories (config.GitHub cfg);
          config.GitHubConfig.MirrorIssues :=
            config.GitHubConfig.MirrorIssues (config.GitHub cfg);
          config.GitHubConfig.MirrorStarred :=
            config.GitHubConfig.MirrorStarred (config.GitHub cfg);
          config.GitHubConfig.MirrorOrganizations :=
            config.GitHubConfig.MirrorOrganizations (config.GitHub cfg);
          config.GitHubConfig.UseSpecificUser :=
            config.GitHubConfig.UseSpecificUser (config.GitHub cfg);
          config.GitHubConfig.SingleRepo := config.GitHubConfig.SingleRepo (config.GitHub cfg);
          config.GitHubConfig.IncludeOrgs :=
            config.GitHubConfig.IncludeOrgs (config.GitHub cfg);
          config.GitHubConfig.ExcludeOrgs :=
            config.GitHubConfig.ExcludeOrgs (config.GitHub cfg);
          config.GitHubConfig.PreserveOrgStructure :=
            config.GitHubConfig.PreserveOrgStructure (config.GitHub cfg);
          config.GitHubConfig.SkipStarredIssues :=
            config.GitHubConfig.SkipStarredIssues (config.GitHub cfg) |};
     config.Gitea :=
       {| config.GiteaConfig.URL := config.GiteaConfig.URL (config.Gitea cfg);
          config.GiteaConfig.Token := giteaToken;
          config.GiteaConfig.Organization := config.GiteaConfig.Organization (config.Gitea cfg);
          config.GiteaConfig.Visibility := config.GiteaConfig.Visibility (config.Gitea cfg);
          config.GiteaConfig.StarredReposOrg :=
            config.GiteaConfig.StarredReposOrg (config.Gitea cfg) |};
     config.DryRun := config.DryRun cfg;
     config.Delay := config.Delay cfg;
     config.Include := config.Include cfg;
     config.Exclude := config.Exclude cfg;
     config.SingleRun := config.SingleRun cfg |}.

(** A marshaller for the examples: it writes the user name and the two
    token members of the redacted configuration. *)
Definition sampleMarshal (redactedConfig : logger.RedactedConfig) : Result string :=
  Ok ("{ username: " +:+ logger.RedactedGitHub.Username (logger.GitHub redactedConfig)
      +:+ ", token: " +:+ logger.RedactedGitHub.Token (logger.GitHub redactedConfig)
      +:+ ", gitea token: " +:+ logger.RedactedGitea.Token (logger.Gitea redactedConfig)
      +:+ " }").


(** A request under the repository paths of the destination, and the
    existence check of a repository among them. *)
Definition underRepos (req : http.Request) : bool :=
  match strings.stripPrefix "/api/v1/repos/" (http.path req) with
  | Some _ => true
  | None => false
  end.

Definition isCheck (req : http.Request) : bool :=
  String.eqb (http.method req) "GET" && underRepos req.

(** The existence check of [repo] in some target of the destination. *)
Definition checkOf (req : http.Request) (repo : ghrepo.Repository) : Prop :=
  exists giteaTarget : gitea.Target.t,
    req = http.mkRequest "GET" ("/api/v1/repos/" +:+ gitea.Target.Name giteaTarget +:+ "/"
                                +:+ ghrepo.Name repo) None.

(** Among the calls [new] that the client makes after the calls
    [history], those whose request is built and so leaves the process. *)
Fixpoint transmitted (c : gitea.Client) (history new : list http.Request)
  : list http.Request :=
  match new with
  | [] => []
  | req :: rest =>
      (if http.built (gitea.httpClient c history req) then [req] else [])
      ++ transmitted c (history ++ [req]) rest
  end.

(** A percent sign that two hexadecimal digits do not follow, which
    [url.Parse] refuses in a path. *)
Definition ishex (c : ascii) : bool :=
  let n := nat_of_ascii c in
  ((48 <=? n) && (n <=? 57) || (97 <=? n) && (n <=? 102) || (65 <=? n) && (n <=? 70))%nat.

Fixpoint badEscape (s : string) : bool :=
  match s with
  | EmptyString => false
  | String "%" rest =>
      match rest with
      | String a (String b rest') => negb (ishex a && ishex b) || badEscape rest'
      | _ => true
      end
  | String _ rest => badEscape rest
  end.

(** The destination [sampleGitea] behind a library that does not build a
    request for a path with such an escape; what else makes
    [http.NewRequest] fail is not part of this example. *)
Definition parsingGitea (existing : list string) (starStatus : Z) : gitea.Client :=
  {| gitea.baseURL := "https://gitea.url";
     gitea.token := "secret-gitea-token";
     gitea.httpClient := fun history req =>
       if badEscape (http.path req) then http.NotBuilt "invalid URL escape"
       else sampleServer existing starStatus history req |}.

(** The requests of the preparation of a run: the account of the token,
    and the lookup and the creation of organizations. *)
Definition preparation (req : http.Request) : Prop :=
  (http.method req = "GET" /\ http.path req = "/api/v1/user")
  \/ (http.method req = "POST" /\ http.path req = "/api/v1/orgs")
  \/ exists orgName,
       http.method req = "GET" /\ http.path req = "/api/v1/orgs/" +:+ orgName.

(** A process for the examples: the source and the destination of the
    other examples, where the paths of [existing] exist. *)
Definition sampleRuntime (environ : gmap string string) (existing : list string)
  : main.Runtime :=
  {| main.environ := environ;
     main.clock := "2024-02-29T12:00:00Z";
     main.marshalIndent := sampleMarshal;
     main.network := sampleServer existing 204;
     main.anonymousSource := sampleGitHub;
     main.authenticatedSource := fun _ => sampleGitHub;
     main.library := sampleLibrary;
     main.doublestarMatch := sampleMatch;
     main.rangeOrder := fun uniqueOrgs => (map_to_list uniqueOrgs).*1 |}.

Definition dryRunEnv : gmap string string := <["DRY_RUN" := "1"]> starredOrgEnv.

(** An environment that names a destination organization. *)
Definition organizationEnv : gmap string string :=
  <["GITEA_ORGANIZATION" := "mirrors"]> mandatoryEnv.

(** The requests a computation may send are [quiet] when none of them is
    an existence check. *)
Definition quiet (req : http.Request) : Prop := isCheck req = false.

(** A computation that gives an exit status [stopsWithin] a relation on
    states when each of its runs that gives the status 1 ends in a
    related state. *)
Definition stopsWithin (R : State -> State -> Prop) {A} (m : M (Z * A)) : Prop :=
  forall s, fst (fst (m s)) = 1 -> R s (snd (m s)).

(** * Proofs *)

(** ** The library pieces and the configuration on examples *)

Lemma is_empty_true (s : string) : is_empty s = true <-> s = EmptyString.
Proof. destruct s; simpl; split; congruence. Qed.

Lemma is_empty_false (s : string) : is_empty s = false <-> s <> EmptyString.
Proof. destruct s; simpl; split; congruence. Qed.

Example Split_commas : strings.Split "a,,b" "," = ["a"; EmptyString; "b"].
Proof. reflexivity. Qed.

Example Split_empty : strings.Split EmptyString "," = [EmptyString].
Proof. reflexivity. Qed.

Example TrimSpace_both : strings.TrimSpace "  lib-* " = "lib-*".
Proof. reflexivity. Qed.

Example TrimSuffix_git : strings.TrimSuffix "owner/name.git" ".git" = "owner/name".
Proof. reflexivity. Qed.

Example Atoi_1200 : strconv.Atoi "1200" = Ok 1200.
Proof. reflexivity. Qed.

Example Load_defaults :
  match config.Load mandatoryEnv with
  | Ok cfg =>
      config.GitHubConfig.Username (config.GitHub cfg) = "test-username"
      /\ config.GitHubConfig.Token (config.GitHub cfg) = EmptyString
      /\ config.Delay cfg = 3600
      /\ config.Include cfg = ["*"]
      /\ config.Exclude cfg = []
      /\ config.GiteaConfig.StarredReposOrg (config.Gitea cfg) = "github"
  | Err _ => False
  end.
Proof. vm_compute. repeat split. Qed.

Example Load_private_needs_token :
  config.Load (<["MIRROR_PRIVATE_REPOSITORIES" := "true"]> mandatoryEnv)
  = Err "invalid configuration, mirroring private repositories requires setting GITHUB_TOKEN".
Proof. vm_compute. reflexivity. Qed.

Example bind_Printf : (let* (a, b) := ret (1, 2) in Printf "x" ;;; ret (a + b)) initial
  = (3, {| logs := ["x"]; calls := []; draws := 0 |}).
Proof. reflexivity. Qed.

(** ** Loops that append the items they keep *)

Section Loops.

Context {A B : Type}.

Lemma fold_append_filter (keep : A -> bool) (l acc : list A) :
  fold_left (fun result x => if keep x then result ++ [x] else result) l acc
  = acc ++ List.filter keep l.
Proof.
  revert acc. induction l as [|x l IH]; intros acc; simpl.
  - by rewrite app_nil_r.
  - rewrite IH. destruct (keep x); simpl; [by rewrite <- app_assoc | done].
Qed.

Lemma fold_append_map (f : A -> B) (l : list A) (acc : list B) :
  fold_left (fun result x => result ++ [f x]) l acc = acc ++ map f l.
Proof.
  revert acc. induction l as [|x l IH]; intros acc; simpl.
  - by rewrite app_nil_r.
  - rewrite IH. by rewrite <- app_assoc.
Qed.

Lemma fold_left_same (f g : B -> A -> B) (l : list A) (acc : B) :
  (forall b x, f b x = g b x) -> fold_left f l acc = fold_left g l acc.
Proof.
  intros H. revert acc. induction l as [|x l IH]; intros acc; simpl; [done|].
  by rewrite H, IH.
Qed.

Lemma filter_twice (keep : A -> bool) (l : list A) :
  List.filter keep (List.filter keep l) = List.filter keep l.
Proof.
  induction l as [|x l IH]; simpl; [done|].
  destruct (keep x) eqn:E; simpl; [by rewrite E, IH | done].
Qed.

Lemma NoDup_map_filter (f : A -> B) (keep : A -> bool) (l : list A) :
  NoDup (map f l) -> NoDup (map f (List.filter keep l)).
Proof.
  induction l as [|x l IH]; simpl; intros H; [constructor|].
  apply NoDup_cons in H as [Hx Hl].
  destruct (keep x); simpl; [|by apply IH].
  apply NoDup_cons. split; [|by apply IH].
  intros Hin. apply Hx.
  apply list_elem_of_fmap in Hin as (y & -> & Hy).
  apply list_elem_of_fmap. exists y. split; [done|].
  apply list_elem_of_In in Hy. apply filter_In in Hy as [Hy _].
  by apply list_elem_of_In.
Qed.

End Loops.

(** ** Deduplication by clone URL *)

Module dedup.

Import ghrepo.

Lemma withoutForks_filter (repositories : list Repository) :
  withoutForks repositories = List.filter (fun repo => negb (Fork repo)) repositories.
Proof. unfold withoutForks. by rewrite fold_append_filter. Qed.

Lemma toRepositoryList_map (repos : list github.Repository.t) (preserveOrg : bool) :
  toRepositoryList repos preserveOrg = map (fun repo => toRepository repo preserveOrg) repos.
Proof. unfold toRepositoryList. by rewrite fold_append_map. Qed.

Lemma firstWithURL_app (url : string) (l1 l2 : list Repository) :
  firstWithURL url (l1 ++ l2)
  = match firstWithURL url l1 with
    | Some repo => Some repo
    | None => firstWithURL url l2
    end.
Proof.
  unfold firstWithURL. induction l1 as [|x l1 IH]; simpl; [done|].
  by destruct (String.eqb (URL x) url).
Qed.

Lemma firstWithURL_None (url : string) (l : list Repository) :
  firstWithURL url l = None <-> url ∉ map URL l.
Proof.
  unfold firstWithURL. induction l as [|x l IH]; simpl.
  - split; [intros _; apply not_elem_of_nil | done].
  - rewrite not_elem_of_cons. destruct (String.eqb_spec (URL x) url) as [E|E].
    + split; [done | intros [H _]; congruence].
    + rewrite IH. split; [intros H; split; congruence | tauto].
Qed.

Lemma firstWithURL_Some (url : string) (l : list Repository) (repo : Repository) :
  firstWithURL url l = Some repo -> URL repo = url /\ repo ∈ l.
Proof.
  unfold firstWithURL. intros H. apply find_some in H as [Hin Heq].
  apply String.eqb_eq in Heq. split; [done | by apply list_elem_of_In].
Qed.

Lemma loopInv_start : loopInv [] ∅ [].
Proof.
  split; simpl.
  - intros url. rewrite lookup_empty. simpl. split; [done | intros H; inversion H].
  - intros repo. split; [intros H; inversion H | done].
  - constructor.
  - constructor.
Qed.

Lemma loopInv_step (done : list Repository) (seen : gmap string bool)
  (result : list Repository) (repo : Repository) :
  loopInv done seen result ->
  loopInv (done ++ [repo]) (fst (dedupStep (seen, result) repo))
          (snd (dedupStep (seen, result) repo)).
Proof.
  intros [Hseen Hfirst Hnd Hsub]. unfold dedupStep.
  destruct (default false (seen !! URL repo)) eqn:E; simpl.
  - (* the URL was seen: the record is dropped *)
    apply Hseen in E. split.
    + intros url. rewrite Hseen, map_app, elem_of_app. simpl.
      rewrite list_elem_of_singleton. split; [tauto | intros [H | ->]; done].
    + intros r. rewrite Hfirst, firstWithURL_app.
      destruct (firstWithURL (URL r) done) eqn:F; [done|].
      split; [done|]. simpl. unfold firstWithURL. simpl.
      destruct (String.eqb_spec (URL repo) (URL r)) as [Eu|Eu]; [|done].
      apply firstWithURL_None in F. rewrite <- Eu in F. done.
    + done.
    + by apply sublist_inserts_r.
  - (* a new URL: the record is kept *)
    assert (Hnew : URL repo ∉ map URL done).
    { intros H. apply Hseen in H. congruence. }
    split.
    + intros url. rewrite map_app, elem_of_app. simpl. rewrite list_elem_of_singleton.
      destruct (decide (URL repo = url)) as [<-|Hne].
      * rewrite lookup_insert_eq. simpl. tauto.
      * rewrite lookup_insert_ne by done. rewrite Hseen. split; [tauto|].
        intros [H | H]; [done | congruence].
    + intros r. rewrite elem_of_app, list_elem_of_singleton, Hfirst, firstWithURL_app.
      destruct (firstWithURL (URL r) done) eqn:F.
      * split; [intros [H | ->]; [done|] | tauto].
        apply firstWithURL_Some in F as [F1 F2].
        exfalso. apply Hnew. rewrite <- F1. apply list_elem_of_fmap. eauto.
      * unfold firstWithURL. simpl.
        destruct (String.eqb_spec (URL repo) (URL r)) as [Eu|Eu].
        -- split; [intros [H | ->]; [done | done] | intros H; right; congruence].
        -- split; [intros [H | ->]; [done | done] | done].
    + rewrite map_app. simpl. apply NoDup_app. split; [done|]. split.
      * intros url Hin Hin'. apply list_elem_of_singleton in Hin' as ->.
        apply list_elem_of_fmap in Hin as (r & Er & Hr).
        apply Hfirst in Hr. apply firstWithURL_Some in Hr as [_ Hr].
        apply Hnew. rewrite Er. apply list_elem_of_fmap. eauto.
      * apply NoDup_singleton.
    + by apply sublist_app.
Qed.

Lemma loopInv_run (repositories : list Repository) :
  loopInv repositories (fst (fold_left dedupStep repositories (∅, [])))
          (snd (fold_left dedupStep repositories (∅, []))).
Proof.
  induction repositories as [|repo done IH] using rev_ind.
  - apply loopInv_start.
  - rewrite fold_left_app. simpl.
    destruct (fold_left dedupStep done (∅, [])) as [seen result].
    by apply loopInv_step.
Qed.

End dedup.

(** ** The filter stage *)

Section FilterStage.

Variable doublestar_Match : string -> string -> bool * option string.

Local Abbreviation anyMatch := (main.anyMatch doublestar_Match).
Local Abbreviation filterRepositories := (main.filterRepositories doublestar_Match).

Lemma anyMatch_true (patterns : list string) (name : string) :
  anyMatch patterns name = true
  <-> exists pattern, pattern ∈ patterns /\ matches doublestar_Match pattern name.
Proof.
  unfold matches. induction patterns as [|p ps IH]; simpl.
  - split; [done | intros (p & H & _); inversion H].
  - destruct (doublestar_Match p name) as [matched [err|]] eqn:E.
    + rewrite IH. split.
      * intros (q & Hq & Hm). exists q. split; [by right | done].
      * intros (q & Hq & Hm). apply elem_of_cons in Hq as [-> | Hq]; [congruence | eauto].
    + destruct matched.
      * split; [intros _ | done]. exists p. split; [by left | done].
      * rewrite IH. split.
        -- intros (q & Hq & Hm). exists q. split; [by right | done].
        -- intros (q & Hq & Hm). apply elem_of_cons in Hq as [-> | Hq]; [congruence | eauto].
Qed.

Lemma filterRepositories_filter (repos : list ghrepo.Repository) (include exclude : list string) :
  filterRepositories repos include exclude
  = List.filter (fun repo => anyMatch include (ghrepo.Name repo)
                             && negb (anyMatch exclude (ghrepo.Name repo))) repos.
Proof.
  unfold main.filterRepositories.
  rewrite <- (app_nil_l (List.filter _ repos)), <- fold_append_filter.
  apply fold_left_same. intros filtered repo.
  destruct (anyMatch include (ghrepo.Name repo)); simpl; [|done].
  by destruct (anyMatch exclude (ghrepo.Name repo)).
Qed.

End FilterStage.

(** C3, as the code has it.  [filterRepositories] keeps a repository
    exactly when its name matches at least one include pattern and no
    exclude pattern, a pattern matching a name when the match call
    returns true and no error; a name that matches an include and an
    exclude pattern is dropped; a pattern for which the match call
    reports an error counts as not matching that name, and the filter
    itself has no error result.  Nothing else is asked of a pattern: the
    filter does not check that it is well formed. *)
Theorem filterRepositories_retains
  (doublestar_Match : string -> string -> bool * option string)
  (repos : list ghrepo.Repository) (include exclude : list string) :
  (forall repo,
      repo ∈ main.filterRepositories doublestar_Match repos include exclude
      <-> repo ∈ repos
          /\ (exists p, p ∈ include /\ matches doublestar_Match p (ghrepo.Name repo))
          /\ ~ (exists q, q ∈ exclude /\ matches doublestar_Match q (ghrepo.Name repo)))
  /\ (forall repo p q,
         p ∈ include -> matches doublestar_Match p (ghrepo.Name repo) ->
         q ∈ exclude -> matches doublestar_Match q (ghrepo.Name repo) ->
         repo ∉ main.filterRepositories doublestar_Match repos include exclude)
  /\ (forall repo,
         (forall p, p ∈ include -> snd (doublestar_Match p (ghrepo.Name repo)) <> None) ->
         repo ∉ main.filterRepositories doublestar_Match repos include exclude)
  /\ (forall repo,
         (forall q, q ∈ exclude -> snd (doublestar_Match q (ghrepo.Name repo)) <> None) ->
         repo ∈ repos ->
         (exists p, p ∈ include /\ matches doublestar_Match p (ghrepo.Name repo)) ->
         repo ∈ main.filterRepositories doublestar_Match repos include exclude).
Proof.
  assert (Hiff : forall repo,
      repo ∈ main.filterRepositories doublestar_Match repos include exclude
      <-> repo ∈ repos
          /\ (exists p, p ∈ include /\ matches doublestar_Match p (ghrepo.Name repo))
          /\ ~ (exists q, q ∈ exclude /\ matches doublestar_Match q (ghrepo.Name repo))).
  { intros repo. rewrite filterRepositories_filter.
    rewrite list_elem_of_In, filter_In, <- list_elem_of_In.
    rewrite andb_true_iff, negb_true_iff, <- not_true_iff_false.
    rewrite !anyMatch_true. tauto. }
  split; [exact Hiff|]. split; [|split].
  - intros repo p q Hp Mp Hq Mq Hin. apply Hiff in Hin as (_ & _ & Hno).
    apply Hno. eauto.
  - intros repo Hbad Hin. apply Hiff in Hin as (_ & (p & Hp & Mp) & _).
    apply (Hbad p Hp). unfold matches in Mp. by rewrite Mp.
  - intros repo Hbad Hin Hinc. apply Hiff. split; [done|]. split; [done|].
    intros (q & Hq & Mq). apply (Hbad q Hq). unfold matches in Mq. by rewrite Mq.
Qed.

Lemma filterRepositories_retains_witness :
  sampleRepo "lib-a" false false
  ∈ main.filterRepositories sampleMatch
      [sampleRepo "lib-a" false false; sampleRepo "lib-b" false false] ["[lib"; "lib-*"] ["*-b"]
  /\ sampleRepo "lib-b" false false
     ∉ main.filterRepositories sampleMatch
         [sampleRepo "lib-a" false false; sampleRepo "lib-b" false false] ["[lib"; "lib-*"]
         ["*-b"].
Proof.
  destruct (filterRepositories_retains sampleMatch
              [sampleRepo "lib-a" false false; sampleRepo "lib-b" false false]
              ["[lib"; "lib-*"] ["*-b"]) as (Hiff & Hwins & _ & _).
  split.
  - apply Hiff. split; [by left|]. split.
    + exists "lib-*". split; [by right; left | reflexivity].
    + intros (q & Hq & Mq). apply list_elem_of_singleton in Hq as ->. discriminate Mq.
  - apply (Hwins _ "lib-*" "*-b"); [by right; left | reflexivity | by left | reflexivity].
Defined.

(** C3 as stated fails: the second alternative of [{lib-a,[}] is a class
    that does not end, and the matcher reports it so for [lib-b]; for
    [lib-a] the first alternative matches and the second is never looked
    at, so that the malformed pattern matches: as an include pattern it
    keeps [lib-a], as an exclude pattern it drops it. *)
Lemma malformed_pattern_matches :
  sampleMatch "{lib-a,[}" "lib-b" = (false, Some "syntax error in pattern")
  /\ sampleMatch "{lib-a,[}" "lib-a" = (true, None)
  /\ main.filterRepositories sampleMatch
       [sampleRepo "lib-a" false false; sampleRepo "lib-b" false false] ["{lib-a,[}"] []
     = [sampleRepo "lib-a" false false]
  /\ main.filterRepositories sampleMatch
       [sampleRepo "lib-a" false false; sampleRepo "lib-b" false false] ["*"] ["{lib-a,[}"]
     = [sampleRepo "lib-b" false false].
Proof. repeat split; vm_compute; reflexivity. Qed.

(** C8. Filtering the output of the filter stage again with the same
    patterns changes nothing. *)
Theorem filterRepositories_idempotent
  (doublestar_Match : string -> string -> bool * option string)
  (repos : list ghrepo.Repository) (include exclude : list string) :
  main.filterRepositories doublestar_Match
    (main.filterRepositories doublestar_Match repos include exclude) include exclude
  = main.filterRepositories doublestar_Match repos include exclude.
Proof. rewrite !filterRepositories_filter. apply filter_twice. Qed.

(** The scenario of the specification: include [lib-*], no exclude,
    [lib-a], the fork [lib-b] and [app-x], forks skipped. *)
Example filter_scenario :
  main.filterRepositories sampleMatch
    (ghrepo.withoutForks [sampleRepo "lib-a" false false; sampleRepo "lib-b" true false;
                          sampleRepo "app-x" false false])
    ["lib-*"] []
  = [sampleRepo "lib-a" false false].
Proof. reflexivity. Qed.

Example filter_exclude_wins :
  main.filterRepositories sampleMatch
    [sampleRepo "lib-a" false false; sampleRepo "lib-b" false false] ["lib-*"] ["*-b"]
  = [sampleRepo "lib-a" false false].
Proof. reflexivity. Qed.

Example filter_malformed_pattern :
  main.filterRepositories sampleMatch
    [sampleRepo "lib-a" false false; sampleRepo "app-x" false false] ["[lib"; "app-*"] ["[a"]
  = [sampleRepo "app-x" false false].
Proof. reflexivity. Qed.

(** C2. In the standard mode the records of all enabled collection modes
    are deduplicated by clone URL: the output has one record for each URL
    of the input and no more, that record is the first of the input with
    the URL, the order of the input is kept, and neither fork exclusion nor
    the filter stage brings a duplicate back. *)
Theorem filterDuplicates_first_seen
  (client : github.Client) (opts : ghrepo.FetchOptions) (s s' : State)
  (combined : list ghrepo.Repository)
  (doublestar_Match : string -> string -> bool * option string)
  (include exclude : list string) :
  ghrepo.SingleRepo opts = EmptyString ->
  ghrepo.collectAll client opts s = (Ok combined, s') ->
  let kept := ghrepo.filterDuplicates combined in
  NoDup (map ghrepo.URL kept)
  /\ (forall repo, repo ∈ kept <-> firstWithURL (ghrepo.URL repo) combined = Some repo)
  /\ (forall url, url ∈ map ghrepo.URL combined <-> url ∈ map ghrepo.URL kept)
  /\ sublist kept combined
  /\ ghrepo.GetRepositories client opts s = (Ok (ghrepo.skipForks opts kept), s')
  /\ NoDup (map ghrepo.URL
              (main.filterRepositories doublestar_Match (ghrepo.skipForks opts kept)
                                       include exclude)).
Proof.
  intros Hsingle Hcollect kept.
  destruct (dedup.loopInv_run combined) as [Hseen Hfirst Hnd Hsub].
  fold (ghrepo.filterDuplicates combined) in Hfirst, Hnd, Hsub. fold kept in Hfirst, Hnd, Hsub.
  split; [done|]. split; [done|]. split; [|split; [done|split]].
  - intros url. split.
    + intros Hin. destruct (firstWithURL url combined) as [repo|] eqn:F.
      * pose proof (dedup.firstWithURL_Some _ _ _ F) as [Eu _].
        apply list_elem_of_fmap. exists repo. split; [done|].
        apply Hfirst. by rewrite Eu.
      * by apply dedup.firstWithURL_None in F.
    + intros Hin. apply list_elem_of_fmap in Hin as (repo & -> & Hin).
      apply list_elem_of_fmap. exists repo. split; [done|].
      apply Hfirst in Hin. by apply dedup.firstWithURL_Some in Hin as [_ Hin].
  - unfold ghrepo.GetRepositories. rewrite Hsingle. simpl.
    unfold bind. by rewrite Hcollect.
  - rewrite filterRepositories_filter. apply NoDup_map_filter.
    unfold ghrepo.skipForks. destruct (ghrepo.SkipForks opts); [|done].
    rewrite dedup.withoutForks_filter. by apply NoDup_map_filter.
Qed.

Lemma filterDuplicates_first_seen_witness :
  let kept := ghrepo.filterDuplicates sampleCombined in
  kept = [sampleRepo "lib-a" false false; sampleRepo "app-x" false false;
          sampleRepo "lib-b" false true]
  /\ NoDup (map ghrepo.URL kept)
  /\ (forall repo, repo ∈ kept <-> firstWithURL (ghrepo.URL repo) sampleCombined = Some repo)
  /\ (forall url, url ∈ map ghrepo.URL sampleCombined <-> url ∈ map ghrepo.URL kept)
  /\ sublist kept sampleCombined
  /\ ghrepo.GetRepositories sampleGitHub sampleOptions initial
     = (Ok (ghrepo.skipForks sampleOptions kept), initial)
  /\ NoDup (map ghrepo.URL
              (main.filterRepositories sampleMatch (ghrepo.skipForks sampleOptions kept)
                                       ["*"] [])).
Proof.
  split; [vm_compute; reflexivity|].
  apply (filterDuplicates_first_seen sampleGitHub sampleOptions initial initial
           sampleCombined sampleMatch ["*"] []).
  - reflexivity.
  - vm_compute. reflexivity.
Defined.

(** ** Collection from organizations *)

Module collect.

Import ghrepo.

Lemma paginate_fetched {A B} (pick : A -> B) (pages : github.Listing A) (all : list B) :
  paginate pick pages all
  = match failure pages with
    | Some err => Err err
    | None => Ok (all ++ map pick (fetched pages))
    end.
Proof.
  revert all. induction pages as [err | items | items rest IH]; intros all; simpl; try done.
  rewrite IH. destruct (failure rest); [done|].
  by rewrite map_app, app_assoc.
Qed.

Lemma paginateOrg_fetched (orgName : string) (pages : github.Listing github.Repository.t)
  (orgRepos : list github.Repository.t) (s : State) :
  fst (paginateOrg orgName pages orgRepos s) = orgRepos ++ fetched pages.
Proof.
  revert orgRepos. induction pages as [err | items | items rest IH]; intros orgRepos; simpl.
  - by rewrite app_nil_r.
  - done.
  - by rewrite IH, app_assoc.
Qed.

Lemma fetchOneOrganization_contribution (client : github.Client)
  (preserveOrgStructure privateRepoAccess : bool)
  (allOrgRepos : list Repository) (org : github.Organization.t) (s : State) :
  fst (fetchOneOrganization client preserveOrgStructure privateRepoAccess allOrgRepos org s)
  = allOrgRepos ++ contribution client preserveOrgStructure privateRepoAccess org.
Proof.
  unfold fetchOneOrganization, contribution, orgListing, bind, Printf, ret.
  destruct privateRepoAccess; simpl.
  - match goal with
    | |- context [paginateOrg ?n ?p ?a ?st] =>
        pose proof (paginateOrg_fetched n p a st) as H;
        destruct (paginateOrg n p a st) as [orgRepos s1]
    end.
    simpl in *. subst orgRepos. by rewrite dedup.toRepositoryList_map.
  - match goal with
    | |- context [paginateOrg ?n ?p ?a ?st] =>
        pose proof (paginateOrg_fetched n p a st) as H;
        destruct (paginateOrg n p a st) as [orgRepos s1]
    end.
    simpl in *. subst orgRepos. by rewrite dedup.toRepositoryList_map.
Qed.

Lemma forOrganizations_contributions (client : github.Client)
  (preserveOrgStructure privateRepoAccess : bool)
  (orgsToProcess : list github.Organization.t) (allOrgRepos : list Repository) (s : State) :
  fst (forOrganizations client preserveOrgStructure privateRepoAccess orgsToProcess
                        allOrgRepos s)
  = allOrgRepos
    ++ flat_map (contribution client preserveOrgStructure privateRepoAccess) orgsToProcess.
Proof.
  revert allOrgRepos s.
  induction orgsToProcess as [|org rest IH]; intros allOrgRepos s; simpl.
  - by rewrite app_nil_r.
  - unfold bind.
    pose proof (fetchOneOrganization_contribution client preserveOrgStructure
                  privateRepoAccess allOrgRepos org s) as H.
    destruct (fetchOneOrganization _ _ _ _ _ s) as [acc s1]. simpl in H. subst acc.
    by rewrite IH, app_assoc.
Qed.

Lemma organizations_listed_once (client : github.Client) (username : string) :
  (if negb (is_empty username)
   then paginate id (github.Organizations_List client username) []
   else paginate id (github.Organizations_List client EmptyString) [])
  = paginate id (github.Organizations_List client username) [].
Proof. by destruct username. Qed.

Lemma fetchOrganizationRepositories_spec (client : github.Client) (username : string)
  (includeOrgs excludeOrgs : list string) (preserveOrgStructure privateRepoAccess : bool)
  (s : State) :
  fst (fetchOrganizationRepositories client username includeOrgs excludeOrgs
                                     preserveOrgStructure privateRepoAccess s)
  = match failure (github.Organizations_List client username) with
    | Some err => Err err
    | None =>
        Ok (flat_map (contribution client preserveOrgStructure privateRepoAccess)
              (selectOrganizations (fetched (github.Organizations_List client username))
                                   includeOrgs excludeOrgs))
    end.
Proof.
  unfold fetchOrganizationRepositories.
  rewrite organizations_listed_once, paginate_fetched.
  destruct (failure (github.Organizations_List client username)); [done|].
  simpl. rewrite map_id. unfold bind, Printf, ret. simpl.
  match goal with
  | |- context [forOrganizations ?c ?p ?q ?o ?a ?st] =>
      pose proof (forOrganizations_contributions c p q o a st) as H;
      destruct (forOrganizations c p q o a st) as [acc s1]
  end.
  simpl in *. by subst acc.
Qed.

(** The same with the lines that are logged. *)
Lemma loggedAll_nil (s : State) : loggedAll [] s = s.
Proof. destruct s. unfold loggedAll. simpl. by rewrite app_nil_r. Qed.

Lemma loggedAll_app (lines more : list string) (s : State) :
  loggedAll more (loggedAll lines s) = loggedAll (lines ++ more) s.
Proof. unfold loggedAll. simpl. by rewrite app_assoc. Qed.

Lemma paginateOrg_run (orgName : string) (pages : github.Listing github.Repository.t)
  (orgRepos : list github.Repository.t) (s : State) :
  paginateOrg orgName pages orgRepos s
  = (orgRepos ++ fetched pages,
     loggedAll match failure pages with
               | Some err => [organizationFailureLine orgName err]
               | None => []
               end s).
Proof.
  revert orgRepos. induction pages as [err | items | items rest IH]; intros orgRepos; simpl.
  - by rewrite app_nil_r.
  - by rewrite loggedAll_nil.
  - by rewrite IH, app_assoc.
Qed.

Lemma fetchOneOrganization_run (client : github.Client)
  (preserveOrgStructure privateRepoAccess : bool)
  (allOrgRepos : list Repository) (org : github.Organization.t) (s : State) :
  fetchOneOrganization client preserveOrgStructure privateRepoAccess allOrgRepos org s
  = (allOrgRepos ++ contribution client preserveOrgStructure privateRepoAccess org,
     loggedAll (organizationLines client privateRepoAccess org) s).
Proof.
  unfold fetchOneOrganization, contribution, organizationLines, orgListing, bind.
  destruct privateRepoAccess; cbv zeta; cbn [Printf].
  - rewrite paginateOrg_run. cbn [Printf ret]. rewrite dedup.toRepositoryList_map.
    f_equal. unfold loggedAll. cbn [logs calls draws]. f_equal.
    by rewrite <- !app_assoc.
  - rewrite paginateOrg_run. cbn [Printf ret]. rewrite dedup.toRepositoryList_map.
    f_equal. unfold loggedAll. cbn [logs calls draws]. f_equal.
    by rewrite <- !app_assoc.
Qed.

Lemma forOrganizations_run (client : github.Client)
  (preserveOrgStructure privateRepoAccess : bool)
  (orgsToProcess : list github.Organization.t) (allOrgRepos : list Repository) (s : State) :
  forOrganizations client preserveOrgStructure privateRepoAccess orgsToProcess allOrgRepos s
  = (allOrgRepos
     ++ flat_map (contribution client preserveOrgStructure privateRepoAccess) orgsToProcess,
     loggedAll (flat_map (organizationLines client privateRepoAccess) orgsToProcess) s).
Proof.
  revert allOrgRepos s.
  induction orgsToProcess as [|org rest IH]; intros allOrgRepos s; simpl.
  - by rewrite app_nil_r, loggedAll_nil.
  - unfold bind. rewrite fetchOneOrganization_run, IH, loggedAll_app.
    by rewrite <- app_assoc.
Qed.

Lemma fetchOrganizationRepositories_run (client : github.Client) (username : string)
  (includeOrgs excludeOrgs : list string) (preserveOrgStructure privateRepoAccess : bool)
  (s : State) :
  fetchOrganizationRepositories client username includeOrgs excludeOrgs
                                preserveOrgStructure privateRepoAccess s
  = match failure (github.Organizations_List client username) with
    | Some err => (Err err, s)
    | None =>
        let selected :=
          selectOrganizations (fetched (github.Organizations_List client username))
                              includeOrgs excludeOrgs in
        (Ok (flat_map (contribution client preserveOrgStructure privateRepoAccess) selected),
         loggedAll
           (("Processing repositories from " +:+ fmt_len selected +:+ " organizations")
            :: flat_map (organizationLines client privateRepoAccess) selected) s)
    end.
Proof.
  unfold fetchOrganizationRepositories.
  rewrite organizations_listed_once, paginate_fetched.
  destruct (failure (github.Organizations_List client username)); [done|].
  cbn [app]. rewrite map_id. unfold bind. cbn [Printf].
  rewrite forOrganizations_run. cbn [ret app]. f_equal.
  unfold loggedAll. cbn [logs calls draws]. f_equal. by rewrite <- app_assoc.
Qed.

Lemma isErr_paginate {A B} (pick : A -> B) (pages : github.Listing A) (all : list B) :
  isErr (paginate pick pages all) = failed pages.
Proof. rewrite paginate_fetched. unfold failed. by destruct (failure pages). Qed.

Lemma isErr_collectPublic (client : github.Client) (opts : FetchOptions)
  (repositories : list Repository) :
  isErr (collectPublic client opts repositories)
  = failed (github.Repositories_List client (Username opts) EmptyString EmptyString).
Proof.
  unfold collectPublic, fetchPublicRepositories. rewrite <- (isErr_paginate id _ []).
  by destruct (paginate id _ []).
Qed.

Lemma isErr_collectPrivate (client : github.Client) (opts : FetchOptions)
  (repositories : list Repository) :
  isErr (collectPrivate client opts repositories)
  = PrivateRepositories opts
    && failed (github.Repositories_List client EmptyString "owner" "private").
Proof.
  unfold collectPrivate, fetchPrivateRepositories. rewrite <- (isErr_paginate id _ []).
  destruct (PrivateRepositories opts); [|done]. by destruct (paginate id _ []).
Qed.

Lemma isErr_collectStarred (client : github.Client) (opts : FetchOptions)
  (repositories : list Repository) :
  isErr (collectStarred client opts repositories)
  = MirrorStarred opts && failed (github.Activity_ListStarred client (listedUser opts)).
Proof.
  unfold collectStarred, fetchStarredRepositories. fold (listedUser opts).
  rewrite <- (isErr_paginate github.StarredRepository.Repository _ []).
  destruct (MirrorStarred opts); [|done]. simpl.
  destruct (listedUser opts); simpl; by destruct (paginate _ _ []).
Qed.

Lemma isErr_collectOrganizations (client : github.Client) (opts : FetchOptions)
  (repositories : list Repository) (s : State) :
  isErr (fst (collectOrganizations client opts repositories s))
  = MirrorOrganizations opts && failed (github.Organizations_List client (listedUser opts)).
Proof.
  unfold collectOrganizations. fold (listedUser opts).
  destruct (MirrorOrganizations opts); [|done]. simpl. unfold bind.
  pose proof (fetchOrganizationRepositories_spec client (listedUser opts) (IncludeOrgs opts)
                (ExcludeOrgs opts) (PreserveOrgStructure opts) (PrivateRepositories opts) s)
    as H.
  destruct (fetchOrganizationRepositories _ _ _ _ _ _ s) as [fetchedRepos s1].
  simpl in H. subst fetchedRepos. unfold failed.
  by destruct (failure (github.Organizations_List client (listedUser opts))).
Qed.

Lemma isErr_collectAll (client : github.Client) (opts : FetchOptions) (s : State) :
  isErr (fst (collectAll client opts s)) = fatalListingFails client opts.
Proof.
  unfold collectAll, fatalListingFails.
  rewrite <- (isErr_collectPublic client opts []).
  destruct (collectPublic client opts []) as [r1|e1]; [simpl|done].
  rewrite <- (isErr_collectPrivate client opts r1).
  destruct (collectPrivate client opts r1) as [r2|e2]; [simpl|done].
  rewrite <- (isErr_collectStarred client opts r2).
  destruct (collectStarred client opts r2) as [r3|e3]; [simpl|done].
  apply isErr_collectOrganizations.
Qed.

Lemma isErr_GetRepositories (client : github.Client) (opts : FetchOptions) (s : State) :
  SingleRepo opts = EmptyString ->
  isErr (fst (GetRepositories client opts s)) = fatalListingFails client opts.
Proof.
  intros Hsingle. rewrite <- (isErr_collectAll client opts s).
  unfold GetRepositories. rewrite Hsingle. simpl. unfold bind.
  destruct (collectAll client opts s) as [[repositories|err] s1]; done.
Qed.

End collect.

(** C7, as the code has it.  When a page of one organization's repository
    listing fails, the failure is logged and the paging of that
    organization stops: the records of the pages fetched before are kept,
    which are none when the first page fails.  The run goes on with the
    other organizations, and [fetchOrganizationRepositories] returns an
    error only if listing the organizations themselves fails, and then
    logs nothing.  In the standard mode [GetRepositories] returns an error
    exactly when the listing of the owned, the private or the starred
    repositories or of the organizations fails, each for its enabled
    mode. *)
Theorem organization_listing_failure_keeps_fetched_pages
  (client : github.Client) (opts : ghrepo.FetchOptions) (s : State) :
  ghrepo.SingleRepo opts = EmptyString ->
  let selected :=
    ghrepo.selectOrganizations
      (fetched (github.Organizations_List client (listedUser opts)))
      (ghrepo.IncludeOrgs opts) (ghrepo.ExcludeOrgs opts) in
  let run :=
    ghrepo.fetchOrganizationRepositories client (listedUser opts)
      (ghrepo.IncludeOrgs opts) (ghrepo.ExcludeOrgs opts)
      (ghrepo.PreserveOrgStructure opts) (ghrepo.PrivateRepositories opts) s in
  run
  = match failure (github.Organizations_List client (listedUser opts)) with
    | Some err => (Err err, s)
    | None =>
        (Ok (flat_map (contribution client (ghrepo.PreserveOrgStructure opts)
                                    (ghrepo.PrivateRepositories opts)) selected),
         loggedAll
           (("Processing repositories from " +:+ fmt_len selected +:+ " organizations")
            :: flat_map (organizationLines client (ghrepo.PrivateRepositories opts)) selected)
           s)
    end
  /\ (forall org err,
         failure (github.Organizations_List client (listedUser opts)) = None ->
         org ∈ selected ->
         failure (orgListing client (ghrepo.PrivateRepositories opts)
                             (github.Organization.Login org)) = Some err ->
         organizationFailureLine (github.Organization.Login org) err ∈ logs (snd run))
  /\ (forall org err,
         orgListing client (ghrepo.PrivateRepositories opts) (github.Organization.Login org)
         = github.PageError err ->
         contribution client (ghrepo.PreserveOrgStructure opts)
                      (ghrepo.PrivateRepositories opts) org = [])
  /\ isErr (fst (ghrepo.GetRepositories client opts s)) = fatalListingFails client opts.
Proof.
  intros Hsingle selected run.
  assert (Hrun : run
    = match failure (github.Organizations_List client (listedUser opts)) with
      | Some err => (Err err, s)
      | None =>
          (Ok (flat_map (contribution client (ghrepo.PreserveOrgStructure opts)
                                      (ghrepo.PrivateRepositories opts)) selected),
           loggedAll
             (("Processing repositories from " +:+ fmt_len selected +:+ " organizations")
              :: flat_map (organizationLines client (ghrepo.PrivateRepositories opts))
                          selected) s)
      end) by apply collect.fetchOrganizationRepositories_run.
  split; [exact Hrun|]. split; [|split].
  - intros org err Hlisted Hin Hfail.
    rewrite Hrun, Hlisted. unfold loggedAll. cbn [snd logs].
    apply elem_of_app. right. apply elem_of_cons. right.
    apply list_elem_of_In, in_flat_map. exists org. split; [by apply list_elem_of_In|].
    apply list_elem_of_In. unfold organizationLines. cbv zeta. rewrite Hfail.
    apply elem_of_app. right. apply elem_of_app. right. apply elem_of_app. left. by left.
  - intros org err Hfail. unfold contribution. rewrite Hfail. simpl.
    by destruct (ghrepo.PreserveOrgStructure opts).
  - by apply collect.isErr_GetRepositories.
Qed.

(** C7 as stated fails twice.  The second page of the listing of [acme]
    fails, and the record of its first page is in the output; and the run
    is aborted by a failure that is none of the owned, private or starred
    listings, that of the listing of organizations. *)
Lemma failing_organization_is_not_skipped :
  github.Repositories_ListByOrg sampleGitHub "acme"
  = github.NextPage [sampleSource "tool"] (github.PageError "boom")
  /\ ghrepo.fetchOrganizationRepositories sampleGitHub EmptyString [] [] true false initial
     = (Ok [ ghrepo.setOrganization "acme" (sampleRepo "tool" false false);
             ghrepo.setOrganization "zeta" (sampleRepo "zeta-core" false false) ],
        {| logs := [ "Processing repositories from 2 organizations";
                     "Fetching repositories for organization: acme";
                     "Error fetching repositories for org acme: boom";
                     "Found 1 public repositories for org: acme";
                     "Fetching repositories for organization: zeta";
                     "Found 1 public repositories for org: zeta" ];
           calls := []; draws := 0 |})
  /\ fst (ghrepo.GetRepositories orgsFailGitHub orgOptions initial)
     = Err "failed to fetch organization repositories: 503 Service Unavailable".
Proof. repeat split; vm_compute; reflexivity. Qed.

Lemma organization_listing_failure_keeps_fetched_pages_witness :
  ghrepo.fetchOrganizationRepositories sampleGitHub EmptyString [] [] true false initial
  = (Ok [ ghrepo.setOrganization "acme" (sampleRepo "tool" false false);
          ghrepo.setOrganization "zeta" (sampleRepo "zeta-core" false false) ],
     {| logs := [ "Processing repositories from 2 organizations";
                  "Fetching repositories for organization: acme";
                  "Error fetching repositories for org acme: boom";
                  "Found 1 public repositories for org: acme";
                  "Fetching repositories for organization: zeta";
                  "Found 1 public repositories for org: zeta" ];
        calls := []; draws := 0 |})
  /\ "Error fetching repositories for org acme: boom"
     ∈ logs (snd (ghrepo.fetchOrganizationRepositories sampleGitHub EmptyString [] [] true false
                    initial))
  /\ contribution sampleGitHub true true {| github.Organization.Login := "acme" |} = []
  /\ isErr (fst (ghrepo.GetRepositories sampleGitHub orgOptions initial)) = false.
Proof.
  destruct (organization_listing_failure_keeps_fetched_pages sampleGitHub orgOptions initial
              eq_refl) as (Hrun & Hlogged & _ & Herr).
  destruct (organization_listing_failure_keeps_fetched_pages sampleGitHub
              {| ghrepo.Username := "octo"; ghrepo.PrivateRepositories := true;
                 ghrepo.SkipForks := false; ghrepo.MirrorStarred := false;
                 ghrepo.MirrorOrganizations := true; ghrepo.SingleRepo := EmptyString;
                 ghrepo.IncludeOrgs := []; ghrepo.ExcludeOrgs := [];
                 ghrepo.PreserveOrgStructure := true; ghrepo.UseSpecificUser := false |}
              initial eq_refl) as (_ & _ & Hfirst & _).
  split; [exact (eq_trans Hrun eq_refl)|]. split; [|split].
  - apply (Hlogged {| github.Organization.Login := "acme" |} "boom");
      [reflexivity | by left | reflexivity].
  - exact (Hfirst {| github.Organization.Login := "acme" |} "rate limited" eq_refl).
  - exact Herr.
Defined.

(** ** What the computations do to the state *)

Lemma sends_refl (P : http.Request -> Prop) (s : State) : sends P s s.
Proof. exists []. by rewrite app_nil_r. Qed.

Lemma sends_trans (P : http.Request -> Prop) (s1 s2 s3 : State) :
  sends P s1 s2 -> sends P s2 s3 -> sends P s1 s3.
Proof.
  intros (n1 & E1 & F1) (n2 & E2 & F2). exists (n1 ++ n2).
  split; [by rewrite E2, E1, app_assoc | by apply Forall_app].
Qed.

Lemma logsGrow_refl (s : State) : logsGrow s s.
Proof. exists []. by rewrite app_nil_r. Qed.

Lemma logsGrow_trans (s1 s2 s3 : State) :
  logsGrow s1 s2 -> logsGrow s2 s3 -> logsGrow s1 s3.
Proof.
  intros (n1 & E1) (n2 & E2). exists (n1 ++ n2). by rewrite E2, E1, app_assoc.
Qed.

Lemma logsGrow_elem (s s' : State) (line : string) :
  logsGrow s s' -> line ∈ logs s -> line ∈ logs s'.
Proof. intros (more & ->) H. apply elem_of_app. by left. Qed.

Section Effects.

Variable R : State -> State -> Prop.
Variable allowed : http.Request -> Prop.
Hypothesis R_refl : forall s, R s s.
Hypothesis R_trans : forall s1 s2 s3, R s1 s2 -> R s2 s3 -> R s1 s3.
Hypothesis R_Printf : forall line s, R s (logged line s).
Hypothesis R_draw : forall lib n s, R s (snd (gitea.randIntn lib n s)).
Hypothesis R_request :
  forall c method path body s,
    allowed (http.mkRequest method path body) ->
    R s (snd (gitea.doRequest c method path body s)).

Lemma keeps_ret {A} (a : A) : keeps R (ret a).
Proof. intros s. apply R_refl. Qed.

Lemma keeps_bind {A B} (m : M A) (k : A -> M B) :
  keeps R m -> (forall a, keeps R (k a)) -> keeps R (bind m k).
Proof.
  intros Hm Hk s. unfold bind. specialize (Hm s).
  destruct (m s) as [a s1]. simpl in Hm.
  eapply R_trans; [exact Hm | apply Hk].
Qed.

Lemma keeps_Printf (line : string) : keeps R (Printf line).
Proof. intros s. apply R_Printf. Qed.

Lemma keeps_doRequest c method path body :
  allowed (http.mkRequest method path body) ->
  keeps R (gitea.doRequest c method path body).
Proof. intros H s. by apply R_request. Qed.

Ltac effects :=
  repeat first
    [ apply keeps_ret
    | apply keeps_Printf
    | apply keeps_doRequest; solve [auto]
    | apply keeps_bind; [ | intros ? ]
    | match goal with
      | |- keeps _ (match ?x with _ => _ end) => destruct x
      | |- keeps _ (if ?b then _ else _) => destruct b
      | |- keeps _ (let (_, _) := ?x in _) => destruct x
      end ].

Section ReadOnly.

(** Every [GET] is allowed. *)
Hypothesis allowed_GET : forall path, allowed (http.mkRequest "GET" path None).

Lemma keeps_GetOrganization lib c orgName : keeps R (gitea.GetOrganization lib c orgName).
Proof. unfold gitea.GetOrganization. effects. Qed.

Lemma keeps_IsRepositoryMirrored c repoName target :
  keeps R (gitea.IsRepositoryMirrored c repoName target).
Proof. unfold gitea.IsRepositoryMirrored. effects. Qed.

Lemma keeps_StarRepository_dry c repoName target :
  keeps R (gitea.StarRepository c repoName target true).
Proof. unfold gitea.StarRepository. effects. Qed.

Lemma keeps_getDefaultTarget lib c cfg giteaUser :
  keeps R (main.getDefaultTarget lib c cfg giteaUser).
Proof.
  unfold main.getDefaultTarget. effects; try apply keeps_GetOrganization; effects.
Qed.

Lemma keeps_resolveTarget lib c cfg giteaUser orgTargets repo :
  keeps R (main.resolveTarget lib c cfg giteaUser orgTargets repo).
Proof.
  unfold main.resolveTarget.
  effects; try apply keeps_GetOrganization; effects; apply keeps_getDefaultTarget.
Qed.

Lemma keeps_mirrorRepository_dry lib c ghClient cfg giteaUser orgTargets repo :
  config.DryRun cfg = true ->
  keeps R (main.mirrorRepository lib c ghClient cfg giteaUser orgTargets repo).
Proof.
  intros Hdry. unfold main.mirrorRepository. rewrite Hdry.
  apply keeps_bind; [apply keeps_resolveTarget | intros giteaTarget].
  apply keeps_bind; [apply keeps_IsRepositoryMirrored | intros [mirrored err]].
  effects.
Qed.

End ReadOnly.

Section AnyRequest.

Hypothesis allowed_all : forall req, allowed req.

Lemma keeps_StarRepository c repoName target dryRun :
  keeps R (gitea.StarRepository c repoName target dryRun).
Proof. unfold gitea.StarRepository. effects. Qed.

Lemma keeps_MirrorRepository c repo target githubToken :
  keeps R (gitea.MirrorRepository c repo target githubToken).
Proof. unfold gitea.MirrorRepository. effects. Qed.

Lemma keeps_generateRandomColor lib : keeps R (gitea.generateRandomColor lib).
Proof.
  unfold gitea.generateRandomColor. apply keeps_bind; [|intros n; apply keeps_ret].
  intros s. apply R_draw.
Qed.

Lemma keeps_addLabelToIssue lib c repo target issueNumber labelName :
  keeps R (gitea.addLabelToIssue lib c repo target issueNumber labelName).
Proof.
  unfold gitea.addLabelToIssue.
  apply keeps_bind; [apply keeps_generateRandomColor | intros color]. effects.
Qed.

Lemma keeps_addLabels lib c repo target issueNumber labels :
  keeps R (gitea.addLabels lib c repo target issueNumber labels).
Proof.
  induction labels as [|label rest IH]; simpl; [apply keeps_ret|].
  apply keeps_bind; [apply keeps_addLabelToIssue | intros _; exact IH].
Qed.

Lemma keeps_createGiteaIssue lib c issue repo target :
  keeps R (gitea.createGiteaIssue lib c issue repo target).
Proof.
  unfold gitea.createGiteaIssue. effects; apply keeps_addLabels.
Qed.

Lemma keeps_createIssues lib c issues repo target :
  keeps R (gitea.createIssues lib c issues repo target).
Proof.
  induction issues as [|issue rest IH]; simpl; [apply keeps_ret|].
  apply keeps_bind; [apply keeps_createGiteaIssue | intros err].
  apply keeps_bind; [effects | intros _; exact IH].
Qed.

Lemma keeps_MirrorIssues lib c ghClient repo target githubToken dryRun :
  keeps R (gitea.MirrorIssues lib c ghClient repo target githubToken dryRun).
Proof.
  unfold gitea.MirrorIssues. effects. apply keeps_createIssues.
Qed.

Lemma keeps_starMirror c cfg repo target : keeps R (main.starMirror c cfg repo target).
Proof. unfold main.starMirror. effects; try apply keeps_StarRepository; effects. Qed.

Lemma keeps_replicateIssues lib c ghClient cfg repo target :
  keeps R (main.replicateIssues lib c ghClient cfg repo target).
Proof. unfold main.replicateIssues. effects; try apply keeps_MirrorIssues; effects. Qed.

End AnyRequest.

End Effects.

(** The three relations the statements use. *)

Lemma sends_Printf P line s : sends P s (logged line s).
Proof. exists []. simpl. by rewrite app_nil_r. Qed.

Lemma sends_draw P lib n s : sends P s (snd (gitea.randIntn lib n s)).
Proof. exists []. simpl. by rewrite app_nil_r. Qed.

Lemma sends_request (P : http.Request -> Prop) c method path body s :
  P (http.mkRequest method path body) ->
  sends P s (snd (gitea.doRequest c method path body s)).
Proof.
  intros H. exists [http.mkRequest method path body].
  unfold gitea.doRequest. split; [|by repeat constructor].
  by destruct (gitea.httpClient c (calls s) _).
Qed.

Lemma logsGrow_Printf line s : logsGrow s (logged line s).
Proof. by exists [line]. Qed.

Lemma logsGrow_draw lib n s : logsGrow s (snd (gitea.randIntn lib n s)).
Proof. exists []. simpl. by rewrite app_nil_r. Qed.

Lemma logsGrow_request c method path body s :
  anyRequest (http.mkRequest method path body) ->
  logsGrow s (snd (gitea.doRequest c method path body s)).
Proof.
  intros _. exists []. unfold gitea.doRequest.
  destruct (gitea.httpClient c (calls s) _); simpl; by rewrite app_nil_r.
Qed.

(** The facts about a relation that the [keeps] lemmas ask for. *)
Ltac relation_facts :=
  first [ exact (sends_refl _) | exact (sends_trans _) | exact (sends_Printf _)
        | exact (sends_draw _) | exact (sends_request _)
        | exact logsGrow_refl | exact logsGrow_trans | exact logsGrow_Printf
        | exact logsGrow_draw | exact logsGrow_request
        | exact (fun _ => I) | (intros ?; reflexivity) | assumption ].

(** C1. With dry-run enabled, [mirrorRepository] sends nothing but [GET]
    requests to the destination, so no mirror is created, nothing is
    starred and no issue is created; for a repository that is not mirrored
    yet it logs the line saying what would be done, which says whether the
    mirror would be starred, and returns no error. *)
Theorem dry_run_sends_only_GET
  (lib : gitea.Library) (giteaClient : gitea.Client) (ghClient : github.Client)
  (cfg : config.Config) (giteaUser : gitea.Target.t)
  (orgTargets : gmap string gitea.Target.t) (repo : ghrepo.Repository) (s : State) :
  config.DryRun cfg = true ->
  (exists new,
      calls (snd (main.mirrorRepository lib giteaClient ghClient cfg giteaUser orgTargets
                                         repo s))
      = calls s ++ new
      /\ Forall (fun req => http.method req = "GET") new)
  /\ (forall giteaTarget s1 s2,
         main.resolveTarget lib giteaClient cfg giteaUser orgTargets repo s
         = (giteaTarget, s1) ->
         gitea.IsRepositoryMirrored giteaClient (ghrepo.Name repo) giteaTarget s1
         = ((false, None), s2) ->
         main.mirrorRepository lib giteaClient ghClient cfg giteaUser orgTargets repo s
         = (None, {| logs := logs s2 ++ [dryRunLine repo giteaTarget];
                     calls := calls s2; draws := draws s2 |})).
Proof.
  intros Hdry. split.
  - apply (keeps_mirrorRepository_dry (sends isGET) isGET); relation_facts.
  - intros giteaTarget s1 s2 Hres Hmir.
    unfold main.mirrorRepository, bind. rewrite Hres, Hmir, Hdry.
    unfold dryRunLine. by destruct (ghrepo.Starred repo).
Qed.

Lemma dry_run_sends_only_GET_witness :
  let run := main.mirrorRepository sampleLibrary (sampleGitea ["/api/v1/orgs/github"] 204)
               sampleGitHub (sampleConfig true) sampleUser ∅
               (sampleRepo "lib-b" false true) in
  (exists new, calls (snd (run initial)) = calls initial ++ new
               /\ Forall (fun req => http.method req = "GET") new)
  /\ run initial
     = (None,
        {| logs := [ "Using organization " +:+ dquote +:+ "github" +:+ dquote
                     +:+ " for starred repository: lib-b";
                     "DRY RUN: Would mirror and star repository to organization github: lib-b (starred)" ];
           calls := [ http.mkRequest "GET" "/api/v1/orgs/github" None;
                      http.mkRequest "GET" "/api/v1/repos/github/lib-b" None ];
           draws := 0 |}).
Proof.
  pose proof (dry_run_sends_only_GET sampleLibrary (sampleGitea ["/api/v1/orgs/github"] 204)
                sampleGitHub (sampleConfig true) sampleUser ∅
                (sampleRepo "lib-b" false true) initial eq_refl) as [Hcalls Hline].
  split; [exact Hcalls|].
  exact (Hline githubOrg _ _ eq_refl eq_refl).
Defined.

(** ** Target resolution *)

(** The target of a starred repository when a starred organization is
    configured, whatever the other settings are. *)
Lemma resolveTarget_starred
  (lib : gitea.Library) (giteaClient : gitea.Client) (cfg : config.Config)
  (giteaUser : gitea.Target.t) (orgTargets : gmap string gitea.Target.t)
  (repo : ghrepo.Repository) (s : State) :
  ghrepo.Starred repo = true ->
  config.GiteaConfig.StarredReposOrg (config.Gitea cfg) <> EmptyString ->
  main.resolveTarget lib giteaClient cfg giteaUser orgTargets repo s
  = match gitea.GetOrganization lib giteaClient
            (config.GiteaConfig.StarredReposOrg (config.Gitea cfg)) s with
    | (Ok starredOrg, s1) => (starredOrg, logged (usingStarredOrgLine cfg repo) s1)
    | (Err _, s1) =>
        main.getDefaultTarget lib giteaClient cfg giteaUser (logged (noStarredOrgLine cfg) s1)
    end.
Proof.
  intros Hstarred Horg. apply is_empty_false in Horg.
  unfold main.resolveTarget, bind. rewrite Hstarred, Horg. simpl.
  destruct (gitea.GetOrganization lib giteaClient _ s) as [[starredOrg|err] s1]; done.
Qed.

Lemma GetOrganization_target (lib : gitea.Library) (c : gitea.Client) (orgName : string)
  (s s1 : State) (target : gitea.Target.t) :
  gitea.GetOrganization lib c orgName s = (Ok target, s1) ->
  gitea.Target.Name target = orgName /\ gitea.Target.Type_ target = "organization".
Proof.
  unfold gitea.GetOrganization, bind, gitea.doRequest, ret.
  destruct (gitea.httpClient c (calls s) _) as [e | e | st e | respBody st]; simpl; try done.
  destruct (st =? http.StatusOK); simpl; [|done].
  destruct (gitea.unmarshalOrganization lib respBody); [|done].
  intros [= <- _]. done.
Qed.

(** C4. The target of a starred repository, when a starred organization
    is configured, is that organization whenever its lookup succeeds,
    whatever the organization-structure setting, the pre-resolved
    organization targets and the source organization of the repository
    are; when the lookup fails the target is the default target, and in
    both cases resolution gives a target and no error. *)
Theorem starred_target_precedence
  (lib : gitea.Library) (giteaClient : gitea.Client) (cfg : config.Config)
  (giteaUser : gitea.Target.t) (orgTargets : gmap string gitea.Target.t)
  (repo : ghrepo.Repository) (s : State) :
  ghrepo.Starred repo = true ->
  config.GiteaConfig.StarredReposOrg (config.Gitea cfg) <> EmptyString ->
  (forall starredOrg s1,
      gitea.GetOrganization lib giteaClient
        (config.GiteaConfig.StarredReposOrg (config.Gitea cfg)) s = (Ok starredOrg, s1) ->
      main.resolveTarget lib giteaClient cfg giteaUser orgTargets repo s
      = (starredOrg, logged (usingStarredOrgLine cfg repo) s1)
      /\ gitea.Target.Name starredOrg = config.GiteaConfig.StarredReposOrg (config.Gitea cfg)
      /\ gitea.Target.Type_ starredOrg = "organization")
  /\ (forall err s1,
         gitea.GetOrganization lib giteaClient
           (config.GiteaConfig.StarredReposOrg (config.Gitea cfg)) s = (Err err, s1) ->
         main.resolveTarget lib giteaClient cfg giteaUser orgTargets repo s
         = main.getDefaultTarget lib giteaClient cfg giteaUser
             (logged (noStarredOrgLine cfg) s1)).
Proof.
  intros Hstarred Horg.
  pose proof (resolveTarget_starred lib giteaClient cfg giteaUser orgTargets repo s
                Hstarred Horg) as H.
  split.
  - intros starredOrg s1 Hget. rewrite Hget in H. split; [done|].
    by apply GetOrganization_target in Hget.
  - intros err s1 Hget. by rewrite Hget in H.
Qed.

Lemma starred_target_precedence_witness :
  (* the organization exists: it is the target although the repository
     carries a source organization that has a pre-resolved target *)
  fst (main.resolveTarget sampleLibrary (sampleGitea ["/api/v1/orgs/github"] 204)
         (sampleConfig false) sampleUser sampleOrgTargets
         (ghrepo.setOrganization "acme" (sampleRepo "lib-b" false true)) initial)
  = githubOrg
  (* the organization is missing: the default target, here the user *)
  /\ fst (main.resolveTarget sampleLibrary (sampleGitea [] 204)
            (sampleConfig false) sampleUser sampleOrgTargets
            (ghrepo.setOrganization "acme" (sampleRepo "lib-b" false true)) initial)
     = sampleUser.
Proof.
  split.
  - destruct (starred_target_precedence sampleLibrary (sampleGitea ["/api/v1/orgs/github"] 204)
                (sampleConfig false) sampleUser sampleOrgTargets
                (ghrepo.setOrganization "acme" (sampleRepo "lib-b" false true)) initial
                eq_refl) as [Hok _]; [discriminate|].
    destruct (Hok githubOrg _ eq_refl) as [-> _]. reflexivity.
  - destruct (starred_target_precedence sampleLibrary (sampleGitea [] 204)
                (sampleConfig false) sampleUser sampleOrgTargets
                (ghrepo.setOrganization "acme" (sampleRepo "lib-b" false true)) initial
                eq_refl) as [_ Herr]; [discriminate|].
    rewrite (Herr _ _ eq_refl). reflexivity.
Defined.

(** C10. A configuration that [Load] returns has a starred organization
    that is not empty, [github] when the variable is not set or empty and
    the value of the variable otherwise; so for every starred repository
    target resolution asks for that organization and never looks at the
    organization-structure setting. *)
Theorem loaded_starred_org_not_empty
  (environ : gmap string string) (cfg : config.Config) :
  config.Load environ = Ok cfg ->
  config.GiteaConfig.StarredReposOrg (config.Gitea cfg) <> EmptyString
  /\ config.GiteaConfig.StarredReposOrg (config.Gitea cfg)
     = (if is_empty (config.Getenv environ "GITEA_STARRED_ORGANIZATION")
        then "github"
        else config.Getenv environ "GITEA_STARRED_ORGANIZATION")
  /\ (forall lib giteaClient giteaUser orgTargets repo s,
         ghrepo.Starred repo = true ->
         main.resolveTarget lib giteaClient cfg giteaUser orgTargets repo s
         = match gitea.GetOrganization lib giteaClient
                   (config.GiteaConfig.StarredReposOrg (config.Gitea cfg)) s with
           | (Ok starredOrg, s1) => (starredOrg, logged (usingStarredOrgLine cfg repo) s1)
           | (Err _, s1) =>
               main.getDefaultTarget lib giteaClient cfg giteaUser
                 (logged (noStarredOrgLine cfg) s1)
           end).
Proof.
  intros Hload.
  assert (Hvalue : config.GiteaConfig.StarredReposOrg (config.Gitea cfg)
                   = (if is_empty (config.Getenv environ "GITEA_STARRED_ORGANIZATION")
                      then "github"
                      else config.Getenv environ "GITEA_STARRED_ORGANIZATION")).
  { unfold config.Load in Hload.
    destruct (config.mustReadEnv environ "GITHUB_USERNAME"); [|done].
    destruct (config.mustReadEnv environ "GITEA_URL"); [|done].
    destruct (config.mustReadEnv environ "GITEA_TOKEN"); [|done].
    cbv zeta in Hload.
    destruct (_ && _) in Hload; [done|].
    destruct (_ && _) in Hload; [done|].
    injection Hload as <-. reflexivity. }
  assert (Hne : config.GiteaConfig.StarredReposOrg (config.Gitea cfg) <> EmptyString).
  { rewrite Hvalue.
    destruct (is_empty (config.Getenv environ "GITEA_STARRED_ORGANIZATION")) eqn:E;
      [done | by apply is_empty_false]. }
  split; [done|]. split; [done|].
  intros lib giteaClient giteaUser orgTargets repo s Hstarred.
  by apply resolveTarget_starred.
Qed.

Lemma loaded_starred_org_not_empty_witness :
  config.Load starredOrgEnv = Ok starredOrgConfig
  /\ config.GiteaConfig.StarredReposOrg (config.Gitea starredOrgConfig) = "github"
  /\ fst (main.resolveTarget sampleLibrary (sampleGitea ["/api/v1/orgs/github"] 204)
            starredOrgConfig sampleUser sampleOrgTargets
            (ghrepo.setOrganization "acme" (sampleRepo "lib-b" false true)) initial)
     = githubOrg.
Proof.
  assert (Hload : config.Load starredOrgEnv = Ok starredOrgConfig)
    by (vm_compute; reflexivity).
  destruct (loaded_starred_org_not_empty starredOrgEnv starredOrgConfig Hload)
    as (_ & Hvalue & Hbranch).
  split; [exact Hload|]. split; [reflexivity|].
  rewrite Hbranch by reflexivity. reflexivity.
Defined.

(** ** The orchestrator *)

Section Orchestrator.

Variable lib : gitea.Library.
Variable giteaClient : gitea.Client.
Variable ghClient : github.Client.
Variable cfg : config.Config.
Variable giteaUser : gitea.Target.t.
Variable orgTargets : gmap string gitea.Target.t.

Local Abbreviation mirrorRepository :=
  (main.mirrorRepository lib giteaClient ghClient cfg giteaUser orgTargets).
Local Abbreviation resolveTarget :=
  (main.resolveTarget lib giteaClient cfg giteaUser orgTargets).
Local Abbreviation createMirror := (main.createMirror lib giteaClient ghClient cfg).
Local Abbreviation token := (config.GitHubConfig.Token (config.GitHub cfg)).

Lemma IsRepositoryMirrored_status (repoName : string) (target : gitea.Target.t) (s : State) :
  gitea.IsRepositoryMirrored giteaClient repoName target s
  = ((statusCode (gitea.httpClient giteaClient (calls s) (existenceRequest repoName target))
      =? http.StatusOK, None),
     sent (existenceRequest repoName target) s).
Proof.
  unfold gitea.IsRepositoryMirrored, bind, gitea.doRequest, ret, existenceRequest.
  by destruct (gitea.httpClient giteaClient (calls s) _).
Qed.

Lemma mirrorRepository_absent (repo : ghrepo.Repository) (s s1 s2 : State)
  (giteaTarget : gitea.Target.t) :
  resolveTarget repo s = (giteaTarget, s1) ->
  gitea.IsRepositoryMirrored giteaClient (ghrepo.Name repo) giteaTarget s1
  = ((false, None), s2) ->
  config.DryRun cfg = false ->
  mirrorRepository repo s = createMirror repo giteaTarget s2.
Proof.
  intros Hres Hmir Hdry. unfold main.mirrorRepository, bind.
  rewrite Hres, Hmir, Hdry. by destruct (ghrepo.Starred repo).
Qed.

Lemma MirrorRepository_sent (repo : ghrepo.Repository) (target : gitea.Target.t)
  (githubToken : string) (s : State) :
  sends anyRequest (sent (migrateRequest repo target githubToken) s)
        (snd (gitea.MirrorRepository giteaClient repo target githubToken s)).
Proof.
  unfold gitea.MirrorRepository, bind, gitea.doRequest, ret.
  fold (migrateBody repo target githubToken).
  destruct (gitea.httpClient giteaClient (calls s) _) as [e | e | st e | respBody st]; simpl;
    try apply sends_refl.
  destruct (st =? http.StatusCreated); simpl; [|apply sends_refl].
  exists []. simpl. by rewrite app_nil_r.
Qed.

Lemma createMirror_sends_migrate (repo : ghrepo.Repository) (giteaTarget : gitea.Target.t)
  (s : State) :
  exists rest,
    calls (snd (createMirror repo giteaTarget s))
    = calls s ++ migrateRequest repo giteaTarget token :: rest.
Proof.
  assert (Hsends : sends anyRequest (sent (migrateRequest repo giteaTarget token) s)
                         (snd (createMirror repo giteaTarget s))).
  { unfold main.createMirror, bind at 1. simpl. unfold bind at 1.
    pose proof (MirrorRepository_sent repo giteaTarget token
                  (logged (mirroringLine repo giteaTarget) s)) as Hm.
    unfold logged, mirroringLine in Hm. simpl in Hm.
    destruct (gitea.MirrorRepository giteaClient repo giteaTarget token _) as [err s3].
    simpl in Hm. destruct err as [err|]; [exact Hm|].
    eapply sends_trans; [exact Hm|].
    apply (keeps_bind (sends anyRequest)); [apply sends_trans| |].
    - apply (keeps_starMirror (sends anyRequest) anyRequest); relation_facts.
    - intros _. apply (keeps_bind (sends anyRequest)); [apply sends_trans| |].
      + apply (keeps_replicateIssues (sends anyRequest) anyRequest); relation_facts.
      + intros _. apply keeps_ret. apply sends_refl. }
  destruct Hsends as (rest & E & _). exists rest.
  rewrite E. simpl. by rewrite <- app_assoc.
Qed.

Lemma createMirror_created (repo : ghrepo.Repository) (giteaTarget : gitea.Target.t)
  (s s3 : State) :
  gitea.MirrorRepository giteaClient repo giteaTarget token
    (logged (mirroringLine repo giteaTarget) s) = (None, s3) ->
  createMirror repo giteaTarget s
  = (None, snd (main.replicateIssues lib giteaClient ghClient cfg repo giteaTarget
                  (snd (main.starMirror giteaClient cfg repo giteaTarget s3)))).
Proof.
  intros Hm. unfold main.createMirror, bind at 1. simpl. unfold bind at 1.
  unfold logged, mirroringLine in Hm. simpl in Hm. rewrite Hm.
  unfold bind, ret.
  destruct (main.starMirror giteaClient cfg repo giteaTarget s3) as [[] s4]. simpl.
  by destruct (main.replicateIssues lib giteaClient ghClient cfg repo giteaTarget s4) as [[] s5].
Qed.

Lemma starMirror_warns (repo : ghrepo.Repository) (giteaTarget : gitea.Target.t)
  (s s' : State) (err : string) :
  ghrepo.Starred repo = true ->
  gitea.StarRepository giteaClient (ghrepo.Name repo) giteaTarget (config.DryRun cfg) s
  = (Some err, s') ->
  snd (main.starMirror giteaClient cfg repo giteaTarget s) = logged (starWarning repo err) s'.
Proof.
  intros Hstarred Hstar. unfold main.starMirror, bind. by rewrite Hstarred, Hstar.
Qed.

Lemma replicateIssues_warns (repo : ghrepo.Repository) (giteaTarget : gitea.Target.t)
  (s s' : State) (err : string) :
  main.shouldMirrorIssues cfg repo = true ->
  config.DryRun cfg = false ->
  gitea.MirrorIssues lib giteaClient ghClient repo giteaTarget token (config.DryRun cfg) s
  = (Some err, s') ->
  snd (main.replicateIssues lib giteaClient ghClient cfg repo giteaTarget s)
  = logged (issuesWarning repo err) s'.
Proof.
  intros Hshould Hdry Hissues. unfold main.replicateIssues, bind.
  rewrite Hshould. rewrite Hdry in *. simpl. by rewrite Hissues.
Qed.

Lemma replicateIssues_logsGrow (repo : ghrepo.Repository) (giteaTarget : gitea.Target.t) :
  keeps logsGrow (main.replicateIssues lib giteaClient ghClient cfg repo giteaTarget).
Proof.
  apply (keeps_replicateIssues logsGrow anyRequest); relation_facts.
Qed.

End Orchestrator.

(** The outcome of [mirrorRepository] on its paths, in general.  Once the
    mirror of a repository is created, a failure to star it or to mirror
    its issues is logged as a warning and [mirrorRepository] returns no
    error; for a repository that is mirrored already and not starred it
    returns no error either.  For a repository that is mirrored already
    and starred, what it returns is what the star action returns: no
    error in dry-run mode, and the error of the star request otherwise. *)
Theorem side_actions_warn_after_create
  (lib : gitea.Library) (giteaClient : gitea.Client) (ghClient : github.Client)
  (cfg : config.Config) (giteaUser : gitea.Target.t)
  (orgTargets : gmap string gitea.Target.t) (repo : ghrepo.Repository)
  (s s1 s2 : State) (giteaTarget : gitea.Target.t) (mirrored : bool) :
  main.resolveTarget lib giteaClient cfg giteaUser orgTargets repo s = (giteaTarget, s1) ->
  gitea.IsRepositoryMirrored giteaClient (ghrepo.Name repo) giteaTarget s1
  = ((mirrored, None), s2) ->
  let outcome := main.mirrorRepository lib giteaClient ghClient cfg giteaUser orgTargets
                   repo s in
  (mirrored = false -> config.DryRun cfg = false ->
   forall s3,
     gitea.MirrorRepository giteaClient repo giteaTarget
       (config.GitHubConfig.Token (config.GitHub cfg))
       (logged (mirroringLine repo giteaTarget) s2) = (None, s3) ->
     fst outcome = None
     /\ (forall err s4,
            ghrepo.Starred repo = true ->
            gitea.StarRepository giteaClient (ghrepo.Name repo) giteaTarget
              (config.DryRun cfg) s3 = (Some err, s4) ->
            starWarning repo err ∈ logs (snd outcome))
     /\ (forall err s5,
            main.shouldMirrorIssues cfg repo = true ->
            gitea.MirrorIssues lib giteaClient ghClient repo giteaTarget
              (config.GitHubConfig.Token (config.GitHub cfg)) (config.DryRun cfg)
              (snd (main.starMirror giteaClient cfg repo giteaTarget s3)) = (Some err, s5) ->
            issuesWarning repo err ∈ logs (snd outcome)))
  /\ (mirrored = true -> ghrepo.Starred repo = false -> fst outcome = None)
  /\ (mirrored = true -> ghrepo.Starred repo = true ->
      outcome = gitea.StarRepository giteaClient (ghrepo.Name repo) giteaTarget
                  (config.DryRun cfg) (logged (alreadyMirroredLine repo giteaTarget) s2))
  /\ (mirrored = true -> config.DryRun cfg = true -> fst outcome = None).
Proof.
  intros Hres Hmir outcome. split; [|split; [|split]].
  - intros -> Hdry s3 Hcreate.
    assert (Hout : outcome
                   = (None, snd (main.replicateIssues lib giteaClient ghClient cfg repo
                                   giteaTarget
                                   (snd (main.starMirror giteaClient cfg repo giteaTarget
                                           s3))))).
    { unfold outcome.
      rewrite (mirrorRepository_absent _ _ _ _ _ _ _ _ _ _ _ Hres Hmir Hdry).
      by apply createMirror_created. }
    rewrite Hout. simpl. split; [done|]. split.
    + intros err s4 Hstarred Hstar.
      eapply logsGrow_elem; [apply replicateIssues_logsGrow|].
      rewrite (starMirror_warns _ _ _ _ _ _ _ Hstarred Hstar).
      simpl. apply elem_of_app. right. by apply list_elem_of_singleton.
    + intros err s5 Hshould Hissues.
      rewrite (replicateIssues_warns _ _ _ _ _ _ _ _ _ Hshould Hdry Hissues).
      simpl. apply elem_of_app. right. by apply list_elem_of_singleton.
  - intros -> Hstarred. unfold outcome, main.mirrorRepository, bind.
    by rewrite Hres, Hmir, Hstarred.
  - intros -> Hstarred. unfold outcome, main.mirrorRepository, bind.
    rewrite Hres, Hmir, Hstarred. unfold alreadyMirroredLine. by rewrite Hstarred.
  - intros -> Hdry. unfold outcome, main.mirrorRepository, bind.
    rewrite Hres, Hmir, Hdry. by destruct (ghrepo.Starred repo).
Qed.

(** C5.  The claim fails on the path of a mirror that exists.  The
    starred [lib-b] is mirrored in the organization [github] and the star
    request is answered 500: [mirrorRepository] returns the failure of the
    star action as the error of the repository, and the loop of [main]
    logs it as an error of the repository.  On the path after a create,
    for the same repository and the same answer, the failure is a warning
    and no error is returned. *)
Theorem star_failure_on_existing_mirror_is_returned :
  gitea.IsRepositoryMirrored starFailsGitea "lib-b" githubOrg initial
  = ((true, None), sent (existenceRequest "lib-b" githubOrg) initial)
  /\ fst (main.mirrorRepository sampleLibrary starFailsGitea sampleGitHub (sampleConfig false)
            sampleUser ∅ (sampleRepo "lib-b" false true) initial)
     = Some "failed to star repository github/lib-b: status 500"
  /\ last (logs (snd (main.mirrorAll (sampleRuntime starredOrgEnv []) starFailsGitea
                        sampleGitHub (sampleConfig false) sampleUser ∅
                        [sampleRepo "lib-b" false true] initial)))
     = Some ("Error mirroring repository lib-b: "
             +:+ "failed to star repository github/lib-b: status 500")
  /\ (let created := main.mirrorRepository sampleLibrary noMirrorStarFailsGitea sampleGitHub
                        (sampleConfig false) sampleUser ∅ (sampleRepo "lib-b" false true)
                        initial in
      fst created = None
      /\ starWarning (sampleRepo "lib-b" false true)
           "failed to star repository github/lib-b: status 500" ∈ logs (snd created)).
Proof.
  split; [vm_compute; reflexivity|]. split; [vm_compute; reflexivity|].
  split; [vm_compute; reflexivity|]. cbv zeta. split; [vm_compute; reflexivity|].
  apply list_elem_of_In. vm_compute. tauto.
Qed.

Lemma side_actions_warn_after_create_witness :
  let outcome := main.mirrorRepository sampleLibrary noMirrorStarFailsGitea issuesFailGitHub
                   (sampleConfig false) sampleUser ∅ (sampleRepo "lib-b" false true)
                   initial in
  fst outcome = None
  /\ starWarning (sampleRepo "lib-b" false true)
       "failed to star repository github/lib-b: status 500" ∈ logs (snd outcome)
  /\ issuesWarning (sampleRepo "lib-b" false true)
       "error fetching issues for octo/lib-b: 502 Bad Gateway" ∈ logs (snd outcome).
Proof.
  destruct (side_actions_warn_after_create sampleLibrary noMirrorStarFailsGitea
              issuesFailGitHub (sampleConfig false) sampleUser ∅
              (sampleRepo "lib-b" false true) initial _ _ githubOrg false
              eq_refl eq_refl) as [Hcreated _].
  destruct (Hcreated eq_refl eq_refl _ eq_refl) as (Hnone & Hstar & Hissues).
  split; [exact Hnone|]. split.
  - exact (Hstar _ _ eq_refl eq_refl).
  - exact (Hissues _ _ eq_refl eq_refl).
Defined.

(** C6, as the code has it.  The mirror-create request of a repository
    that is not mirrored yet carries the configured source credential
    whenever that credential is not empty, whether the repository is
    private or public and whatever modes are enabled; the member is left
    out only when the credential is empty. *)
Theorem migrate_request_carries_configured_token
  (lib : gitea.Library) (giteaClient : gitea.Client) (ghClient : github.Client)
  (cfg : config.Config) (giteaUser : gitea.Target.t)
  (orgTargets : gmap string gitea.Target.t) (repo : ghrepo.Repository)
  (s s1 s2 : State) (giteaTarget : gitea.Target.t) :
  main.resolveTarget lib giteaClient cfg giteaUser orgTargets repo s = (giteaTarget, s1) ->
  gitea.IsRepositoryMirrored giteaClient (ghrepo.Name repo) giteaTarget s1
  = ((false, None), s2) ->
  config.DryRun cfg = false ->
  let githubToken := config.GitHubConfig.Token (config.GitHub cfg) in
  (exists rest,
      calls (snd (main.mirrorRepository lib giteaClient ghClient cfg giteaUser orgTargets
                                         repo s))
      = calls s2 ++ migrateRequest repo giteaTarget githubToken :: rest)
  /\ http.member "auth_token" (migrateBody repo giteaTarget githubToken)
     = (if is_empty githubToken then None else Some (http.VString githubToken)).
Proof.
  intros Hres Hmir Hdry githubToken. split.
  - rewrite (mirrorRepository_absent _ _ _ _ _ _ _ _ _ _ _ Hres Hmir Hdry).
    apply createMirror_sends_migrate.
  - unfold migrateBody, gitea.MigrateRepoRequest.marshal. simpl.
    by destruct (is_empty githubToken).
Qed.

(** C6 as stated fails: a public repository, a configuration in which no
    mode requires the source credential, and the mirror-create request
    carries the credential. *)
Lemma public_repository_migrated_with_token :
  config.Load tokenOnlyEnv = Ok tokenOnlyConfig
  /\ config.tokenRequired tokenOnlyConfig = false
  /\ ghrepo.Private (sampleRepo "app-x" false false) = false
  /\ calls (snd (main.mirrorRepository sampleLibrary (sampleGitea [] 204) sampleGitHub
                   tokenOnlyConfig sampleUser ∅ (sampleRepo "app-x" false false) initial))
     = [ http.mkRequest "GET" "/api/v1/repos/octo/app-x" None;
         http.mkRequest "POST" "/api/v1/repos/migrate"
           (Some [ ("auth_token", http.VString "ghp_token");
                   ("clone_addr", http.VString "https://github.com/octo/app-x.git");
                   ("mirror", http.VBool true);
                   ("repo_name", http.VString "app-x");
                   ("uid", http.VInt 1);
                   ("private", http.VBool false) ]) ].
Proof. repeat split; vm_compute; reflexivity. Qed.

Lemma migrate_request_carries_configured_token_witness :
  (exists rest,
      calls (snd (main.mirrorRepository sampleLibrary (sampleGitea [] 204) sampleGitHub
                    tokenOnlyConfig sampleUser ∅ (sampleRepo "app-x" false false) initial))
      = calls (sent (existenceRequest "app-x" sampleUser) initial)
        ++ migrateRequest (sampleRepo "app-x" false false) sampleUser "ghp_token" :: rest)
  /\ http.member "auth_token" (migrateBody (sampleRepo "app-x" false false) sampleUser
                                           "ghp_token")
     = Some (http.VString "ghp_token").
Proof.
  exact (migrate_request_carries_configured_token sampleLibrary (sampleGitea [] 204)
           sampleGitHub tokenOnlyConfig sampleUser ∅ (sampleRepo "app-x" false false)
           initial initial (sent (existenceRequest "app-x" sampleUser) initial) sampleUser
           eq_refl eq_refl eq_refl).
Defined.

(** C9, as the code has it.  [IsRepositoryMirrored] never returns an
    error: it reports the repository as mirrored exactly when the status
    code of its request is 200, whatever error the request ended with.  So
    a request without response and a response with another status are
    reported as not mirrored, and a response with status 200 is reported
    as mirrored even if its body could not be read.  When the repository is
    reported as not mirrored and dry-run is off, the orchestrator goes on
    to send the mirror-create request. *)
Theorem existence_check_reports_status_200
  (lib : gitea.Library) (giteaClient : gitea.Client) (ghClient : github.Client)
  (cfg : config.Config) (giteaUser : gitea.Target.t)
  (orgTargets : gmap string gitea.Target.t) (repo : ghrepo.Repository)
  (s s1 : State) (giteaTarget : gitea.Target.t) :
  main.resolveTarget lib giteaClient cfg giteaUser orgTargets repo s = (giteaTarget, s1) ->
  let outcome :=
    gitea.httpClient giteaClient (calls s1) (existenceRequest (ghrepo.Name repo) giteaTarget) in
  let answer := gitea.IsRepositoryMirrored giteaClient (ghrepo.Name repo) giteaTarget s1 in
  snd (fst answer) = None
  /\ fst (fst answer) = (statusCode outcome =? 200)
  /\ ((exists err, outcome = http.SendFailed err) -> fst (fst answer) = false)
  /\ (statusCode outcome <> 200 -> fst (fst answer) = false)
  /\ (forall err, outcome = http.ReadFailed 200 err -> fst (fst answer) = true)
  /\ (statusCode outcome <> 200 -> config.DryRun cfg = false ->
      exists rest,
        calls (snd (main.mirrorRepository lib giteaClient ghClient cfg giteaUser orgTargets
                                           repo s))
        = calls s1
          ++ existenceRequest (ghrepo.Name repo) giteaTarget
          :: migrateRequest repo giteaTarget (config.GitHubConfig.Token (config.GitHub cfg))
          :: rest).
Proof.
  intros Hres outcome answer.
  pose proof (IsRepositoryMirrored_status giteaClient (ghrepo.Name repo) giteaTarget s1)
    as Hanswer.
  fold answer outcome in Hanswer. rewrite Hanswer. simpl.
  split; [done|]. split; [done|]. split; [|split; [|split]].
  - intros [err ->]. done.
  - intros Hne. by apply Z.eqb_neq.
  - intros err ->. done.
  - intros Hne Hdry. apply Z.eqb_neq in Hne.
    unfold answer in Hanswer. change http.StatusOK with 200 in Hanswer.
    rewrite Hne in Hanswer.
    rewrite (mirrorRepository_absent _ _ _ _ _ _ _ _ _ _ _ Hres Hanswer Hdry).
    destruct (createMirror_sends_migrate lib giteaClient ghClient cfg repo giteaTarget
                (sent (existenceRequest (ghrepo.Name repo) giteaTarget) s1)) as [rest E].
    exists rest. rewrite E. simpl. by rewrite <- app_assoc.
Qed.

(** C9 as stated fails: the response has status 200 and reading its body
    fails, a transport failure, and the repository is reported as
    mirrored; the orchestrator then does nothing. *)
Lemma unread_body_with_status_200_is_mirrored :
  gitea.doRequest brokenBodyGitea "GET" "/api/v1/repos/octo/app-x" None initial
  = ((EmptyString, 200, Some "unexpected EOF"),
     sent (existenceRequest "app-x" sampleUser) initial)
  /\ fst (gitea.IsRepositoryMirrored brokenBodyGitea "app-x" sampleUser initial)
     = (true, None)
  /\ main.mirrorRepository sampleLibrary brokenBodyGitea sampleGitHub tokenOnlyConfig
       sampleUser ∅ (sampleRepo "app-x" false false) initial
     = (None,
        {| logs := ["Repository app-x is already mirrored in user octo; doing nothing."];
           calls := [http.mkRequest "GET" "/api/v1/repos/octo/app-x" None];
           draws := 0 |}).
Proof. repeat split; vm_compute; reflexivity. Qed.

Lemma existence_check_reports_status_200_witness :
  fst (gitea.IsRepositoryMirrored (sampleGitea [] 204) "app-x" sampleUser initial)
  = (false, None)
  /\ exists rest,
      calls (snd (main.mirrorRepository sampleLibrary (sampleGitea [] 204) sampleGitHub
                    tokenOnlyConfig sampleUser ∅ (sampleRepo "app-x" false false) initial))
      = calls initial
        ++ existenceRequest "app-x" sampleUser
        :: migrateRequest (sampleRepo "app-x" false false) sampleUser "ghp_token" :: rest.
Proof.
  destruct (existence_check_reports_status_200 sampleLibrary (sampleGitea [] 204)
              sampleGitHub tokenOnlyConfig sampleUser ∅ (sampleRepo "app-x" false false)
              initial initial sampleUser eq_refl)
    as (Herr & Hmirrored & _ & _ & _ & Hcreate).
  split.
  - apply injective_projections; [exact Hmirrored | exact Herr].
  - apply Hcreate; [discriminate | reflexivity].
Defined.

(** * Further properties of the code *)

(** ** Loading the configuration *)

(** X1. [Load] returns a configuration exactly when the three mandatory
    variables are set to a non-empty value and, if mirroring of private
    repositories, of issues, of starred repositories, of organizations or
    of a single repository is asked for, [GITHUB_TOKEN] is non-empty too. *)
Theorem Load_succeeds_iff (environ : gmap string string) :
  (exists cfg, config.Load environ = Ok cfg)
  <-> config.Getenv environ "GITHUB_USERNAME" <> EmptyString
      /\ config.Getenv environ "GITEA_URL" <> EmptyString
      /\ config.Getenv environ "GITEA_TOKEN" <> EmptyString
      /\ (config.readBoolean environ "MIRROR_PRIVATE_REPOSITORIES"
          || config.readBoolean environ "MIRROR_ISSUES"
          || config.readBoolean environ "MIRROR_STARRED"
          || config.readBoolean environ "MIRROR_ORGANIZATIONS"
          || negb (is_empty (config.Getenv environ "SINGLE_REPO")) = true ->
          config.Getenv environ "GITHUB_TOKEN" <> EmptyString).
Proof.
  rewrite <- !is_empty_false.
  unfold config.Load, config.mustReadEnv, config.readEnv.
  destruct (is_empty (config.Getenv environ "GITHUB_USERNAME"));
    [split; [intros [cfg H]; done | intros [H _]; done]|].
  destruct (is_empty (config.Getenv environ "GITEA_URL"));
    [split; [intros [cfg H]; done | intros (_ & H & _); done]|].
  destruct (is_empty (config.Getenv environ "GITEA_TOKEN"));
    [split; [intros [cfg H]; done | intros (_ & _ & H & _); done]|].
  cbv zeta.
  destruct (config.readBoolean environ "MIRROR_PRIVATE_REPOSITORIES");
    destruct (config.readBoolean environ "MIRROR_ISSUES");
    destruct (config.readBoolean environ "MIRROR_STARRED");
    destruct (config.readBoolean environ "MIRROR_ORGANIZATIONS");
    destruct (is_empty (config.Getenv environ "SINGLE_REPO"));
    destruct (is_empty (config.Getenv environ "GITHUB_TOKEN")); simpl;
    (split; [intros [cfg H]; try done; repeat split; done
            | intros (_ & _ & _ & H); try (by specialize (H eq_refl)); eauto]).
Qed.

(** What a loaded configuration holds, field by field. *)
Lemma Load_Ok_fields (environ : gmap string string) (cfg : config.Config) :
  config.Load environ = Ok cfg ->
  let github := config.GitHub cfg in
  let gitea := config.Gitea cfg in
  config.GitHubConfig.Username github = config.Getenv environ "GITHUB_USERNAME"
  /\ config.GitHubConfig.Token github = config.Getenv environ "GITHUB_TOKEN"
  /\ config.GitHubConfig.PrivateRepositories github
     = config.readBoolean environ "MIRROR_PRIVATE_REPOSITORIES"
  /\ config.GitHubConfig.MirrorIssues github = config.readBoolean environ "MIRROR_ISSUES"
  /\ config.GitHubConfig.MirrorStarred github = config.readBoolean environ "MIRROR_STARRED"
  /\ config.GitHubConfig.MirrorOrganizations github
     = config.readBoolean environ "MIRROR_ORGANIZATIONS"
  /\ config.GitHubConfig.SingleRepo github = config.Getenv environ "SINGLE_REPO"
  /\ config.GiteaConfig.URL gitea = config.Getenv environ "GITEA_URL"
  /\ config.GiteaConfig.Token gitea = config.Getenv environ "GITEA_TOKEN"
  /\ config.GiteaConfig.Organization gitea = config.Getenv environ "GITEA_ORGANIZATION"
  /\ config.GiteaConfig.Visibility gitea
     = (if is_empty (config.Getenv environ "GITEA_ORG_VISIBILITY") then "public"
        else config.Getenv environ "GITEA_ORG_VISIBILITY")
  /\ config.DryRun cfg = config.readBoolean environ "DRY_RUN"
  /\ config.Delay cfg = config.readInt environ "DELAY" 3600
  /\ config.Include cfg
     = config.splitAndTrim (if is_empty (config.Getenv environ "INCLUDE") then "*"
                            else config.Getenv environ "INCLUDE")
  /\ config.Exclude cfg = config.splitAndTrim (config.Getenv environ "EXCLUDE").
Proof.
  intros Hload. unfold config.Load, config.mustReadEnv, config.readEnv in Hload.
  destruct (is_empty (config.Getenv environ "GITHUB_USERNAME")); [done|].
  destruct (is_empty (config.Getenv environ "GITEA_URL")); [done|].
  destruct (is_empty (config.Getenv environ "GITEA_TOKEN")); [done|].
  cbv zeta in Hload.
  destruct (_ && _) in Hload; [done|].
  destruct (_ && _) in Hload; [done|].
  injection Hload as <-. simpl. repeat split.
  by destruct (config.Getenv environ "EXCLUDE").
Qed.

Lemma Load_succeeds_iff_witness : exists cfg, config.Load mandatoryEnv = Ok cfg.
Proof.
  apply (proj2 (Load_succeeds_iff mandatoryEnv)).
  repeat split; try (vm_compute; discriminate).
Defined.

(** X2. In a configuration that [Load] returns the source user, the
    destination URL and the destination token are not empty, the
    visibility is not empty, and the source credential is not empty
    whenever a mode that requires it is enabled. *)
Theorem loaded_configuration_is_complete
  (environ : gmap string string) (cfg : config.Config) :
  config.Load environ = Ok cfg ->
  config.GitHubConfig.Username (config.GitHub cfg) <> EmptyString
  /\ config.GiteaConfig.URL (config.Gitea cfg) <> EmptyString
  /\ config.GiteaConfig.Token (config.Gitea cfg) <> EmptyString
  /\ config.GiteaConfig.Visibility (config.Gitea cfg) <> EmptyString
  /\ (config.tokenRequired cfg = true ->
      config.GitHubConfig.Token (config.GitHub cfg) <> EmptyString).
Proof.
  intros Hload.
  assert (Hok : exists c, config.Load environ = Ok c) by eauto.
  apply Load_succeeds_iff in Hok as (Huser & Hurl & Htoken & Hneeds).
  destruct (Load_Ok_fields environ cfg Hload)
    as (Eu & Et & Ep & Ei & Es & Eo & Esr & Eurl & Etok & _ & Evis & _).
  rewrite Eu, Eurl, Etok, Evis, Et. unfold config.tokenRequired.
  rewrite Ep, Ei, Es, Eo, Esr.
  split; [done|]. split; [done|]. split; [done|]. split; [|done].
  destruct (is_empty (config.Getenv environ "GITEA_ORG_VISIBILITY")) eqn:E;
    [done | by apply is_empty_false].
Qed.

Lemma loaded_configuration_is_complete_witness :
  config.GitHubConfig.Username (config.GitHub starredOrgConfig) <> EmptyString
  /\ config.GiteaConfig.URL (config.Gitea starredOrgConfig) <> EmptyString
  /\ config.GiteaConfig.Token (config.Gitea starredOrgConfig) <> EmptyString
  /\ config.GiteaConfig.Visibility (config.Gitea starredOrgConfig) <> EmptyString
  /\ (config.tokenRequired starredOrgConfig = true ->
      config.GitHubConfig.Token (config.GitHub starredOrgConfig) <> EmptyString).
Proof.
  apply (loaded_configuration_is_complete starredOrgEnv starredOrgConfig).
  vm_compute. reflexivity.
Defined.

(** X3. The defaults of [Load]: without [INCLUDE] every name is included
    by the pattern [*], without [EXCLUDE] nothing is excluded, without
    [DELAY] the delay is 3600, without [GITEA_ORG_VISIBILITY] the
    visibility is [public]; and a [DELAY] that is not a number gives 3600
    as well. *)
Theorem Load_defaults_when_unset (environ : gmap string string) (cfg : config.Config) :
  config.Load environ = Ok cfg ->
  (config.Getenv environ "INCLUDE" = EmptyString -> config.Include cfg = ["*"])
  /\ (config.Getenv environ "EXCLUDE" = EmptyString -> config.Exclude cfg = [])
  /\ (config.Getenv environ "DELAY" = EmptyString -> config.Delay cfg = 3600)
  /\ (forall err, strconv.Atoi (config.Getenv environ "DELAY") = Err err ->
                  config.Delay cfg = 3600)
  /\ (config.Getenv environ "GITEA_ORG_VISIBILITY" = EmptyString ->
      config.GiteaConfig.Visibility (config.Gitea cfg) = "public").
Proof.
  intros Hload.
  destruct (Load_Ok_fields environ cfg Hload)
    as (_ & _ & _ & _ & _ & _ & _ & _ & _ & _ & Evis & _ & Edelay & Einc & Eexc).
  rewrite Evis, Edelay, Einc, Eexc. unfold config.readInt.
  split; [intros ->; reflexivity|]. split; [intros ->; reflexivity|].
  split; [intros ->; reflexivity|]. split; [|intros ->; reflexivity].
  intros err Herr. cbv zeta. rewrite Herr.
  by destruct (is_empty (config.Getenv environ "DELAY")).
Qed.

Lemma Load_defaults_when_unset_witness :
  config.Include starredOrgConfig = ["*"]
  /\ config.Exclude starredOrgConfig = []
  /\ config.Delay starredOrgConfig = 3600
  /\ config.GiteaConfig.Visibility (config.Gitea starredOrgConfig) = "public".
Proof.
  destruct (Load_defaults_when_unset starredOrgEnv starredOrgConfig)
    as (Hinc & Hexc & Hdelay & _ & Hvis); [vm_compute; reflexivity|].
  split; [by apply Hinc|]. split; [by apply Hexc|]. split; [by apply Hdelay|].
  by apply Hvis.
Defined.

(** ** Strings *)

Module text.

Import strings.

Lemma append_nil (b : string) : EmptyString +:+ b = b.
Proof. reflexivity. Qed.

Lemma append_cons (x : ascii) (a b : string) : String x a +:+ b = String x (a +:+ b).
Proof. reflexivity. Qed.

Ltac norm := rewrite ?append_nil, ?append_cons; simpl; rewrite ?append_nil, ?append_cons.

Lemma length_append (a b : string) :
  String.length (a +:+ b) = (String.length a + String.length b)%nat.
Proof. induction a as [|c a IH]; norm; [done | by rewrite IH]. Qed.

Lemma append_assoc (a b c : string) : (a +:+ b) +:+ c = a +:+ (b +:+ c).
Proof. induction a as [|x a IH]; norm; [done | by f_equal]. Qed.

Lemma append_empty (a : string) : a +:+ EmptyString = a.
Proof. induction a as [|x a IH]; norm; [done | by f_equal]. Qed.

Lemma hasChar_app (ch : ascii) (a b : string) :
  hasChar ch (a +:+ b) = hasChar ch a || hasChar ch b.
Proof.
  induction a as [|x a IH]; norm; [done|]. by rewrite IH, orb_assoc.
Qed.

Lemma stripPrefix_app (prefix s : string) : stripPrefix prefix (prefix +:+ s) = Some s.
Proof.
  induction prefix as [|x p IH]; norm; [done|]. by rewrite Ascii.eqb_refl.
Qed.

Lemma stripPrefix_Some (prefix s rest : string) :
  stripPrefix prefix s = Some rest -> s = prefix +:+ rest.
Proof.
  revert s. induction prefix as [|x p IH]; intros s; norm; [by intros [= ->]|].
  destruct s as [|y s]; [done|].
  destruct (Ascii.eqb_spec x y) as [->|]; [|done]. intros H. by rewrite (IH _ H).
Qed.

(** A prefix and a string are compared up to their first separators. *)
Lemma stripPrefix_first_separator (sep : ascii) (p1 p2 a b rest : string) :
  hasChar sep p1 = false -> hasChar sep a = false ->
  stripPrefix (p1 +:+ String sep p2) (a +:+ String sep b) = Some rest ->
  a = p1 /\ stripPrefix p2 b = Some rest.
Proof.
  revert a. induction p1 as [|y p1 IH]; intros a Hp Ha; norm.
  - destruct a as [|x a]; norm.
    + by rewrite Ascii.eqb_refl.
    + simpl in Ha. apply orb_false_iff in Ha as [Ha _]. by rewrite Ha.
  - simpl in Hp. apply orb_false_iff in Hp as [Hy Hp].
    destruct a as [|x a]; norm.
    + rewrite Ascii.eqb_sym in Hy. by rewrite Hy.
    + simpl in Ha. apply orb_false_iff in Ha as [_ Ha].
      destruct (Ascii.eqb_spec y x) as [->|]; [|done].
      intros H. destruct (IH a Hp Ha H) as [-> H']. done.
Qed.

Lemma substring_all (s : string) : substring 0 (String.length s) s = s.
Proof. induction s as [|c s IH]; norm; [done | by rewrite IH]. Qed.

Lemma substring_prefix (a b : string) : substring 0 (String.length a) (a +:+ b) = a.
Proof.
  induction a as [|c a IH]; norm; [by destruct b | by rewrite IH].
Qed.

Lemma substring_suffix (a b : string) :
  substring (String.length a) (String.length b) (a +:+ b) = b.
Proof. induction a as [|c a IH]; norm; [apply substring_all | exact IH]. Qed.

Lemma substring_split (s : string) (m : nat) :
  (m <= String.length s)%nat ->
  substring 0 m s +:+ substring m (String.length s - m) s = s.
Proof.
  revert m. induction s as [|c s IH]; intros m Hm; simpl in *.
  - by destruct m.
  - destruct m as [|m]; norm.
    + by rewrite substring_all.
    + rewrite IH by lia. done.
Qed.

Lemma HasSuffix_app (a suffix : string) : HasSuffix (a +:+ suffix) suffix = true.
Proof.
  unfold HasSuffix. rewrite length_append.
  replace (String.length a + String.length suffix - String.length suffix)%nat
    with (String.length a) by lia.
  rewrite substring_suffix, String.eqb_refl, andb_true_r. apply Nat.leb_le. lia.
Qed.

Lemma HasSuffix_true (s suffix : string) :
  HasSuffix s suffix = true ->
  s = substring 0 (String.length s - String.length suffix) s +:+ suffix.
Proof.
  unfold HasSuffix. intros H. apply andb_true_iff in H as [Hle Heq].
  apply Nat.leb_le in Hle. apply String.eqb_eq in Heq.
  pose proof (substring_split s (String.length s - String.length suffix)) as Hsplit.
  replace (String.length s - (String.length s - String.length suffix))%nat
    with (String.length suffix) in Hsplit by lia.
  rewrite Heq in Hsplit. symmetry. apply Hsplit. lia.
Qed.

Lemma TrimSuffix_app (a suffix : string) : TrimSuffix (a +:+ suffix) suffix = a.
Proof.
  unfold TrimSuffix. rewrite HasSuffix_app, length_append.
  replace (String.length a + String.length suffix - String.length suffix)%nat
    with (String.length a) by lia.
  apply substring_prefix.
Qed.

Lemma TrimPrefix_app (prefix s : string) : TrimPrefix (prefix +:+ s) prefix = s.
Proof. unfold TrimPrefix. by rewrite stripPrefix_app. Qed.

Lemma Split_without_separator (s : string) (sep : ascii) :
  hasChar sep s = false -> Split s sep = [s].
Proof.
  induction s as [|c s IH]; norm; [done|]. intros H.
  apply orb_false_iff in H as [Hc Hs]. rewrite Ascii.eqb_sym in Hc.
  by rewrite Hc, (IH Hs).
Qed.

Lemma Split_at_separator (a b : string) (sep : ascii) :
  hasChar sep a = false -> Split (a +:+ String sep b) sep = a :: Split b sep.
Proof.
  induction a as [|c a IH]; norm; [by rewrite Ascii.eqb_refl|]. intros H.
  apply orb_false_iff in H as [Hc Ha]. rewrite Ascii.eqb_sym in Hc.
  by rewrite Hc, (IH Ha).
Qed.

(** Appending a text without separator extends the last part. *)
Lemma Split_extend_last (a b : string) (sep : ascii) :
  hasChar sep b = false ->
  exists init last,
    Split a sep = init ++ [last] /\ Split (a +:+ b) sep = init ++ [last +:+ b].
Proof.
  intros Hb. induction a as [|c a IH]; norm.
  - exists [], EmptyString. split; [done|]. by apply Split_without_separator.
  - destruct IH as (init & last & E1 & E2). rewrite E1, E2.
    destruct (Ascii.eqb c sep).
    + by exists (EmptyString :: init), last.
    + destruct init as [|p init]; norm.
      * by exists [], (String c last).
      * by exists (String c p :: init), last.
Qed.

End text.

(** ** Lists of names in the configuration *)

Module trim.

Import strings.

Lemma reverse_app (a b : string) : reverse (a +:+ b) = reverse b +:+ reverse a.
Proof.
  induction a as [|c a IH].
  - by rewrite text.append_nil, text.append_empty.
  - rewrite text.append_cons. cbn [reverse]. by rewrite IH, text.append_assoc.
Qed.

Lemma reverse_involutive (s : string) : reverse (reverse s) = s.
Proof.
  induction s as [|c s IH]; [done|]. cbn [reverse].
  rewrite reverse_app, IH. reflexivity.
Qed.

Lemma length_reverse (s : string) : String.length (reverse s) = String.length s.
Proof.
  induction s as [|c s IH]; [done|]. cbn [reverse].
  rewrite text.length_append, IH. simpl. lia.
Qed.

Lemma hasChar_reverse (ch : ascii) (s : string) : hasChar ch (reverse s) = hasChar ch s.
Proof.
  induction s as [|c s IH]; [done|]. cbn [reverse].
  rewrite text.hasChar_app, IH. simpl. rewrite orb_false_r. apply orb_comm.
Qed.

Lemma stripPrefix_extend (prefix u w rest : string) :
  stripPrefix prefix u = Some rest -> stripPrefix prefix (u +:+ w) = Some (rest +:+ w).
Proof.
  intros H. apply text.stripPrefix_Some in H as ->.
  by rewrite text.append_assoc, text.stripPrefix_app.
Qed.

Lemma stripAny_Some (prefixes : list string) (s rest : string) :
  stripAny prefixes s = Some rest -> exists prefix, prefix ∈ prefixes /\ s = prefix +:+ rest.
Proof.
  induction prefixes as [|prefix others IH]; simpl; [done|].
  destruct (stripPrefix prefix s) as [r|] eqn:E.
  - intros [= ->]. exists prefix. split; [by left | by apply text.stripPrefix_Some].
  - intros H. destruct (IH H) as (q & Hq & ->). exists q. split; [by right | done].
Qed.

Lemma stripAny_extend (prefixes : list string) (u w : string) :
  stripAny prefixes (u +:+ w) = None -> stripAny prefixes u = None.
Proof.
  induction prefixes as [|prefix others IH]; simpl; [done|].
  destruct (stripPrefix prefix u) as [r|] eqn:E.
  - by rewrite (stripPrefix_extend _ _ w _ E).
  - destruct (stripPrefix prefix (u +:+ w)); [done | exact IH].
Qed.

(** What [trimStart] returns is the end of its input, and with the length
    of the input as fuel it begins with none of the prefixes. *)
Lemma trimStart_suffix (prefixes : list string) (fuel : nat) (s : string) :
  exists w, s = w +:+ trimStart prefixes fuel s.
Proof.
  revert s. induction fuel as [|fuel IH]; intros s; simpl; [by exists EmptyString|].
  destruct (stripAny prefixes s) as [rest|] eqn:E; [|by exists EmptyString].
  apply stripAny_Some in E as (prefix & _ & ->).
  destruct (IH rest) as (w & Hw). exists (prefix +:+ w).
  by rewrite text.append_assoc, <- Hw.
Qed.

Lemma trimStart_done (prefixes : list string) (fuel : nat) (s : string) :
  (forall prefix, prefix ∈ prefixes -> prefix <> EmptyString) ->
  (String.length s <= fuel)%nat ->
  stripAny prefixes (trimStart prefixes fuel s) = None.
Proof.
  intros Hne. revert s. induction fuel as [|fuel IH]; intros s Hlen; simpl.
  - destruct s; [|simpl in Hlen; lia].
    destruct (stripAny prefixes EmptyString) as [rest|] eqn:E; [|done].
    apply stripAny_Some in E as (prefix & Hin & E).
    destruct prefix; [by apply Hne in Hin | done].
  - destruct (stripAny prefixes s) as [rest|] eqn:E; [|done].
    apply IH. apply stripAny_Some in E as (prefix & Hin & ->).
    rewrite text.length_append in Hlen.
    destruct prefix; [by apply Hne in Hin | simpl in Hlen; lia].
Qed.

Lemma trimStart_fixed (prefixes : list string) (fuel : nat) (s : string) :
  stripAny prefixes s = None -> trimStart prefixes fuel s = s.
Proof. intros H. destruct fuel; simpl; [done | by rewrite H]. Qed.

Lemma spaceRunes_nonempty (prefix : string) :
  prefix ∈ spaceRunes -> prefix <> EmptyString.
Proof.
  revert prefix. apply Forall_forall. unfold spaceRunes. simpl.
  repeat (constructor; [discriminate|]). constructor.
Qed.

Lemma reversed_spaceRunes_nonempty (prefix : string) :
  prefix ∈ map reverse spaceRunes -> prefix <> EmptyString.
Proof.
  revert prefix. apply Forall_forall. unfold spaceRunes. simpl.
  repeat (constructor; [discriminate|]). constructor.
Qed.

Lemma TrimLeft_done (s : string) : stripAny spaceRunes (TrimLeft s) = None.
Proof. apply trimStart_done; [apply spaceRunes_nonempty | done]. Qed.

Lemma TrimLeft_suffix (s : string) : exists w, s = w +:+ TrimLeft s.
Proof. apply trimStart_suffix. Qed.

Lemma TrimRight_prefix (s : string) : exists w, s = TrimRight s +:+ w.
Proof.
  unfold TrimRight.
  destruct (trimStart_suffix (map reverse spaceRunes) (String.length s) (reverse s))
    as (w & Hw).
  exists (reverse w). rewrite <- reverse_app, <- Hw. by rewrite reverse_involutive.
Qed.

Lemma TrimRight_done (s : string) :
  stripAny (map reverse spaceRunes) (reverse (TrimRight s)) = None.
Proof.
  unfold TrimRight. rewrite reverse_involutive.
  apply trimStart_done; [apply reversed_spaceRunes_nonempty | by rewrite length_reverse].
Qed.

(** A trimmed string begins and ends with no white space, so that
    trimming it again changes nothing. *)
Lemma TrimSpace_done (s : string) :
  stripAny spaceRunes (TrimSpace s) = None
  /\ stripAny (map reverse spaceRunes) (reverse (TrimSpace s)) = None.
Proof.
  unfold TrimSpace. split; [|apply TrimRight_done].
  destruct (TrimRight_prefix (TrimLeft s)) as (w & Hw).
  apply (stripAny_extend _ _ w). rewrite <- Hw. apply TrimLeft_done.
Qed.

Lemma TrimSpace_twice (s : string) : TrimSpace (TrimSpace s) = TrimSpace s.
Proof.
  destruct (TrimSpace_done s) as [Hstart Hend].
  unfold TrimSpace at 1. unfold TrimLeft. rewrite (trimStart_fixed _ _ _ Hstart).
  unfold TrimRight. rewrite (trimStart_fixed _ _ _ Hend). apply reverse_involutive.
Qed.

Lemma hasChar_TrimSpace (ch : ascii) (s : string) :
  hasChar ch (TrimSpace s) = true -> hasChar ch s = true.
Proof.
  unfold TrimSpace. intros H.
  destruct (TrimLeft_suffix s) as (w1 & E1).
  destruct (TrimRight_prefix (TrimLeft s)) as (w2 & E2).
  rewrite E1, E2, !text.hasChar_app, H. by rewrite orb_true_r.
Qed.

Lemma Split_parts_without_separator (s : string) (sep : ascii) (part : string) :
  part ∈ Split s sep -> hasChar sep part = false.
Proof.
  revert part. induction s as [|c s IH]; simpl; intros part Hin.
  - apply list_elem_of_singleton in Hin as ->. done.
  - destruct (Ascii.eqb_spec c sep) as [->|Hne].
    + apply elem_of_cons in Hin as [-> | Hin]; [done | by apply IH].
    + destruct (Split s sep) as [|p ps].
      * apply list_elem_of_singleton in Hin as ->. simpl.
        rewrite orb_false_r. apply Ascii.eqb_neq. congruence.
      * apply elem_of_cons in Hin as [-> | Hin].
        -- simpl. rewrite (IH p) by (by left). rewrite orb_false_r.
           apply Ascii.eqb_neq. congruence.
        -- apply IH. by right.
Qed.

Lemma collect_trimmed (parts acc : list string) :
  fold_left
    (fun result part =>
       let trimmed := TrimSpace part in
       if negb (is_empty trimmed) then result ++ [trimmed] else result)
    parts acc
  = acc ++ List.filter (fun part => negb (is_empty part)) (map TrimSpace parts).
Proof.
  revert acc. induction parts as [|p parts IH]; intros acc; simpl; [by rewrite app_nil_r|].
  rewrite IH. destruct (is_empty (TrimSpace p)); simpl; [done|].
  by rewrite <- app_assoc.
Qed.

Lemma splitAndTrim_filter (s : string) :
  config.splitAndTrim s
  = List.filter (fun part => negb (is_empty part)) (map TrimSpace (Split s ",")).
Proof.
  unfold config.splitAndTrim. destruct s as [|c s]; [done|]. cbn [is_empty].
  by rewrite collect_trimmed.
Qed.

End trim.

(** X4. Every name that [splitAndTrim] returns is not empty, has no white
    space at either end and holds no comma; the names come in the order of
    the input. *)
Theorem splitAndTrim_names (s : string) (name : string) :
  name ∈ config.splitAndTrim s ->
  name <> EmptyString
  /\ strings.TrimSpace name = name
  /\ hasChar "," name = false
  /\ exists part, part ∈ strings.Split s "," /\ name = strings.TrimSpace part.
Proof.
  rewrite trim.splitAndTrim_filter. intros Hin.
  apply list_elem_of_In, filter_In in Hin as [Hin Hne].
  apply in_map_iff in Hin as (part & <- & Hpart). apply list_elem_of_In in Hpart.
  split; [by apply is_empty_false, negb_true_iff|].
  split; [apply trim.TrimSpace_twice|]. split; [|eauto].
  destruct (hasChar "," (strings.TrimSpace part)) eqn:E; [|done].
  apply trim.hasChar_TrimSpace in E.
  by rewrite (trim.Split_parts_without_separator _ _ _ Hpart) in E.
Qed.

Lemma splitAndTrim_names_witness :
  config.splitAndTrim " lib-* ,, app-x," = ["lib-*"; "app-x"]
  /\ "lib-*" <> EmptyString
  /\ strings.TrimSpace "lib-*" = "lib-*"
  /\ hasChar "," "lib-*" = false.
Proof.
  split; [reflexivity|].
  destruct (splitAndTrim_names " lib-* ,, app-x," "lib-*") as (H1 & H2 & H3 & _);
    [by left | done].
Defined.

(** White space that is not ASCII is trimmed as well. *)
Example splitAndTrim_no_break_space :
  config.splitAndTrim ("a" +:+ nbsp +:+ ", " +:+ nbsp +:+ "b" +:+ nbsp +:+ " ," +:+ nbsp)
  = ["a"; "b"].
Proof. vm_compute. reflexivity. Qed.

(** ** The source collector *)

Module collector.

Import ghrepo.

Lemma named_true (orgName : string) (names : list string) :
  named orgName names = true <-> orgName ∈ names.
Proof.
  induction names as [|name rest IH]; simpl.
  - split; [done | intros H; inversion H].
  - rewrite elem_of_cons. destruct (String.eqb_spec orgName name) as [->|Hne].
    + split; [by left | done].
    + rewrite IH. split; [by right | intros [H | H]; done].
Qed.

Lemma selectOrganizations_filter (allOrgs : list github.Organization.t)
  (includeOrgs excludeOrgs : list string) :
  selectOrganizations allOrgs includeOrgs excludeOrgs
  = List.filter
      (fun org =>
         negb ((0 <? length includeOrgs)%nat
               && negb (named (github.Organization.Login org) includeOrgs))
         && negb (named (github.Organization.Login org) excludeOrgs))
      allOrgs.
Proof.
  unfold selectOrganizations.
  rewrite <- (app_nil_l (List.filter _ allOrgs)), <- fold_append_filter.
  apply fold_left_same. intros orgsToProcess org.
  destruct (_ && _); simpl; [done|]. by destruct (named _ excludeOrgs).
Qed.

Lemma filterDuplicates_distinct (repositories : list Repository) :
  NoDup (map URL repositories) -> filterDuplicates repositories = repositories.
Proof.
  unfold filterDuplicates.
  induction repositories as [|repo pre IH] using rev_ind; [done|].
  rewrite map_app, NoDup_app. intros (Hnd & Hnew & _).
  rewrite fold_left_app. simpl.
  pose proof (dedup.loopInv_run pre) as [Hseen _ _ _].
  specialize (IH Hnd).
  destruct (fold_left dedupStep pre (∅, [])) as [seen result].
  simpl in *. subst result. unfold dedupStep.
  destruct (default false (seen !! URL repo)) eqn:E; [|done].
  apply Hseen in E. exfalso. apply (Hnew (URL repo) E). simpl. by left.
Qed.

Lemma GetRepositories_skipForks (client : github.Client) (opts : FetchOptions)
  (s s' : State) (repos : list Repository) :
  GetRepositories client opts s = (Ok repos, s') ->
  exists repositories, repos = skipForks opts repositories.
Proof.
  unfold GetRepositories, bind, ret.
  destruct (negb (is_empty (SingleRepo opts))).
  - destruct (fetchSingleRepository client (SingleRepo opts)); [|done].
    intros [= <- _]. eauto.
  - destruct (collectAll client opts s) as [[repositories|err] s1]; [|done].
    intros [= <- _]. eauto.
Qed.

End collector.

(** X5. [selectOrganizations] keeps the organizations in their order; an
    organization is kept exactly when the include list is empty or names
    it, and the exclude list does not name it: exclusion wins. *)
Theorem selectOrganizations_include_exclude
  (allOrgs : list github.Organization.t) (includeOrgs excludeOrgs : list string) :
  sublist (ghrepo.selectOrganizations allOrgs includeOrgs excludeOrgs) allOrgs
  /\ forall org,
      org ∈ ghrepo.selectOrganizations allOrgs includeOrgs excludeOrgs
      <-> org ∈ allOrgs
          /\ (includeOrgs = [] \/ github.Organization.Login org ∈ includeOrgs)
          /\ github.Organization.Login org ∉ excludeOrgs.
Proof.
  rewrite collector.selectOrganizations_filter. split.
  - induction allOrgs as [|org allOrgs IH]; simpl; [constructor|].
    destruct (_ && _); [by constructor | by apply sublist_cons].
  - intros org. rewrite list_elem_of_In, filter_In, <- list_elem_of_In.
    pose proof (collector.named_true (github.Organization.Login org) includeOrgs) as Hinc.
    pose proof (collector.named_true (github.Organization.Login org) excludeOrgs) as Hexc.
    destruct (ghrepo.named _ includeOrgs), (ghrepo.named _ excludeOrgs);
      destruct includeOrgs as [|name rest]; simpl;
      split; intros (H1 & H2); split; try done; try tauto.
    + split; [auto|]. intros H. by apply Hexc in H.
    + split; [right; tauto|]. intros H. by apply Hexc in H.
    + split; [auto|]. intros H. by apply Hexc in H.
    + destruct H2 as [[H2 | H2] _]; [done|]. by apply Hinc in H2.
Qed.

Lemma selectOrganizations_include_exclude_witness :
  {| github.Organization.Login := "acme" |}
  ∈ ghrepo.selectOrganizations
      [ {| github.Organization.Login := "acme" |}; {| github.Organization.Login := "zeta" |} ]
      ["acme"] ["zeta"].
Proof.
  apply (proj2 (selectOrganizations_include_exclude
                  [ {| github.Organization.Login := "acme" |};
                    {| github.Organization.Login := "zeta" |} ]
                  ["acme"] ["zeta"])).
  split; [by left|]. split; [right; by left|].
  intros H. apply list_elem_of_singleton in H. discriminate H.
Defined.

(** X6. On records with distinct clone URLs [filterDuplicates] changes
    nothing, so it is idempotent. *)
Theorem filterDuplicates_idempotent (repositories : list ghrepo.Repository) :
  (NoDup (map ghrepo.URL repositories) ->
   ghrepo.filterDuplicates repositories = repositories)
  /\ ghrepo.filterDuplicates (ghrepo.filterDuplicates repositories)
     = ghrepo.filterDuplicates repositories.
Proof.
  split; [apply collector.filterDuplicates_distinct|].
  apply collector.filterDuplicates_distinct.
  by destruct (dedup.loopInv_run repositories).
Qed.

Lemma filterDuplicates_idempotent_witness :
  ghrepo.filterDuplicates [sampleRepo "lib-a" false false; sampleRepo "app-x" false false]
  = [sampleRepo "lib-a" false false; sampleRepo "app-x" false false].
Proof.
  destruct (filterDuplicates_idempotent
              [sampleRepo "lib-a" false false; sampleRepo "app-x" false false]) as [Hid _].
  apply Hid. apply (@bool_decide_unpack _ (NoDup_dec _)). vm_compute. exact I.
Defined.

(** X7. With fork skipping enabled no repository that [GetRepositories]
    returns is a fork, in the standard mode and in the single-repository
    mode alike. *)
Theorem GetRepositories_skips_forks
  (client : github.Client) (opts : ghrepo.FetchOptions) (s s' : State)
  (repos : list ghrepo.Repository) :
  ghrepo.SkipForks opts = true ->
  ghrepo.GetRepositories client opts s = (Ok repos, s') ->
  forall repo, repo ∈ repos -> ghrepo.Fork repo = false.
Proof.
  intros Hskip Hget repo Hin.
  apply collector.GetRepositories_skipForks in Hget as [repositories ->].
  unfold ghrepo.skipForks in Hin. rewrite Hskip, dedup.withoutForks_filter in Hin.
  apply list_elem_of_In, filter_In in Hin as [_ Hin]. by apply negb_true_iff.
Qed.

Lemma GetRepositories_skips_forks_witness :
  ghrepo.GetRepositories forkGitHub (singleOptions true) initial = (Ok [], initial)
  /\ forall repo, repo ∈ @nil ghrepo.Repository -> ghrepo.Fork repo = false.
Proof.
  split; [reflexivity|].
  apply (GetRepositories_skips_forks forkGitHub (singleOptions true) initial initial);
    reflexivity.
Defined.

Module tagging.

Import ghrepo.

Lemma fetchPublicRepositories_spec (client : github.Client) (username : string) :
  fetchPublicRepositories client username
  = match failure (github.Repositories_List client username EmptyString EmptyString) with
    | Some err => Err err
    | None =>
        Ok (map (fun repo => toRepository repo false)
                (fetched (github.Repositories_List client username EmptyString EmptyString)))
    end.
Proof.
  unfold fetchPublicRepositories. rewrite collect.paginate_fetched.
  destruct (failure _); [done|]. simpl. by rewrite map_id, dedup.toRepositoryList_map.
Qed.

Lemma fetchPrivateRepositories_spec (client : github.Client) :
  fetchPrivateRepositories client
  = match failure (privateListing client) with
    | Some err => Err err
    | None => Ok (map (fun repo => toRepository repo false) (fetched (privateListing client)))
    end.
Proof.
  unfold fetchPrivateRepositories, privateListing. rewrite collect.paginate_fetched.
  destruct (failure _); [done|]. simpl. by rewrite map_id, dedup.toRepositoryList_map.
Qed.

Lemma fetchStarredRepositories_spec (client : github.Client) (username : string) :
  fetchStarredRepositories client username
  = match failure (github.Activity_ListStarred client username) with
    | Some err => Err err
    | None =>
        Ok (map (fun starred =>
                   setStarred (toRepository (github.StarredRepository.Repository starred)
                                            false))
                (fetched (github.Activity_ListStarred client username)))
    end.
Proof.
  unfold fetchStarredRepositories.
  replace (if negb (is_empty username) then _ else _)
    with (paginate github.StarredRepository.Repository
            (github.Activity_ListStarred client username) [])
    by (by destruct username).
  rewrite collect.paginate_fetched. destruct (failure _); [done|]. simpl.
  by rewrite dedup.toRepositoryList_map, !map_map.
Qed.

End tagging.

(** X8. The listings of the owned, the private and the starred
    repositories are all or nothing: the fetcher returns the records of all
    pages in page order, or the error of the first failing page and no
    record. *)
Theorem listings_are_all_or_nothing (client : github.Client) (username : string) :
  ghrepo.fetchPublicRepositories client username
  = match failure (github.Repositories_List client username EmptyString EmptyString) with
    | Some err => Err err
    | None =>
        Ok (map (fun repo => ghrepo.toRepository repo false)
                (fetched (github.Repositories_List client username EmptyString EmptyString)))
    end
  /\ ghrepo.fetchPrivateRepositories client
     = match failure (privateListing client) with
       | Some err => Err err
       | None =>
           Ok (map (fun repo => ghrepo.toRepository repo false)
                   (fetched (privateListing client)))
       end
  /\ ghrepo.fetchStarredRepositories client username
     = match failure (github.Activity_ListStarred client username) with
       | Some err => Err err
       | None =>
           Ok (map (fun starred =>
                      ghrepo.setStarred
                        (ghrepo.toRepository (github.StarredRepository.Repository starred)
                                             false))
                   (fetched (github.Activity_ListStarred client username)))
       end.
Proof.
  split; [apply tagging.fetchPublicRepositories_spec|].
  split; [apply tagging.fetchPrivateRepositories_spec|].
  apply tagging.fetchStarredRepositories_spec.
Qed.

(** X9. How the collection modes mark their records: every starred record
    is marked starred, no owned or private record is, and none of them
    carries an organization. *)
Theorem collection_marks_starred_records (client : github.Client) (username : string) :
  (forall repos repo,
      ghrepo.fetchStarredRepositories client username = Ok repos -> repo ∈ repos ->
      ghrepo.Starred repo = true /\ ghrepo.Organization repo = EmptyString)
  /\ (forall repos repo,
         ghrepo.fetchPublicRepositories client username = Ok repos -> repo ∈ repos ->
         ghrepo.Starred repo = false /\ ghrepo.Organization repo = EmptyString)
  /\ (forall repos repo,
         ghrepo.fetchPrivateRepositories client = Ok repos -> repo ∈ repos ->
         ghrepo.Starred repo = false /\ ghrepo.Organization repo = EmptyString).
Proof.
  split; [|split]; intros repos repo Hfetch Hin.
  - rewrite tagging.fetchStarredRepositories_spec in Hfetch.
    destruct (failure _); [done|]. injection Hfetch as <-.
    apply list_elem_of_fmap in Hin as (starred & -> & _). done.
  - rewrite tagging.fetchPublicRepositories_spec in Hfetch.
    destruct (failure _); [done|]. injection Hfetch as <-.
    apply list_elem_of_fmap in Hin as (source & -> & _). done.
  - rewrite tagging.fetchPrivateRepositories_spec in Hfetch.
    destruct (failure _); [done|]. injection Hfetch as <-.
    apply list_elem_of_fmap in Hin as (source & -> & _). done.
Qed.

Lemma collection_marks_starred_records_witness :
  ghrepo.fetchStarredRepositories sampleGitHub EmptyString
  = Ok [sampleRepo "lib-a" false true; sampleRepo "lib-b" false true]
  /\ ghrepo.Starred (sampleRepo "lib-b" false true) = true
  /\ ghrepo.Organization (sampleRepo "lib-b" false true) = EmptyString.
Proof.
  split; [reflexivity|].
  destruct (collection_marks_starred_records sampleGitHub EmptyString) as [Hstarred _].
  apply (Hstarred [sampleRepo "lib-a" false true; sampleRepo "lib-b" false true]);
    [reflexivity | by right; left].
Defined.

(** X10. Every record that [fetchOrganizationRepositories] returns is not
    marked starred; with organization structure preserved it carries the
    name of one of the selected organizations, and no organization
    otherwise. *)
Theorem organization_records_carry_their_organization
  (client : github.Client) (username : string) (includeOrgs excludeOrgs : list string)
  (preserveOrgStructure privateRepoAccess : bool) (s : State)
  (repos : list ghrepo.Repository) (repo : ghrepo.Repository) :
  fst (ghrepo.fetchOrganizationRepositories client username includeOrgs excludeOrgs
         preserveOrgStructure privateRepoAccess s) = Ok repos ->
  repo ∈ repos ->
  ghrepo.Starred repo = false
  /\ (if preserveOrgStructure
      then exists org,
          org ∈ ghrepo.selectOrganizations
                  (fetched (github.Organizations_List client username))
                  includeOrgs excludeOrgs
          /\ ghrepo.Organization repo = github.Organization.Login org
      else ghrepo.Organization repo = EmptyString).
Proof.
  rewrite collect.fetchOrganizationRepositories_spec.
  destruct (failure _); [done|]. intros [= <-] Hin.
  apply list_elem_of_In, in_flat_map in Hin as (org & Horg & Hin).
  apply list_elem_of_In in Horg. unfold contribution in Hin.
  destruct preserveOrgStructure.
  - apply in_map_iff in Hin as (r & <- & Hin).
    apply in_map_iff in Hin as (source & <- & _). split; [done|]. eauto.
  - apply in_map_iff in Hin as (source & <- & _). done.
Qed.

Lemma organization_records_carry_their_organization_witness :
  ghrepo.Starred (ghrepo.setOrganization "acme" (sampleRepo "tool" false false)) = false
  /\ exists org,
      org ∈ ghrepo.selectOrganizations
              (fetched (github.Organizations_List sampleGitHub EmptyString)) [] []
      /\ ghrepo.Organization (ghrepo.setOrganization "acme" (sampleRepo "tool" false false))
         = github.Organization.Login org.
Proof.
  apply (organization_records_carry_their_organization sampleGitHub EmptyString [] []
           true false initial
           [ ghrepo.setOrganization "acme" (sampleRepo "tool" false false);
             ghrepo.setOrganization "zeta" (sampleRepo "zeta-core" false false) ]).
  - reflexivity.
  - by left.
Defined.

Module order.

Import ghrepo.

Lemma GetRepositories_standard (client : github.Client) (opts : FetchOptions)
  (s s' : State) (repos : list Repository) :
  SingleRepo opts = EmptyString ->
  GetRepositories client opts s = (Ok repos, s') ->
  exists combined,
    collectAll client opts s = (Ok combined, s')
    /\ repos = skipForks opts (filterDuplicates combined).
Proof.
  intros Hsingle. unfold GetRepositories, bind, ret. rewrite Hsingle. simpl.
  destruct (collectAll client opts s) as [[combined|err] s1]; [|done].
  intros [= <- <-]. eauto.
Qed.

Lemma collectAll_owned_first (client : github.Client) (opts : FetchOptions)
  (s s' : State) (combined : list Repository) :
  collectAll client opts s = (Ok combined, s') ->
  exists owned rest,
    fetchPublicRepositories client (Username opts) = Ok owned
    /\ combined = owned ++ rest.
Proof.
  unfold collectAll, collectPublic, collectPrivate, collectStarred, collectOrganizations.
  destruct (fetchPublicRepositories client (Username opts)) as [owned|e]; [|done]. simpl.
  intros H. exists owned.
  assert (Hprivate : exists r2, (if PrivateRepositories opts
                                 then match fetchPrivateRepositories client with
                                      | Ok privateRepos => Ok (owned ++ privateRepos)
                                      | Err err =>
                                          Err ("failed to fetch private repositories: "
                                               +:+ err)
                                      end
                                 else Ok owned) = Ok (owned ++ r2)
                                \/ exists e, (if PrivateRepositories opts
                                 then match fetchPrivateRepositories client with
                                      | Ok privateRepos => Ok (owned ++ privateRepos)
                                      | Err err =>
                                          Err ("failed to fetch private repositories: "
                                               +:+ err)
                                      end
                                 else Ok owned) = Err e).
  { destruct (PrivateRepositories opts);
      [destruct (fetchPrivateRepositories client) as [p|e]|].
    - exists p. by left.
    - exists []. right. eauto.
    - exists []. left. by rewrite app_nil_r. }
  destruct Hprivate as (r2 & [E | [e E]]); rewrite E in H; [|done].
  destruct (MirrorStarred opts).
  - destruct (fetchStarredRepositories client _) as [starred|e]; [|done].
    destruct (MirrorOrganizations opts).
    + unfold bind in H.
      destruct (fetchOrganizationRepositories _ _ _ _ _ _ s) as [[orgRepos|e] s1];
        [|done].
      injection H as <- _. exists (r2 ++ starred ++ orgRepos). split; [done|].
      by rewrite <- !app_assoc.
    + injection H as <- _. exists (r2 ++ starred). split; [done|].
      by rewrite <- !app_assoc.
  - destruct (MirrorOrganizations opts).
    + unfold bind in H.
      destruct (fetchOrganizationRepositories _ _ _ _ _ _ s) as [[orgRepos|e] s1];
        [|done].
      injection H as <- _. exists (r2 ++ orgRepos). split; [done|].
      by rewrite <- !app_assoc.
    + injection H as <- _. exists r2. done.
Qed.

End order.

(** X11. In the standard mode the owned copy of a repository wins: a
    record that [GetRepositories] returns and whose clone URL is among the
    owned repositories is not marked starred and carries no organization,
    even if the repository is starred or belongs to a mirrored
    organization as well. *)
Theorem owned_record_wins
  (client : github.Client) (opts : ghrepo.FetchOptions) (s s' : State)
  (repos : list ghrepo.Repository) (repo : ghrepo.Repository) :
  ghrepo.SingleRepo opts = EmptyString ->
  ghrepo.GetRepositories client opts s = (Ok repos, s') ->
  repo ∈ repos ->
  ghrepo.URL repo ∈ map github.Repository.CloneURL (fetched (ownedListing client opts)) ->
  ghrepo.Starred repo = false /\ ghrepo.Organization repo = EmptyString.
Proof.
  intros Hsingle Hget Hin Hurl.
  apply (order.GetRepositories_standard _ _ _ _ _ Hsingle) in Hget
    as (combined & Hcollect & ->).
  apply order.collectAll_owned_first in Hcollect as (owned & rest & Howned & ->).
  assert (Hkept : repo ∈ ghrepo.filterDuplicates (owned ++ rest)).
  { unfold ghrepo.skipForks in Hin. destruct (ghrepo.SkipForks opts); [|done].
    rewrite dedup.withoutForks_filter in Hin.
    apply list_elem_of_In, filter_In in Hin as [Hin _]. by apply list_elem_of_In. }
  destruct (dedup.loopInv_run (owned ++ rest)) as [_ Hfirst _ _].
  apply Hfirst in Hkept. rewrite dedup.firstWithURL_app in Hkept.
  pose proof Howned as Hspec. rewrite tagging.fetchPublicRepositories_spec in Hspec.
  fold (ownedListing client opts) in Hspec.
  destruct (failure (ownedListing client opts)); [done|]. injection Hspec as <-.
  destruct (firstWithURL (ghrepo.URL repo) _) as [first|] eqn:F.
  - injection Hkept as ->. apply dedup.firstWithURL_Some in F as [_ F].
    apply list_elem_of_fmap in F as (source & -> & _). done.
  - apply dedup.firstWithURL_None in F. exfalso. apply F.
    by rewrite map_map.
Qed.

Lemma owned_record_wins_witness :
  ghrepo.GetRepositories sampleGitHub sampleOptions initial
  = (Ok [sampleRepo "lib-a" false false; sampleRepo "app-x" false false;
         sampleRepo "lib-b" false true], initial)
  /\ ghrepo.Starred (sampleRepo "lib-a" false false) = false
  /\ ghrepo.Organization (sampleRepo "lib-a" false false) = EmptyString.
Proof.
  split; [vm_compute; reflexivity|].
  apply (owned_record_wins sampleGitHub sampleOptions initial initial
           [sampleRepo "lib-a" false false; sampleRepo "app-x" false false;
            sampleRepo "lib-b" false true]).
  - reflexivity.
  - vm_compute. reflexivity.
  - by left.
  - by left.
Defined.

(** X12. The single-repository mode looks at nothing but that repository:
    [GetRepositories] logs nothing, and returns the error of the lookup, or
    the repository alone, or no repository if it is a fork and forks are
    skipped; the other modes and the deduplication do not take part. *)
Theorem single_repository_mode_short_circuits
  (client : github.Client) (opts : ghrepo.FetchOptions) (s : State) :
  ghrepo.SingleRepo opts <> EmptyString ->
  ghrepo.GetRepositories client opts s
  = (match ghrepo.fetchSingleRepository client (ghrepo.SingleRepo opts) with
     | Err err => Err err
     | Ok repo =>
         Ok (if ghrepo.SkipForks opts && ghrepo.Fork repo then [] else [repo])
     end, s).
Proof.
  intros Hsingle. apply is_empty_false in Hsingle.
  unfold ghrepo.GetRepositories. rewrite Hsingle. simpl.
  destruct (ghrepo.fetchSingleRepository client (ghrepo.SingleRepo opts)) as [repo|err];
    [|done].
  unfold ret, ghrepo.skipForks, ghrepo.withoutForks.
  destruct (ghrepo.SkipForks opts); simpl; [|done]. by destruct (ghrepo.Fork repo).
Qed.

Lemma single_repository_mode_short_circuits_witness :
  ghrepo.GetRepositories sampleGitHub (singleOptions false) initial
  = (Ok [sampleRepo "lib-a" false false], initial).
Proof.
  rewrite (single_repository_mode_short_circuits sampleGitHub (singleOptions false) initial)
    by discriminate.
  reflexivity.
Defined.

(** ** References to a single repository *)

Module reference.

Import strings.

Lemma not_a_URL (owner rest : string) :
  hasChar "/" owner = false -> hasChar "/" rest = false ->
  TrimPrefix (owner +:+ "/" +:+ rest) "https://github.com/" = owner +:+ "/" +:+ rest.
Proof.
  intros Howner Hrest. unfold TrimPrefix.
  destruct (stripPrefix _ _) as [r|] eqn:E; [|done]. exfalso.
  change "https://github.com/" with ("https:" +:+ String "/" "/github.com/") in E.
  change ("/" +:+ rest) with (String "/" rest) in E.
  apply text.stripPrefix_first_separator in E as [_ E]; [|done|done].
  apply text.stripPrefix_Some in E. subst rest. done.
Qed.

Lemma Split_owner_name (owner name : string) :
  hasChar "/" owner = false -> hasChar "/" name = false ->
  Split (owner +:+ "/" +:+ name) "/" = [owner; name].
Proof.
  intros Howner Hname. change ("/" +:+ name) with (String "/" name).
  by rewrite text.Split_at_separator, text.Split_without_separator.
Qed.

Lemma suffix_of_name (owner name suffix : string) :
  hasChar "/" owner = false -> hasChar "/" name = false -> hasChar "/" suffix = false ->
  HasSuffix (owner +:+ "/" +:+ name) suffix = true -> HasSuffix name suffix = true.
Proof.
  intros Howner Hname Hsuffix H. apply text.HasSuffix_true in H.
  pose proof (Split_owner_name owner name Howner Hname) as Hparts.
  rewrite H in Hparts.
  destruct (text.Split_extend_last
              (substring 0 (String.length (owner +:+ "/" +:+ name) - String.length suffix)
                         (owner +:+ "/" +:+ name)) suffix "/" Hsuffix)
    as (init & last & _ & E).
  rewrite E in Hparts. change [owner; name] with ([owner] ++ [name]) in Hparts.
  apply app_inj_tail in Hparts as [_ <-]. apply text.HasSuffix_app.
Qed.

Lemma fetchSingleRepository_parts (client : github.Client) (repoURL owner name : string) :
  hasChar "/" owner = false -> hasChar "/" name = false ->
  TrimSuffix (TrimPrefix repoURL "https://github.com/") ".git" = owner +:+ "/" +:+ name ->
  ghrepo.fetchSingleRepository client repoURL = singleLookup client repoURL owner name.
Proof.
  intros Howner Hname Hpath. unfold ghrepo.fetchSingleRepository. cbv zeta.
  by rewrite Hpath, Split_owner_name.
Qed.

End reference.

(** X13. A repository is named alike by [owner/name] and by its URL
    [https://github.com/owner/name], each with or without [.git] at the
    end: [fetchSingleRepository] looks up [owner] and [name] for all four
    spellings. *)
Theorem single_repository_reference_spellings
  (client : github.Client) (owner name : string) :
  hasChar "/" owner = false ->
  hasChar "/" name = false ->
  strings.HasSuffix name ".git" = false ->
  let short := owner +:+ "/" +:+ name in
  ghrepo.fetchSingleRepository client short = singleLookup client short owner name
  /\ ghrepo.fetchSingleRepository client (short +:+ ".git")
     = singleLookup client (short +:+ ".git") owner name
  /\ ghrepo.fetchSingleRepository client ("https://github.com/" +:+ short)
     = singleLookup client ("https://github.com/" +:+ short) owner name
  /\ ghrepo.fetchSingleRepository client ("https://github.com/" +:+ short +:+ ".git")
     = singleLookup client ("https://github.com/" +:+ short +:+ ".git") owner name.
Proof.
  intros Howner Hname Hgit short.
  assert (Hplain : strings.TrimSuffix short ".git" = short).
  { unfold strings.TrimSuffix.
    destruct (strings.HasSuffix short ".git") eqn:E; [|done].
    apply reference.suffix_of_name in E; [congruence | done | done | done]. }
  assert (Hgit' : hasChar "/" (name +:+ ".git") = false)
    by (by rewrite text.hasChar_app, Hname).
  split; [|split; [|split]]; apply reference.fetchSingleRepository_parts; try done.
  - unfold short. by rewrite reference.not_a_URL.
  - assert (E : short +:+ ".git" = owner +:+ "/" +:+ (name +:+ ".git"))
      by (unfold short; by rewrite text.append_assoc).
    rewrite E, reference.not_a_URL by done. rewrite <- E. apply text.TrimSuffix_app.
  - rewrite text.TrimPrefix_app. apply text.TrimSuffix_app.
Qed.

Lemma single_repository_reference_spellings_witness :
  ghrepo.fetchSingleRepository sampleGitHub "octo/lib-a" = Ok (sampleRepo "lib-a" false false)
  /\ ghrepo.fetchSingleRepository sampleGitHub "https://github.com/octo/lib-a.git"
     = Ok (sampleRepo "lib-a" false false).
Proof.
  destruct (single_repository_reference_spellings sampleGitHub "octo" "lib-a")
    as (Hshort & _ & _ & Hfull); [reflexivity | reflexivity | reflexivity |].
  split; [exact Hshort | exact Hfull].
Defined.

(** X14. A reference without any slash is refused as malformed, whatever
    the source holds; so is the URL of an owner alone. *)
Theorem single_repository_reference_without_slash
  (client : github.Client) (reference : string) :
  hasChar "/" reference = false ->
  ghrepo.fetchSingleRepository client reference
  = Err ("invalid repository URL format: " +:+ reference)
  /\ ghrepo.fetchSingleRepository client ("https://github.com/" +:+ reference)
     = Err ("invalid repository URL format: " +:+ "https://github.com/" +:+ reference).
Proof.
  intros Hnone.
  assert (Htrim : forall s, hasChar "/" s = false ->
                            hasChar "/" (strings.TrimSuffix s ".git") = false).
  { intros s Hs. unfold strings.TrimSuffix.
    destruct (strings.HasSuffix s ".git") eqn:E; [|done].
    apply text.HasSuffix_true in E. rewrite E, text.hasChar_app in Hs.
    by apply orb_false_iff in Hs as [Hs _]. }
  assert (Hplain : strings.TrimPrefix reference "https://github.com/" = reference).
  { unfold strings.TrimPrefix.
    destruct (strings.stripPrefix _ _) as [r|] eqn:E; [|done].
    apply text.stripPrefix_Some in E. rewrite E, text.hasChar_app in Hnone. done. }
  split.
  - unfold ghrepo.fetchSingleRepository. cbv zeta. rewrite Hplain.
    by rewrite (text.Split_without_separator _ _ (Htrim _ Hnone)).
  - unfold ghrepo.fetchSingleRepository. cbv zeta. rewrite text.TrimPrefix_app.
    by rewrite (text.Split_without_separator _ _ (Htrim _ Hnone)).
Qed.

Lemma single_repository_reference_without_slash_witness :
  ghrepo.fetchSingleRepository sampleGitHub "lib-a"
  = Err "invalid repository URL format: lib-a".
Proof.
  destruct (single_repository_reference_without_slash sampleGitHub "lib-a") as [H _];
    [reflexivity | exact H].
Defined.

(** ** The destination client *)

(** X15. [GetOrganization] and [GetUser] send one [GET] each and return a
    target exactly when the response arrives with status 200 and a body
    that decodes; the target of an organization carries the name that was
    asked for, whatever name the response holds. *)
Theorem lookups_need_status_200
  (lib : gitea.Library) (c : gitea.Client) (orgName : string) (s : State) :
  snd (gitea.GetOrganization lib c orgName s) = sent (organizationRequest orgName) s
  /\ (forall target,
         fst (gitea.GetOrganization lib c orgName s) = Ok target
         <-> exists respBody org,
             gitea.httpClient c (calls s) (organizationRequest orgName)
             = http.Replied respBody 200
             /\ gitea.unmarshalOrganization lib respBody = Ok org
             /\ target = {| gitea.Target.ID := gitea.Organization.ID org;
                            gitea.Target.Name := orgName;
                            gitea.Target.Type_ := "organization" |})
  /\ snd (gitea.GetUser lib c s) = sent userRequest s
  /\ (forall target,
         fst (gitea.GetUser lib c s) = Ok target
         <-> exists respBody user,
             gitea.httpClient c (calls s) userRequest = http.Replied respBody 200
             /\ gitea.unmarshalUser lib respBody = Ok user
             /\ target = {| gitea.Target.ID := gitea.User.ID user;
                            gitea.Target.Name := gitea.User.Username user;
                            gitea.Target.Type_ := "user" |}).
Proof.
  unfold gitea.GetOrganization, gitea.GetUser, bind, ret, gitea.doRequest.
  fold (organizationRequest orgName). fold userRequest. unfold sent.
  split; [|split; [|split]].
  - destruct (gitea.httpClient c (calls s) (organizationRequest orgName))
      as [e | e | st e | respBody st]; simpl; try done.
    destruct (st =? http.StatusOK); simpl; [|done].
    by destruct (gitea.unmarshalOrganization lib respBody).
  - intros target.
    destruct (gitea.httpClient c (calls s) (organizationRequest orgName))
      as [e | e | st e | respBody st]; simpl;
      try (split; [done | by intros (b & o & H & _)]).
    destruct (Z.eqb_spec st http.StatusOK) as [->|Hne]; simpl.
    + destruct (gitea.unmarshalOrganization lib respBody) as [org|e] eqn:E; simpl.
      * split; [intros [= <-]; eauto|].
        intros (b & o & [= <-] & Ho & ->). rewrite E in Ho. by injection Ho as <-.
      * split; [done|]. intros (b & o & [= <-] & Ho & _). by rewrite E in Ho.
    + split; [done|]. intros (b & o & [= _ ->] & _). done.
  - destruct (gitea.httpClient c (calls s) userRequest) as [e | e | st e | respBody st];
      simpl; try done.
    destruct (st =? http.StatusOK); simpl; [|done].
    by destruct (gitea.unmarshalUser lib respBody).
  - intros target.
    destruct (gitea.httpClient c (calls s) userRequest) as [e | e | st e | respBody st]; simpl;
      try (split; [done | by intros (b & o & H & _)]).
    destruct (Z.eqb_spec st http.StatusOK) as [->|Hne]; simpl.
    + destruct (gitea.unmarshalUser lib respBody) as [user|e] eqn:E; simpl.
      * split; [intros [= <-]; eauto|].
        intros (b & o & [= <-] & Ho & ->). rewrite E in Ho. by injection Ho as <-.
      * split; [done|]. intros (b & o & [= <-] & Ho & _). by rewrite E in Ho.
    + split; [done|]. intros (b & o & [= _ ->] & _). done.
Qed.

Lemma CreateOrganization_cases (c : gitea.Client) (orgName visibility : string) (s : State) :
  gitea.CreateOrganization c orgName visibility false s
  = let probed := sent (organizationRequest orgName) s in
    if statusCode (gitea.httpClient c (calls s) (organizationRequest orgName)) =? 200
    then (None, logged ("Organization " +:+ orgName +:+ " already exists") probed)
    else
      let asked := sent (createOrganizationRequest orgName visibility) probed in
      match gitea.httpClient c (calls probed) (createOrganizationRequest orgName visibility)
      with
      | http.NotBuilt err => (Some err, asked)
      | http.SendFailed err => (Some err, asked)
      | http.ReadFailed _ err => (Some err, asked)
      | http.Replied _ status =>
          if (status =? 201) || (status =? 422)
          then (None, logged ("Created organization: " +:+ orgName) asked)
          else (Some ("failed to create organization " +:+ orgName +:+ ": status "
                      +:+ fmt_d status), asked)
      end.
Proof.
  unfold gitea.CreateOrganization, bind, ret, gitea.doRequest. simpl.
  fold (organizationRequest orgName).
  destruct (gitea.httpClient c (calls s) (organizationRequest orgName))
    as [e | e | st e | b st]; simpl.
  - fold (createOrganizationRequest orgName visibility).
    destruct (gitea.httpClient c _ (createOrganizationRequest orgName visibility))
      as [e' | e' | st' e' | b' st']; simpl; try done.
    change http.StatusCreated with 201. change http.StatusUnprocessableEntity with 422.
    by destruct ((st' =? 201) || (st' =? 422)).
  - fold (createOrganizationRequest orgName visibility).
    destruct (gitea.httpClient c _ (createOrganizationRequest orgName visibility))
      as [e' | e' | st' e' | b' st']; simpl; try done.
    change http.StatusCreated with 201. change http.StatusUnprocessableEntity with 422.
    by destruct ((st' =? 201) || (st' =? 422)).
  - change http.StatusOK with 200. destruct (st =? 200); [done|].
    fold (createOrganizationRequest orgName visibility).
    destruct (gitea.httpClient c _ (createOrganizationRequest orgName visibility))
      as [e' | e' | st' e' | b' st']; simpl; try done.
    change http.StatusCreated with 201. change http.StatusUnprocessableEntity with 422.
    by destruct ((st' =? 201) || (st' =? 422)).
  - change http.StatusOK with 200. destruct (st =? 200); [done|].
    fold (createOrganizationRequest orgName visibility).
    destruct (gitea.httpClient c _ (createOrganizationRequest orgName visibility))
      as [e' | e' | st' e' | b' st']; simpl; try done.
    change http.StatusCreated with 201. change http.StatusUnprocessableEntity with 422.
    by destruct ((st' =? 201) || (st' =? 422)).
Qed.

(** X16. [CreateOrganization] sends nothing in dry-run mode.  Otherwise it
    first asks for the organization: if that is answered with status 200
    nothing is created; if not, one create request follows, and an answer
    201 or 422 to it counts as success. *)
Theorem CreateOrganization_outcome
  (c : gitea.Client) (orgName visibility : string) (s : State) :
  let probe := gitea.httpClient c (calls s) (organizationRequest orgName) in
  let create := gitea.httpClient c (calls s ++ [organizationRequest orgName])
                  (createOrganizationRequest orgName visibility) in
  let outcome := gitea.CreateOrganization c orgName visibility false s in
  (fst (gitea.CreateOrganization c orgName visibility true s) = None
   /\ calls (snd (gitea.CreateOrganization c orgName visibility true s)) = calls s)
  /\ (statusCode probe = 200 ->
      fst outcome = None /\ calls (snd outcome) = calls s ++ [organizationRequest orgName])
  /\ (statusCode probe <> 200 ->
      calls (snd outcome)
      = calls s ++ [organizationRequest orgName;
                    createOrganizationRequest orgName visibility]
      /\ (fst outcome = None <-> repliedWith 201 create \/ repliedWith 422 create)).
Proof.
  intros probe create outcome. split; [done|].
  unfold outcome. rewrite CreateOrganization_cases. cbv zeta.
  fold probe. change (calls (sent (organizationRequest orgName) s))
    with (calls s ++ [organizationRequest orgName]). fold create.
  split.
  - intros ->. done.
  - intros Hne. apply Z.eqb_neq in Hne. rewrite Hne. unfold repliedWith.
    destruct create as [e | e | st e | b st]; simpl.
    + split; [by rewrite <- app_assoc|]. split; [done | by intros [[x H] | [x H]]].
    + split; [by rewrite <- app_assoc|]. split; [done | by intros [[x H] | [x H]]].
    + split; [by rewrite <- app_assoc|]. split; [done | by intros [[x H] | [x H]]].
    + destruct (Z.eqb_spec st 201) as [->|H1]; simpl.
      { split; [by rewrite <- app_assoc|]. split; [intros _; left; eauto | done]. }
      destruct (Z.eqb_spec st 422) as [->|H2]; simpl.
      { split; [by rewrite <- app_assoc|]. split; [intros _; right; eauto | done]. }
      split; [by rewrite <- app_assoc|].
      split; [done | intros [[x [= _ ->]] | [x [= _ ->]]]; done].
Qed.

Lemma CreateOrganization_outcome_witness :
  (* the organization exists: one request and no error *)
  gitea.CreateOrganization (sampleGitea ["/api/v1/orgs/github"] 204) "github" "public" false
    initial
  = (None, {| logs := ["Organization github already exists"];
              calls := [organizationRequest "github"]; draws := 0 |})
  (* it does not: it is created *)
  /\ calls (snd (gitea.CreateOrganization (sampleGitea [] 204) "github" "public" false initial))
     = [organizationRequest "github"; createOrganizationRequest "github" "public"].
Proof.
  destruct (CreateOrganization_outcome (sampleGitea [] 204) "github" "public" initial)
    as (_ & _ & Hcreate).
  split; [reflexivity|].
  destruct Hcreate as [Hcalls _]; [discriminate | exact Hcalls].
Defined.

Lemma lookups_need_status_200_witness :
  fst (gitea.GetOrganization sampleLibrary (sampleGitea ["/api/v1/orgs/github"] 204) "github"
         initial) = Ok githubOrg
  /\ fst (gitea.GetUser sampleLibrary (sampleGitea ["/api/v1/user"] 204) initial)
     = Ok sampleUser.
Proof.
  split.
  - destruct (lookups_need_status_200 sampleLibrary (sampleGitea ["/api/v1/orgs/github"] 204)
                "github" initial) as (_ & Horg & _).
    apply Horg. by exists "{}", {| gitea.Organization.ID := 7;
                                   gitea.Organization.Username := "github" |}.
  - destruct (lookups_need_status_200 sampleLibrary (sampleGitea ["/api/v1/user"] 204)
                "github" initial) as (_ & _ & _ & Huser).
    apply Huser. by exists "{}", {| gitea.User.ID := 1; gitea.User.Username := "octo" |}.
Defined.

Lemma StarRepository_calls (c : gitea.Client) (repoName : string) (target : gitea.Target.t)
  (s : State) :
  calls (snd (gitea.StarRepository c repoName target true s)) = calls s
  /\ calls (snd (gitea.StarRepository c repoName target false s))
     = calls s ++ [starRequest repoName target].
Proof.
  split; [done|].
  unfold gitea.StarRepository, bind, ret, gitea.doRequest.
  fold (starRequest repoName target).
  destruct (gitea.httpClient c (calls s) (starRequest repoName target))
    as [e | e | st e | b st]; simpl; try done.
  by destruct (st =? http.StatusNoContent).
Qed.

(** X17. [StarRepository] sends nothing in dry-run mode and returns no
    error; otherwise it sends one [PUT] for the repository under the
    target, and returns no error exactly when that is answered with status
    204. *)
Theorem StarRepository_outcome
  (c : gitea.Client) (repoName : string) (target : gitea.Target.t) (s : State) :
  let outcome := gitea.StarRepository c repoName target false s in
  (fst (gitea.StarRepository c repoName target true s) = None
   /\ calls (snd (gitea.StarRepository c repoName target true s)) = calls s)
  /\ calls (snd outcome) = calls s ++ [starRequest repoName target]
  /\ (fst outcome = None
      <-> repliedWith 204 (gitea.httpClient c (calls s) (starRequest repoName target))).
Proof.
  intros outcome. split; [done|].
  unfold outcome, gitea.StarRepository, bind, ret, gitea.doRequest, repliedWith.
  fold (starRequest repoName target).
  destruct (gitea.httpClient c (calls s) (starRequest repoName target))
    as [e | e | st e | b st]; simpl.
  - split; [done|]. split; [done | by intros [x H]].
  - split; [done|]. split; [done | by intros [x H]].
  - split; [done|]. split; [done | by intros [x H]].
  - destruct (Z.eqb_spec st http.StatusNoContent) as [->|Hne]; simpl.
    + split; [done|]. split; [eauto | done].
    + split; [done|]. split; [done | intros [x [= _ ->]]; done].
Qed.

Lemma StarRepository_outcome_witness :
  gitea.StarRepository (sampleGitea [] 204) "lib-b" githubOrg false initial
  = (None, {| logs := ["Successfully starred repository in Gitea: github/lib-b"];
              calls := [starRequest "lib-b" githubOrg]; draws := 0 |})
  /\ fst (gitea.StarRepository (sampleGitea [] 500) "lib-b" githubOrg false initial) <> None.
Proof.
  split; [reflexivity|].
  destruct (StarRepository_outcome (sampleGitea [] 500) "lib-b" githubOrg initial)
    as (_ & _ & Hiff).
  intros Hnone. apply Hiff in Hnone as [respBody Hreply]. discriminate Hreply.
Defined.

(** X18. [MirrorRepository] sends one migrate request: a pull mirror of
    the clone URL under the name of the repository, owned by the target and
    as private as the source is.  It returns no error exactly when the
    request is answered with status 201. *)
Theorem MirrorRepository_outcome
  (c : gitea.Client) (repo : ghrepo.Repository) (target : gitea.Target.t)
  (githubToken : string) (s : State) :
  let outcome := gitea.MirrorRepository c repo target githubToken s in
  let body := migrateBody repo target githubToken in
  calls (snd outcome) = calls s ++ [migrateRequest repo target githubToken]
  /\ (fst outcome = None
      <-> repliedWith 201
            (gitea.httpClient c (calls s) (migrateRequest repo target githubToken)))
  /\ http.member "mirror" body = Some (http.VBool true)
  /\ http.member "clone_addr" body = Some (http.VString (ghrepo.URL repo))
  /\ http.member "repo_name" body = Some (http.VString (ghrepo.Name repo))
  /\ http.member "uid" body = Some (http.VInt (gitea.Target.ID target))
  /\ http.member "private" body = Some (http.VBool (ghrepo.Private repo)).
Proof.
  intros outcome body. split; [|split].
  - unfold outcome, gitea.MirrorRepository, bind, ret, gitea.doRequest.
    fold (migrateBody repo target githubToken). fold (migrateRequest repo target githubToken).
    destruct (gitea.httpClient c (calls s) _) as [e | e | st e | b st]; simpl; try done.
    by destruct (st =? http.StatusCreated).
  - unfold outcome, gitea.MirrorRepository, bind, ret, gitea.doRequest, repliedWith.
    fold (migrateBody repo target githubToken). fold (migrateRequest repo target githubToken).
    destruct (gitea.httpClient c (calls s) _) as [e | e | st e | b st]; simpl.
    + split; [done | by intros [x H]].
    + split; [done | by intros [x H]].
    + split; [done | by intros [x H]].
    + destruct (Z.eqb_spec st http.StatusCreated) as [->|Hne]; simpl.
      * split; [eauto | done].
      * split; [done | intros [x [= _ ->]]; done].
  - unfold body, migrateBody, gitea.MigrateRepoRequest.marshal. simpl.
    by destruct (is_empty githubToken).
Qed.

Lemma MirrorRepository_outcome_witness :
  fst (gitea.MirrorRepository (sampleGitea [] 204) (sampleRepo "app-x" false false) sampleUser
         "ghp_token" initial) = None.
Proof.
  destruct (MirrorRepository_outcome (sampleGitea [] 204) (sampleRepo "app-x" false false)
              sampleUser "ghp_token" initial) as (_ & Hiff & _).
  apply Hiff. by exists "{}".
Defined.

(** ** Mirroring issues *)

Module issues.

Lemma paginateIssues_spec (repo : ghrepo.Repository)
  (pages : github.Listing github.Issue.t) (allIssues : list github.Issue.t) :
  gitea.paginateIssues repo pages allIssues
  = match failure pages with
    | Some err =>
        Err ("error fetching issues for " +:+ ghrepo.Owner repo +:+ "/" +:+ ghrepo.Name repo
             +:+ ": " +:+ err)
    | None => Ok (allIssues ++ fetched pages)
    end.
Proof.
  revert allIssues.
  induction pages as [err | items | items rest IH]; intros allIssues; simpl; try done.
  rewrite IH. destruct (failure rest); [done|]. by rewrite app_assoc.
Qed.

Lemma sends_noIssue_addLabelToIssue lib c repo target issueNumber labelName :
  keeps (sends noIssue) (gitea.addLabelToIssue lib c repo target issueNumber labelName).
Proof.
  unfold gitea.addLabelToIssue.
  apply (keeps_bind (sends noIssue)); [relation_facts| |intros color].
  { apply (keeps_generateRandomColor (sends noIssue)); relation_facts. }
  apply (keeps_bind (sends noIssue)); [relation_facts| |intros _].
  { intros s. by apply sends_request. }
  apply (keeps_bind (sends noIssue)); [relation_facts| |intros [[b st] err]].
  { intros s. by apply sends_request. }
  destruct (_ || _).
  - intros s. apply sends_Printf.
  - apply keeps_ret. relation_facts.
Qed.

Lemma sends_noIssue_addLabels lib c repo target issueNumber labels :
  keeps (sends noIssue) (gitea.addLabels lib c repo target issueNumber labels).
Proof.
  induction labels as [|label rest IH]; simpl; [apply keeps_ret; relation_facts|].
  apply (keeps_bind (sends noIssue)); [relation_facts| |intros _; exact IH].
  apply sends_noIssue_addLabelToIssue.
Qed.

Lemma addLabelToIssue_two_requests lib c repo target issueNumber labelName s :
  length (calls (snd (gitea.addLabelToIssue lib c repo target issueNumber labelName s)))
  = (length (calls s) + 2)%nat.
Proof.
  unfold gitea.addLabelToIssue, bind, ret, gitea.generateRandomColor, gitea.randIntn,
    gitea.doRequest, Printf. simpl.
  destruct (gitea.httpClient c (calls s) _); simpl;
    match goal with
    | |- context [gitea.httpClient c ?h ?r] => destruct (gitea.httpClient c h r)
    end; simpl;
    try match goal with |- context [negb (?x =? ?y)] => destruct (x =? y) end; simpl;
    rewrite !length_app; simpl; lia.
Qed.

Lemma addLabels_requests lib c repo target issueNumber labels s :
  length (calls (snd (gitea.addLabels lib c repo target issueNumber labels s)))
  = (length (calls s) + 2 * length labels)%nat.
Proof.
  revert s. induction labels as [|label rest IH]; intros s; simpl; [lia|].
  unfold bind.
  pose proof (addLabelToIssue_two_requests lib c repo target issueNumber label s) as H.
  destruct (gitea.addLabelToIssue lib c repo target issueNumber label s) as [[] s1].
  simpl in H. rewrite IH, H. lia.
Qed.

End issues.

Module issues2.

Lemma omap_noIssue (requests : list http.Request) :
  Forall noIssue requests -> omap issueTitle requests = [].
Proof.
  induction 1 as [|req rest Hreq _ IH]; simpl; [done|].
  unfold noIssue in Hreq. by rewrite Hreq.
Qed.

(** What [createGiteaIssue] sends: the request that carries the issue,
    then the requests for its labels if it was created. *)
Lemma createGiteaIssue_shape lib c issue repo target s :
  exists req rest,
    calls (snd (gitea.createGiteaIssue lib c issue repo target s)) = calls s ++ req :: rest
    /\ http.method req = "POST"
    /\ http.path req = issuesPath repo target
    /\ issueTitle req = Some (github.Issue.Title issue)
    /\ Forall noIssue rest
    /\ (fst (gitea.createGiteaIssue lib c issue repo target s) = None
        <-> issueCreated lib (gitea.httpClient c (calls s) req))
    /\ length rest
       = match fst (gitea.createGiteaIssue lib c issue repo target s) with
         | None => (2 * length (github.Issue.Labels issue))%nat
         | Some _ => 0%nat
         end.
Proof.
  unfold gitea.createGiteaIssue, bind, ret, gitea.doRequest, issueCreated.
  cbv zeta. fold (issuesPath repo target).
  match goal with
  | |- context [gitea.httpClient c (calls s) ?r] => set (req := r)
  end.
  exists req.
  destruct (gitea.httpClient c (calls s) req) as [e | e | st e | b st] eqn:Hout; simpl.
  - exists []. repeat split; try done. by intros (x & y & H & _).
  - exists []. repeat split; try done. by intros (x & y & H & _).
  - exists []. repeat split; try done. by intros (x & y & H & _).
  - destruct (Z.eqb_spec st http.StatusCreated) as [->|Hne]; simpl.
    2:{ exists []. repeat split; try done. intros (x & y & [= _ ->] & _). done. }
    destruct (gitea.unmarshalIssueResponse lib b) as [issueResp|e] eqn:Hdec; simpl.
    2:{ exists []. repeat split; try done. intros (x & y & [= <-] & H). congruence. }
    match goal with
    | |- context [(if ?cond then ?m else ?e) ?st] =>
        set (s1 := st);
        assert (Hlabels : (if cond then m else e) s1
                          = gitea.addLabels lib c repo target
                              (gitea.IssueResponse.Number issueResp)
                              (github.Issue.Labels issue) s1)
          by (by destruct (github.Issue.Labels issue))
    end.
    rewrite Hlabels.
    pose proof (issues.sends_noIssue_addLabels lib c repo target
                  (gitea.IssueResponse.Number issueResp) (github.Issue.Labels issue) s1)
      as (rest & Hcalls & Hrest).
    pose proof (issues.addLabels_requests lib c repo target
                  (gitea.IssueResponse.Number issueResp) (github.Issue.Labels issue) s1)
      as Hlen.
    destruct (gitea.addLabels lib c repo target _ _ s1) as [[] s2]. simpl in *.
    exists rest. split; [by rewrite Hcalls, <- app_assoc|].
    repeat split; try done; eauto.
    rewrite Hcalls, !length_app in Hlen. simpl in Hlen. lia.
Qed.

Lemma createIssues_titles lib c issues repo target s :
  exists new,
    calls (snd (gitea.createIssues lib c issues repo target s)) = calls s ++ new
    /\ omap issueTitle new = map github.Issue.Title issues.
Proof.
  revert s. induction issues as [|issue rest IH]; intros s; simpl.
  - exists []. by rewrite app_nil_r.
  - unfold bind.
    destruct (createGiteaIssue_shape lib c issue repo target s)
      as (req & labelCalls & Hcalls & _ & _ & Htitle & Hno & _).
    destruct (gitea.createGiteaIssue lib c issue repo target s) as [err s1].
    simpl in Hcalls.
    assert (Hlog : exists s2, (match err with
                               | Some err0 =>
                                   Printf ("Error creating issue '"
                                           +:+ github.Issue.Title issue +:+ "': " +:+ err0)
                               | None => ret tt
                               end) s1 = (tt, s2) /\ calls s2 = calls s1).
    { destruct err; eexists; split; reflexivity. }
    destruct Hlog as (s2 & -> & Hs2).
    destruct (IH s2) as (new & Hnew & Htitles). exists (req :: labelCalls ++ new).
    split.
    + rewrite Hnew, Hs2, Hcalls. by rewrite <- app_assoc.
    + simpl. rewrite Htitle, omap_app, (omap_noIssue _ Hno), Htitles. done.
Qed.

End issues2.

(** X19. [MirrorIssues] sends nothing and returns no error for a
    repository without issues and in dry-run mode.  Otherwise its only
    error is that of the listing of the source issues, returned before
    anything is sent or logged; once the issues are listed it returns no
    error, whatever becomes of the single issues. *)
Theorem MirrorIssues_outcome
  (lib : gitea.Library) (c : gitea.Client) (ghClient : github.Client)
  (repo : ghrepo.Repository) (target : gitea.Target.t) (githubToken : string)
  (dryRun : bool) (s : State) :
  let outcome := gitea.MirrorIssues lib c ghClient repo target githubToken dryRun s in
  (ghrepo.HasIssues repo = false \/ dryRun = true ->
   fst outcome = None /\ calls (snd outcome) = calls s)
  /\ (ghrepo.HasIssues repo = true -> dryRun = false ->
      match failure (issueListing ghClient repo) with
      | Some err =>
          outcome = (Some ("error fetching issues for " +:+ ghrepo.Owner repo +:+ "/"
                           +:+ ghrepo.Name repo +:+ ": " +:+ err), s)
      | None => fst outcome = None
      end).
Proof.
  intros outcome. unfold outcome, gitea.MirrorIssues, gitea.fetchGitHubIssues.
  rewrite issues.paginateIssues_spec. fold (issueListing ghClient repo). split.
  - intros [Hno | ->].
    + by rewrite Hno.
    + by destruct (ghrepo.HasIssues repo).
  - intros -> ->. simpl.
    destruct (failure (issueListing ghClient repo)); [done|].
    unfold bind, ret. simpl.
    destruct (gitea.createIssues lib c _ repo target _) as [[] s1]. done.
Qed.

Lemma MirrorIssues_outcome_witness :
  gitea.MirrorIssues sampleLibrary (sampleGitea [] 204) issuesFailGitHub
    (sampleRepo "app-x" false false) sampleUser "ghp_token" false initial
  = (Some "error fetching issues for octo/app-x: 502 Bad Gateway", initial)
  /\ fst (gitea.MirrorIssues sampleLibrary (sampleGitea [] 204) sampleGitHub
            (sampleRepo "app-x" false false) sampleUser "ghp_token" false initial) = None.
Proof.
  split.
  - destruct (MirrorIssues_outcome sampleLibrary (sampleGitea [] 204) issuesFailGitHub
                (sampleRepo "app-x" false false) sampleUser "ghp_token" false initial)
      as [_ H].
    exact (H eq_refl eq_refl).
  - destruct (MirrorIssues_outcome sampleLibrary (sampleGitea [] 204) sampleGitHub
                (sampleRepo "app-x" false false) sampleUser "ghp_token" false initial)
      as [_ H].
    exact (H eq_refl eq_refl).
Defined.

(** X20. The issues of a repository are sent to the destination one
    request each, in the order of the source listing over all its pages,
    also when the creation of some of them fails: the titles the requests
    carry are the titles of the source issues, in order. *)
Theorem issues_are_created_in_source_order
  (lib : gitea.Library) (c : gitea.Client) (ghClient : github.Client)
  (repo : ghrepo.Repository) (target : gitea.Target.t) (githubToken : string) (s : State) :
  ghrepo.HasIssues repo = true ->
  failure (issueListing ghClient repo) = None ->
  exists new,
    calls (snd (gitea.MirrorIssues lib c ghClient repo target githubToken false s))
    = calls s ++ new
    /\ omap issueTitle new = map github.Issue.Title (fetched (issueListing ghClient repo)).
Proof.
  intros Hissues Hlisted. unfold gitea.MirrorIssues, gitea.fetchGitHubIssues.
  rewrite issues.paginateIssues_spec. fold (issueListing ghClient repo).
  rewrite Hissues, Hlisted. simpl. unfold bind, ret. simpl.
  match goal with
  | |- context [gitea.createIssues lib c ?l repo target ?st] =>
      destruct (issues2.createIssues_titles lib c l repo target st) as (new & Hnew & Ht);
      destruct (gitea.createIssues lib c l repo target st) as [[] s1]
  end.
  simpl in *. eauto.
Qed.

Lemma issues_are_created_in_source_order_witness :
  omap issueTitle
    (calls (snd (gitea.MirrorIssues sampleLibrary (sampleGitea [] 204) sampleGitHub
                   (sampleRepo "app-x" false false) sampleUser "ghp_token" false initial)))
  = ["Crash on start"].
Proof.
  destruct (issues_are_created_in_source_order sampleLibrary (sampleGitea [] 204)
              sampleGitHub (sampleRepo "app-x" false false) sampleUser "ghp_token" initial)
    as (new & Hnew & Htitles); [reflexivity | reflexivity |].
  rewrite Hnew. exact Htitles.
Defined.

(** X21. [createGiteaIssue] sends one [POST] to the issues of the
    repository, carrying the title of the issue.  It returns no error
    exactly when that is answered with status 201 and a body that decodes;
    then two requests follow for every label of the issue, and none
    otherwise. *)
Theorem createGiteaIssue_requests
  (lib : gitea.Library) (c : gitea.Client) (issue : github.Issue.t)
  (repo : ghrepo.Repository) (target : gitea.Target.t) (s : State) :
  let outcome := gitea.createGiteaIssue lib c issue repo target s in
  exists req rest,
    calls (snd outcome) = calls s ++ req :: rest
    /\ http.method req = "POST"
    /\ http.path req = issuesPath repo target
    /\ issueTitle req = Some (github.Issue.Title issue)
    /\ (fst outcome = None <-> issueCreated lib (gitea.httpClient c (calls s) req))
    /\ length rest = match fst outcome with
                     | None => (2 * length (github.Issue.Labels issue))%nat
                     | Some _ => 0%nat
                     end.
Proof.
  intros outcome.
  destruct (issues2.createGiteaIssue_shape lib c issue repo target s)
    as (req & rest & H1 & H2 & H3 & H4 & _ & H5 & H6).
  exists req, rest. done.
Qed.

Lemma createGiteaIssue_requests_witness :
  exists req rest,
    calls (snd (gitea.createGiteaIssue sampleLibrary (sampleGitea [] 204) sampleIssue
                  (sampleRepo "app-x" false false) sampleUser initial))
    = calls initial ++ req :: rest
    /\ issueTitle req = Some "Crash on start"
    /\ length rest = 2%nat.
Proof.
  destruct (createGiteaIssue_requests sampleLibrary (sampleGitea [] 204) sampleIssue
              (sampleRepo "app-x" false false) sampleUser initial)
    as (req & rest & Hcalls & _ & _ & Htitle & _ & Hlen).
  exists req, rest. split; [exact Hcalls|]. split; [exact Htitle | exact Hlen].
Defined.

(** ** Label colours *)

Module colour.

Lemma hexDigit_char (d : Z) :
  0 <= d < 16 ->
  exists ch, gitea.hexDigit d = String ch EmptyString
             /\ hasChar ch "0123456789abcdef" = true.
Proof.
  intros Hd.
  assert (Hcases : d = 0 \/ d = 1 \/ d = 2 \/ d = 3 \/ d = 4 \/ d = 5 \/ d = 6 \/ d = 7
                   \/ d = 8 \/ d = 9 \/ d = 10 \/ d = 11 \/ d = 12 \/ d = 13 \/ d = 14
                   \/ d = 15) by lia.
  repeat (destruct Hcases as [-> | Hcases]; [eexists; split; reflexivity|]).
  subst d. eexists; split; reflexivity.
Qed.

Lemma fmt_0x_hex (width : nat) (z : Z) :
  String.length (gitea.fmt_0x width z) = width
  /\ forall ch, hasChar ch (gitea.fmt_0x width z) = true ->
                hasChar ch "0123456789abcdef" = true.
Proof.
  revert z. induction width as [|w IH]; intros z; simpl; [done|].
  destruct (IH (z / 16)) as [Hlen Hchars].
  destruct (hexDigit_char (z mod 16)) as (d & -> & Hd).
  { apply Z.mod_pos_bound. lia. }
  split.
  - rewrite text.length_append, Hlen. simpl. lia.
  - intros ch. rewrite text.hasChar_app. simpl. rewrite orb_false_r.
    intros H. apply orb_true_iff in H as [H | H]; [by apply Hchars|].
    apply Ascii.eqb_eq in H. by subst ch.
Qed.

End colour.

(** X22. The colour that [generateRandomColor] gives to a label is always
    six characters long and made of the digits and the letters a to f; the
    generator is asked for one number, and nothing is sent or logged. *)
Theorem generateRandomColor_is_six_hex_digits (lib : gitea.Library) (s : State) :
  let color := fst (gitea.generateRandomColor lib s) in
  let s' := snd (gitea.generateRandomColor lib s) in
  String.length color = 6%nat
  /\ (forall ch, hasChar ch color = true -> hasChar ch "0123456789abcdef" = true)
  /\ draws s' = S (draws s)
  /\ calls s' = calls s
  /\ logs s' = logs s.
Proof.
  intros color s'. unfold color, s', gitea.generateRandomColor, bind, ret, gitea.randIntn.
  simpl fst. simpl snd.
  destruct (colour.fmt_0x_hex 6 (gitea.randSource lib (draws s) mod 16777215))
    as [Hlen Hchars].
  split; [exact Hlen|]. split; [exact Hchars|]. done.
Qed.

Lemma generateRandomColor_is_six_hex_digits_witness :
  String.length (fst (gitea.generateRandomColor sampleLibrary initial)) = 6%nat
  /\ hasChar "f" "0123456789abcdef" = true.
Proof.
  pose proof (generateRandomColor_is_six_hex_digits sampleLibrary initial) as H.
  cbv zeta in H. destruct H as (Hlen & Hchars & _).
  split; [exact Hlen | exact (Hchars "f"%char eq_refl)].
Defined.

Example random_color_of_255 :
  fst (gitea.generateRandomColor sampleLibrary initial) = "0000ff".
Proof. reflexivity. Qed.

(** ** More on the orchestrator *)

(** X23. The target of a repository that is not starred: with
    organization structure preserved and a source organization on the
    record it is the target prepared for that organization, taken from the
    map without any request, or the default target if the map has none;
    in all other cases it is the default target.  The default target is
    the authenticated user, without any request, when no destination
    organization is configured; when one is configured it is that
    organization if its lookup succeeds, and the authenticated user, with
    a warning logged, if the lookup fails. *)
Theorem unstarred_target_resolution
  (lib : gitea.Library) (giteaClient : gitea.Client) (cfg : config.Config)
  (giteaUser : gitea.Target.t) (orgTargets : gmap string gitea.Target.t)
  (repo : ghrepo.Repository) (s : State) :
  ghrepo.Starred repo = false ->
  let resolved := main.resolveTarget lib giteaClient cfg giteaUser orgTargets repo s in
  let preserved := config.GitHubConfig.PreserveOrgStructure (config.GitHub cfg)
                   && negb (is_empty (ghrepo.Organization repo)) in
  (preserved = true ->
   forall target, orgTargets !! ghrepo.Organization repo = Some target ->
                  resolved = (target, s))
  /\ (preserved = true -> orgTargets !! ghrepo.Organization repo = None ->
      resolved = main.getDefaultTarget lib giteaClient cfg giteaUser
                   (logged (noOrgTargetLine repo) s))
  /\ (preserved = false -> resolved = main.getDefaultTarget lib giteaClient cfg giteaUser s)
  /\ (config.GiteaConfig.Organization (config.Gitea cfg) = EmptyString ->
      main.getDefaultTarget lib giteaClient cfg giteaUser s = (giteaUser, s))
  /\ (config.GiteaConfig.Organization (config.Gitea cfg) <> EmptyString ->
      let looked := gitea.GetOrganization lib giteaClient
                      (config.GiteaConfig.Organization (config.Gitea cfg)) s in
      main.getDefaultTarget lib giteaClient cfg giteaUser s
      = match fst looked with
        | Ok org => (org, snd looked)
        | Err err => (giteaUser, logged (defaultTargetWarning cfg err) (snd looked))
        end).
Proof.
  intros Hstarred resolved preserved.
  unfold resolved, main.resolveTarget. rewrite Hstarred. simpl. fold preserved.
  split; [|split; [|split; [|split]]].
  - intros -> target ->. done.
  - intros -> ->. done.
  - intros ->. done.
  - intros Horg. unfold main.getDefaultTarget. by rewrite Horg.
  - intros Horg. apply is_empty_false in Horg. cbv zeta.
    unfold main.getDefaultTarget, bind. rewrite Horg. cbn [negb].
    by destruct (gitea.GetOrganization lib giteaClient _ s) as [[org|err] s1].
Qed.

Lemma unstarred_target_resolution_witness :
  main.resolveTarget sampleLibrary (sampleGitea [] 204) (sampleConfig false) sampleUser
    sampleOrgTargets (ghrepo.setOrganization "acme" (sampleRepo "tool" false false)) initial
  = ({| gitea.Target.ID := 9; gitea.Target.Name := "acme";
        gitea.Target.Type_ := "organization" |}, initial)
  /\ main.resolveTarget sampleLibrary (sampleGitea [] 204) (sampleConfig false) sampleUser
       sampleOrgTargets (sampleRepo "app-x" false false) initial
     = (sampleUser, initial).
Proof.
  split.
  - destruct (unstarred_target_resolution sampleLibrary (sampleGitea [] 204)
                (sampleConfig false) sampleUser sampleOrgTargets
                (ghrepo.setOrganization "acme" (sampleRepo "tool" false false)) initial
                eq_refl) as [Hmap _].
    apply Hmap; reflexivity.
  - destruct (unstarred_target_resolution sampleLibrary (sampleGitea [] 204)
                (sampleConfig false) sampleUser sampleOrgTargets
                (sampleRepo "app-x" false false) initial eq_refl)
      as (_ & _ & Hdefault & Huser & _).
    rewrite Hdefault by reflexivity. apply Huser. reflexivity.
Defined.

(** X24. A repository that the destination reports as mirrored is never
    created again and its issues are never mirrored again: after the
    existence check [mirrorRepository] sends the star request if the
    repository is starred and dry-run is off, and nothing otherwise. *)
Theorem existing_mirror_is_left_alone
  (lib : gitea.Library) (giteaClient : gitea.Client) (ghClient : github.Client)
  (cfg : config.Config) (giteaUser : gitea.Target.t)
  (orgTargets : gmap string gitea.Target.t) (repo : ghrepo.Repository)
  (s s1 s2 : State) (giteaTarget : gitea.Target.t) :
  main.resolveTarget lib giteaClient cfg giteaUser orgTargets repo s = (giteaTarget, s1) ->
  gitea.IsRepositoryMirrored giteaClient (ghrepo.Name repo) giteaTarget s1
  = ((true, None), s2) ->
  calls (snd (main.mirrorRepository lib giteaClient ghClient cfg giteaUser orgTargets repo s))
  = calls s2
    ++ (if ghrepo.Starred repo && negb (config.DryRun cfg)
        then [starRequest (ghrepo.Name repo) giteaTarget]
        else []).
Proof.
  intros Hres Hmir. unfold main.mirrorRepository, bind. rewrite Hres, Hmir.
  destruct (ghrepo.Starred repo); [|simpl; by rewrite app_nil_r].
  destruct (config.DryRun cfg); [simpl; by rewrite app_nil_r|].
  unfold Printf. cbv beta iota.
  match goal with
  | |- calls (snd (gitea.StarRepository _ _ _ _ ?st)) = _ =>
      exact (proj2 (StarRepository_calls giteaClient (ghrepo.Name repo) giteaTarget st))
  end.
Qed.

Lemma existing_mirror_is_left_alone_witness :
  calls (snd (main.mirrorRepository sampleLibrary starFailsGitea sampleGitHub
                (sampleConfig false) sampleUser ∅ (sampleRepo "lib-b" false true) initial))
  = [organizationRequest "github"; existenceRequest "lib-b" githubOrg;
     starRequest "lib-b" githubOrg].
Proof.
  exact (existing_mirror_is_left_alone sampleLibrary starFailsGitea sampleGitHub
           (sampleConfig false) sampleUser ∅ (sampleRepo "lib-b" false true)
           initial _ _ githubOrg eq_refl eq_refl).
Defined.

Module steps.

Lemma MirrorRepository_calls (c : gitea.Client) (repo : ghrepo.Repository)
  (target : gitea.Target.t) (githubToken : string) (s : State) :
  calls (snd (gitea.MirrorRepository c repo target githubToken s))
  = calls s ++ [migrateRequest repo target githubToken].
Proof.
  unfold gitea.MirrorRepository, bind, ret, gitea.doRequest.
  fold (migrateBody repo target githubToken). fold (migrateRequest repo target githubToken).
  destruct (gitea.httpClient c (calls s) _) as [e | e | st e | b st]; simpl; try done.
  by destruct (st =? http.StatusCreated).
Qed.

Lemma starMirror_calls (c : gitea.Client) (cfg : config.Config) (repo : ghrepo.Repository)
  (target : gitea.Target.t) (s : State) :
  config.DryRun cfg = false ->
  calls (snd (main.starMirror c cfg repo target s))
  = calls s ++ (if ghrepo.Starred repo then [starRequest (ghrepo.Name repo) target] else []).
Proof.
  intros Hdry. unfold main.starMirror. rewrite Hdry.
  destruct (ghrepo.Starred repo); [|simpl; by rewrite app_nil_r].
  unfold bind.
  pose proof (proj2 (StarRepository_calls c (ghrepo.Name repo) target s)) as H.
  destruct (gitea.StarRepository c (ghrepo.Name repo) target false s) as [[err|] s1];
    simpl in *; exact H.
Qed.

Lemma replicateIssues_skipped (lib : gitea.Library) (c : gitea.Client)
  (ghClient : github.Client) (cfg : config.Config) (repo : ghrepo.Repository)
  (target : gitea.Target.t) (s : State) :
  main.shouldMirrorIssues cfg repo = false ->
  calls (snd (main.replicateIssues lib c ghClient cfg repo target s)) = calls s.
Proof.
  intros Hskip. unfold main.replicateIssues. rewrite Hskip. simpl.
  by destruct (_ && _).
Qed.

End steps.

(** X25. When the creation of the mirror fails, the repository is done:
    [mirrorRepository] returns the error of the creation, and after the
    migrate request it sends neither a star request nor any request for
    issues. *)
Theorem failed_create_stops_the_repository
  (lib : gitea.Library) (giteaClient : gitea.Client) (ghClient : github.Client)
  (cfg : config.Config) (giteaUser : gitea.Target.t)
  (orgTargets : gmap string gitea.Target.t) (repo : ghrepo.Repository)
  (s s1 s2 s3 : State) (giteaTarget : gitea.Target.t) (err : string) :
  main.resolveTarget lib giteaClient cfg giteaUser orgTargets repo s = (giteaTarget, s1) ->
  gitea.IsRepositoryMirrored giteaClient (ghrepo.Name repo) giteaTarget s1
  = ((false, None), s2) ->
  config.DryRun cfg = false ->
  gitea.MirrorRepository giteaClient repo giteaTarget
    (config.GitHubConfig.Token (config.GitHub cfg))
    (logged (mirroringLine repo giteaTarget) s2) = (Some err, s3) ->
  main.mirrorRepository lib giteaClient ghClient cfg giteaUser orgTargets repo s
  = (Some err, s3)
  /\ calls s3
     = calls s2
       ++ [migrateRequest repo giteaTarget (config.GitHubConfig.Token (config.GitHub cfg))].
Proof.
  intros Hres Hmir Hdry Hcreate.
  rewrite (mirrorRepository_absent _ _ _ _ _ _ _ _ _ _ _ Hres Hmir Hdry). split.
  - unfold main.createMirror, bind at 1. simpl. unfold bind at 1.
    unfold logged, mirroringLine in Hcreate. simpl in Hcreate. by rewrite Hcreate.
  - pose proof (steps.MirrorRepository_calls giteaClient repo giteaTarget
                  (config.GitHubConfig.Token (config.GitHub cfg))
                  (logged (mirroringLine repo giteaTarget) s2)) as H.
    by rewrite Hcreate in H.
Qed.

(** X26. Issues are left out when issue mirroring is off and, for a
    starred repository, when the issues of starred repositories are
    skipped: after a successful creation [mirrorRepository] then sends the
    star request if the repository is starred, and nothing for issues. *)
Theorem issues_are_skipped_on_request
  (lib : gitea.Library) (giteaClient : gitea.Client) (ghClient : github.Client)
  (cfg : config.Config) (giteaUser : gitea.Target.t)
  (orgTargets : gmap string gitea.Target.t) (repo : ghrepo.Repository)
  (s s1 s2 s3 : State) (giteaTarget : gitea.Target.t) :
  main.resolveTarget lib giteaClient cfg giteaUser orgTargets repo s = (giteaTarget, s1) ->
  gitea.IsRepositoryMirrored giteaClient (ghrepo.Name repo) giteaTarget s1
  = ((false, None), s2) ->
  config.DryRun cfg = false ->
  gitea.MirrorRepository giteaClient repo giteaTarget
    (config.GitHubConfig.Token (config.GitHub cfg))
    (logged (mirroringLine repo giteaTarget) s2) = (None, s3) ->
  (config.GitHubConfig.MirrorIssues (config.GitHub cfg) = false
   \/ (ghrepo.Starred repo = true
       /\ config.GitHubConfig.SkipStarredIssues (config.GitHub cfg) = true)) ->
  calls (snd (main.mirrorRepository lib giteaClient ghClient cfg giteaUser orgTargets repo s))
  = calls s2
    ++ migrateRequest repo giteaTarget (config.GitHubConfig.Token (config.GitHub cfg))
    :: (if ghrepo.Starred repo then [starRequest (ghrepo.Name repo) giteaTarget] else []).
Proof.
  intros Hres Hmir Hdry Hcreate Hskip.
  assert (Hshould : main.shouldMirrorIssues cfg repo = false).
  { unfold main.shouldMirrorIssues. destruct Hskip as [-> | [-> ->]]; [done|].
    simpl. apply andb_false_r. }
  rewrite (mirrorRepository_absent _ _ _ _ _ _ _ _ _ _ _ Hres Hmir Hdry).
  rewrite (createMirror_created _ _ _ _ _ _ _ _ Hcreate). simpl.
  rewrite steps.replicateIssues_skipped by done.
  rewrite steps.starMirror_calls by done.
  pose proof (steps.MirrorRepository_calls giteaClient repo giteaTarget
                (config.GitHubConfig.Token (config.GitHub cfg))
                (logged (mirroringLine repo giteaTarget) s2)) as H.
  rewrite Hcreate in H. simpl in H. rewrite H. by rewrite <- app_assoc.
Qed.

Lemma failed_create_stops_the_repository_witness :
  main.mirrorRepository sampleLibrary refusingGitea sampleGitHub (sampleConfig false)
    sampleUser ∅ (sampleRepo "app-x" false false) initial
  = (Some "failed to mirror repository app-x: status 409",
     {| logs := ["Mirroring repository to user octo: app-x"];
        calls := [existenceRequest "app-x" sampleUser;
                  migrateRequest (sampleRepo "app-x" false false) sampleUser "ghp_token"];
        draws := 0 |}).
Proof.
  destruct (failed_create_stops_the_repository sampleLibrary refusingGitea sampleGitHub
              (sampleConfig false) sampleUser ∅ (sampleRepo "app-x" false false)
              initial _ _ _ sampleUser _ eq_refl eq_refl eq_refl eq_refl) as [H _].
  exact H.
Defined.

Lemma issues_are_skipped_on_request_witness :
  calls (snd (main.mirrorRepository sampleLibrary (sampleGitea ["/api/v1/orgs/github"] 204)
                sampleGitHub skipStarredIssuesConfig sampleUser ∅
                (sampleRepo "lib-b" false true) initial))
  = [organizationRequest "github"; existenceRequest "lib-b" githubOrg;
     migrateRequest (sampleRepo "lib-b" false true) githubOrg "ghp_token";
     starRequest "lib-b" githubOrg].
Proof.
  apply (issues_are_skipped_on_request sampleLibrary
           (sampleGitea ["/api/v1/orgs/github"] 204) sampleGitHub skipStarredIssuesConfig
           sampleUser ∅ (sampleRepo "lib-b" false true) initial _ _ _ githubOrg
           eq_refl eq_refl eq_refl eq_refl).
  right. split; reflexivity.
Defined.

(** ** The logger *)

(** X27. [ShowConfig] never shows a credential: it writes and logs the
    same for two configurations that differ in the source token and the
    destination token only, and what it marshals holds [[REDACTED]] in
    place of both. *)
Theorem ShowConfig_hides_tokens
  (l : logger.Logger) (timestamp : string)
  (MarshalIndent : logger.RedactedConfig -> Result string) (cfg : config.Config)
  (githubToken giteaToken : string) (s : State) :
  logger.ShowConfig l timestamp MarshalIndent (withTokens githubToken giteaToken cfg) s
  = logger.ShowConfig l timestamp MarshalIndent cfg s
  /\ logger.RedactedGitHub.Token (logger.GitHub (logger.redacted cfg)) = "[REDACTED]"
  /\ logger.RedactedGitea.Token (logger.Gitea (logger.redacted cfg)) = "[REDACTED]".
Proof. split; [|done]. unfold logger.ShowConfig. done. Qed.

Example ShowConfig_sample :
  logger.ShowConfig logger.New "2026-01-01T00:00:00Z" sampleMarshal (sampleConfig true) initial
  = (Some ("Applied configuration:" +:+ String (ascii_of_nat 10) EmptyString
           +:+ "{ username: octo, token: [REDACTED], gitea token: [REDACTED] }"
           +:+ String (ascii_of_nat 10) EmptyString), initial).
Proof. reflexivity. Qed.

(** ** The whole run *)

Section RunEffects.

Variable R : State -> State -> Prop.
Variable allowed : http.Request -> Prop.
Hypothesis R_refl : forall s, R s s.
Hypothesis R_trans : forall s1 s2 s3, R s1 s2 -> R s2 s3 -> R s1 s3.
Hypothesis R_Printf : forall line s, R s (logged line s).
Hypothesis R_draw : forall lib n s, R s (snd (gitea.randIntn lib n s)).
Hypothesis R_request :
  forall c method path body s,
    allowed (http.mkRequest method path body) ->
    R s (snd (gitea.doRequest c method path body s)).

Ltac run_effects :=
  repeat first
    [ apply (keeps_ret R R_refl)
    | apply (keeps_Printf R R_Printf)
    | apply (keeps_doRequest R allowed R_request); solve [auto]
    | apply (keeps_bind R R_trans); [ | intros ? ]
    | match goal with
      | |- keeps _ (match ?x with _ => _ end) => destruct x
      | |- keeps _ (if ?b then _ else _) => destruct b
      | |- keeps _ (let (_, _) := ?x in _) => destruct x
      end ].

(** The source collector and the logger only log. *)

Lemma keeps_paginateOrg orgName pages orgRepos :
  keeps R (ghrepo.paginateOrg orgName pages orgRepos).
Proof.
  revert orgRepos. induction pages as [err | items | items rest IH]; intros orgRepos; simpl.
  - run_effects.
  - run_effects.
  - apply IH.
Qed.

Lemma keeps_forOrganizations client preserveOrgStructure privateRepoAccess orgs allOrgRepos :
  keeps R (ghrepo.forOrganizations client preserveOrgStructure privateRepoAccess orgs
                                   allOrgRepos).
Proof.
  revert allOrgRepos. induction orgs as [|org rest IH]; intros allOrgRepos; simpl.
  - run_effects.
  - apply (keeps_bind R R_trans); [|intros acc; apply IH].
    unfold ghrepo.fetchOneOrganization.
    apply (keeps_bind R R_trans); [run_effects | intros _].
    apply (keeps_bind R R_trans); [|intros orgRepos; run_effects].
    destruct privateRepoAccess.
    + apply (keeps_bind R R_trans); [run_effects | intros _].
      apply (keeps_bind R R_trans); [apply keeps_paginateOrg | intros orgRepos].
      run_effects.
    + apply (keeps_bind R R_trans); [apply keeps_paginateOrg | intros orgRepos].
      run_effects.
Qed.

Lemma keeps_GetRepositories client opts : keeps R (ghrepo.GetRepositories client opts).
Proof.
  unfold ghrepo.GetRepositories.
  destruct (negb (is_empty (ghrepo.SingleRepo opts))); [run_effects|].
  apply (keeps_bind R R_trans); [|intros collected; run_effects].
  unfold ghrepo.collectAll.
  destruct (ghrepo.collectPublic client opts []); [|run_effects].
  destruct (ghrepo.collectPrivate client opts _); [|run_effects].
  destruct (ghrepo.collectStarred client opts _); [|run_effects].
  unfold ghrepo.collectOrganizations.
  destruct (ghrepo.MirrorOrganizations opts); [|run_effects].
  apply (keeps_bind R R_trans); [|intros fetched; run_effects].
  unfold ghrepo.fetchOrganizationRepositories.
  destruct (if negb (is_empty _) then _ else _); [|run_effects].
  apply (keeps_bind R R_trans); [run_effects | intros _].
  apply (keeps_bind R R_trans); [apply keeps_forOrganizations | intros acc; run_effects].
Qed.

Lemma keeps_ShowConfig l timestamp MarshalIndent cfg :
  keeps R (logger.ShowConfig l timestamp MarshalIndent cfg).
Proof. unfold logger.ShowConfig, logger.Error. run_effects. Qed.

Lemma keeps_CreateOrganization_dry c orgName visibility :
  keeps R (gitea.CreateOrganization c orgName visibility true).
Proof. unfold gitea.CreateOrganization. run_effects. Qed.

Section ReadOnlyRun.

Hypothesis allowed_GET : forall path, allowed (http.mkRequest "GET" path None).

Lemma keeps_GetUser lib c : keeps R (gitea.GetUser lib c).
Proof. unfold gitea.GetUser. run_effects. Qed.

Lemma keeps_prepareOrganizations_dry rt c cfg orgNames orgTargets :
  config.DryRun cfg = true ->
  keeps R (main.prepareOrganizations rt c cfg orgNames orgTargets).
Proof.
  intros Hdry. revert orgTargets.
  induction orgNames as [|orgName rest IH]; intros orgTargets; simpl; [run_effects|].
  rewrite Hdry.
  apply (keeps_bind R R_trans); [run_effects | intros _].
  apply (keeps_bind R R_trans); [apply keeps_CreateOrganization_dry | intros err].
  destruct err as [err|].
  - apply (keeps_bind R R_trans); [run_effects | intros _; apply IH].
  - apply (keeps_bind R R_trans); [|intros [orgTarget|err]].
    + apply (keeps_GetOrganization R allowed R_refl R_trans R_request allowed_GET).
    + apply IH.
    + apply (keeps_bind R R_trans); [run_effects | intros _; apply IH].
Qed.

Lemma keeps_mirrorAll_dry rt c ghClient cfg giteaUser orgTargets repos :
  config.DryRun cfg = true ->
  keeps R (main.mirrorAll rt c ghClient cfg giteaUser orgTargets repos).
Proof.
  intros Hdry. induction repos as [|repo rest IH]; simpl; [run_effects|].
  apply (keeps_bind R R_trans); [|intros err].
  - by apply (keeps_mirrorRepository_dry R allowed R_refl R_trans R_Printf R_request
                allowed_GET).
  - apply (keeps_bind R R_trans); [run_effects | intros _; exact IH].
Qed.

Lemma keeps_main_dry rt :
  config.readBoolean (main.environ rt) "DRY_RUN" = true -> keeps R (main.main rt).
Proof.
  intros Hdry. unfold main.main.
  destruct (config.Load (main.environ rt)) as [cfg|err] eqn:Hload;
    [|unfold main.Fatalf; run_effects].
  assert (Hcfg : config.DryRun cfg = true).
  { destruct (Load_Ok_fields _ _ Hload)
      as (_ & _ & _ & _ & _ & _ & _ & _ & _ & _ & _ & E & _). by rewrite E. }
  rewrite Hcfg.
  apply (keeps_bind R R_trans); [apply keeps_ShowConfig | intros output].
  apply (keeps_bind R R_trans).
  { destruct (negb (is_empty _)); [|run_effects].
    apply (keeps_bind R R_trans); [apply keeps_CreateOrganization_dry | intros err].
    run_effects. }
  intros _. apply (keeps_bind R R_trans).
  { destruct (_ && _); [|run_effects].
    apply (keeps_bind R R_trans); [apply keeps_CreateOrganization_dry | intros err].
    run_effects. }
  intros _. apply (keeps_bind R R_trans); [apply keeps_GetRepositories | intros githubRepos].
  destruct githubRepos as [githubRepos|err]; [|unfold main.Fatalf; run_effects].
  apply (keeps_bind R R_trans); [run_effects | intros _].
  apply (keeps_bind R R_trans); [apply keeps_GetUser | intros giteaUser].
  destruct giteaUser as [giteaUser|err]; [|unfold main.Fatalf; run_effects].
  apply (keeps_bind R R_trans).
  { destruct (config.GitHubConfig.PreserveOrgStructure _); [|run_effects].
    by apply keeps_prepareOrganizations_dry. }
  intros orgTargets.
  apply (keeps_bind R R_trans); [by apply keeps_mirrorAll_dry | intros _].
  run_effects.
Qed.

End ReadOnlyRun.

End RunEffects.

(** X28. With [DRY_RUN] set, a whole run of the program sends nothing but
    [GET] requests to the destination: it creates no organization, no
    mirror, no star and no issue, whatever the source and the destination
    answer. *)
Theorem dry_run_of_a_whole_run_sends_only_GET (rt : main.Runtime) (s : State) :
  config.readBoolean (main.environ rt) "DRY_RUN" = true ->
  exists new, calls (snd (main.main rt s)) = calls s ++ new /\ Forall isGET new.
Proof.
  intros Hdry.
  apply (keeps_main_dry (sends isGET) isGET); try relation_facts; done.
Qed.

Lemma dry_run_of_a_whole_run_sends_only_GET_witness :
  exists new,
    calls (snd (main.main (sampleRuntime dryRunEnv ["/api/v1/user"]) initial))
    = calls initial ++ new
    /\ Forall isGET new.
Proof.
  exact (dry_run_of_a_whole_run_sends_only_GET
           (sampleRuntime dryRunEnv ["/api/v1/user"]) initial eq_refl).
Defined.

Example dry_run_of_the_sample :
  calls (snd (main.main (sampleRuntime dryRunEnv ["/api/v1/user"]) initial))
  = [ http.mkRequest "GET" "/api/v1/user" None;
      http.mkRequest "GET" "/api/v1/repos/octo/lib-a" None;
      http.mkRequest "GET" "/api/v1/repos/octo/app-x" None;
      http.mkRequest "GET" "/api/v1/orgs/github" None;
      http.mkRequest "GET" "/api/v1/repos/octo/lib-b" None ].
Proof. vm_compute. reflexivity. Qed.

(** What the orchestrator sends besides the existence check. *)

Section MirrorEffects.

Variable R : State -> State -> Prop.
Variable allowed : http.Request -> Prop.
Hypothesis R_refl : forall s, R s s.
Hypothesis R_trans : forall s1 s2 s3, R s1 s2 -> R s2 s3 -> R s1 s3.
Hypothesis R_Printf : forall line s, R s (logged line s).
Hypothesis R_draw : forall lib n s, R s (snd (gitea.randIntn lib n s)).
Hypothesis R_request :
  forall c method path body s,
    allowed (http.mkRequest method path body) ->
    R s (snd (gitea.doRequest c method path body s)).
Hypothesis allowed_org :
  forall orgName, allowed (http.mkRequest "GET" ("/api/v1/orgs/" +:+ orgName) None).
Hypothesis allowed_POST : forall path body, allowed (http.mkRequest "POST" path body).
Hypothesis allowed_PUT : forall path body, allowed (http.mkRequest "PUT" path body).

Ltac step := apply (keeps_bind R R_trans); [ | intros ? ].

Ltac mirror_effects :=
  repeat first
    [ apply (keeps_ret R R_refl)
    | apply (keeps_Printf R R_Printf)
    | apply (keeps_doRequest R allowed R_request); solve [auto]
    | step
    | match goal with
      | |- keeps _ (match ?x with _ => _ end) => destruct x
      | |- keeps _ (if ?b then _ else _) => destruct b
      | |- keeps _ (let (_, _) := ?x in _) => destruct x
      end ].

Lemma mirror_GetOrganization lib c orgName : keeps R (gitea.GetOrganization lib c orgName).
Proof. unfold gitea.GetOrganization. mirror_effects. Qed.

Lemma mirror_getDefaultTarget lib c cfg giteaUser :
  keeps R (main.getDefaultTarget lib c cfg giteaUser).
Proof.
  unfold main.getDefaultTarget. mirror_effects; try apply mirror_GetOrganization; mirror_effects.
Qed.

Lemma mirror_resolveTarget lib c cfg giteaUser orgTargets repo :
  keeps R (main.resolveTarget lib c cfg giteaUser orgTargets repo).
Proof.
  unfold main.resolveTarget.
  mirror_effects; try apply mirror_GetOrganization; mirror_effects;
    apply mirror_getDefaultTarget.
Qed.

Lemma mirror_StarRepository c repoName target dryRun :
  keeps R (gitea.StarRepository c repoName target dryRun).
Proof. unfold gitea.StarRepository. mirror_effects. Qed.

Lemma mirror_MirrorRepository c repo target githubToken :
  keeps R (gitea.MirrorRepository c repo target githubToken).
Proof. unfold gitea.MirrorRepository. mirror_effects. Qed.

Lemma mirror_addLabelToIssue lib c repo target issueNumber labelName :
  keeps R (gitea.addLabelToIssue lib c repo target issueNumber labelName).
Proof.
  unfold gitea.addLabelToIssue.
  step; [exact (keeps_generateRandomColor R R_refl R_trans R_draw lib)|]. mirror_effects.
Qed.

Lemma mirror_addLabels lib c repo target issueNumber labels :
  keeps R (gitea.addLabels lib c repo target issueNumber labels).
Proof.
  induction labels as [|label rest IH]; simpl; [mirror_effects|].
  step; [apply mirror_addLabelToIssue | exact IH].
Qed.

Lemma mirror_createGiteaIssue lib c issue repo target :
  keeps R (gitea.createGiteaIssue lib c issue repo target).
Proof. unfold gitea.createGiteaIssue. mirror_effects; apply mirror_addLabels. Qed.

Lemma mirror_createIssues lib c issues repo target :
  keeps R (gitea.createIssues lib c issues repo target).
Proof.
  induction issues as [|issue rest IH]; simpl; [mirror_effects|].
  step; [apply mirror_createGiteaIssue|].
  step; [mirror_effects | exact IH].
Qed.

Lemma mirror_MirrorIssues lib c ghClient repo target githubToken dryRun :
  keeps R (gitea.MirrorIssues lib c ghClient repo target githubToken dryRun).
Proof. unfold gitea.MirrorIssues. mirror_effects. apply mirror_createIssues. Qed.

Lemma mirror_starMirror c cfg repo target : keeps R (main.starMirror c cfg repo target).
Proof.
  unfold main.starMirror. mirror_effects; try apply mirror_StarRepository; mirror_effects.
Qed.

Lemma mirror_replicateIssues lib c ghClient cfg repo target :
  keeps R (main.replicateIssues lib c ghClient cfg repo target).
Proof.
  unfold main.replicateIssues. mirror_effects; try apply mirror_MirrorIssues; mirror_effects.
Qed.

Lemma mirror_createMirror lib c ghClient cfg repo target :
  keeps R (main.createMirror lib c ghClient cfg repo target).
Proof.
  unfold main.createMirror.
  step; [mirror_effects|].
  apply (keeps_bind R R_trans); [apply mirror_MirrorRepository | intros err].
  destruct err; [mirror_effects|].
  step; [apply mirror_starMirror|]. step; [apply mirror_replicateIssues|]. mirror_effects.
Qed.

(** [mirrorRepository] in three parts: the target, the check, the rest. *)
Lemma mirror_mirrorRepository lib c ghClient cfg giteaUser orgTargets repo s :
  exists giteaTarget s1,
    R s s1
    /\ R (snd (gitea.IsRepositoryMirrored c (ghrepo.Name repo) giteaTarget s1))
         (snd (main.mirrorRepository lib c ghClient cfg giteaUser orgTargets repo s)).
Proof.
  unfold main.mirrorRepository.
  match goal with |- context [bind (main.resolveTarget _ _ _ _ _ _) ?k] => set (K := k) end.
  unfold bind at 1.
  pose proof (mirror_resolveTarget lib c cfg giteaUser orgTargets repo s) as Htarget.
  destruct (main.resolveTarget _ _ _ _ _ _ s) as [giteaTarget s1]. simpl in Htarget.
  exists giteaTarget, s1. split; [done|]. subst K. cbv beta.
  match goal with |- context [bind (gitea.IsRepositoryMirrored _ _ _) ?k] => set (K := k) end.
  unfold bind at 1.
  destruct (gitea.IsRepositoryMirrored _ _ _ s1) as [[isAlreadyMirrored err] s2].
  subst K. cbv beta iota. simpl snd at 1.
  match goal with
  | |- R _ (snd (?m _)) => assert (H : keeps R m); [|exact (H _)]
  end.
  destruct err as [err|]; [mirror_effects|].
  destruct (ghrepo.Starred repo), isAlreadyMirrored, (config.DryRun cfg);
    mirror_effects;
    first [apply mirror_starMirror | apply mirror_replicateIssues].
Qed.

End MirrorEffects.

Module checks.

Lemma IsRepositoryMirrored_calls c repo giteaTarget s :
  exists check,
    calls (snd (gitea.IsRepositoryMirrored c (ghrepo.Name repo) giteaTarget s))
    = calls s ++ [check]
    /\ checkOf check repo /\ isCheck check = true.
Proof.
  eexists. unfold gitea.IsRepositoryMirrored, bind, gitea.doRequest.
  split; [|split; [by exists giteaTarget|]].
  - by destruct (gitea.httpClient c (calls s) _).
  - unfold isCheck, underRepos. cbn [http.path http.method].
    by rewrite text.stripPrefix_app.
Qed.

Lemma filter_quiet (new : list http.Request) :
  Forall quiet new -> List.filter isCheck new = [].
Proof.
  induction 1 as [|req rest Hreq _ IH]; [done|]. simpl. by rewrite Hreq.
Qed.

Lemma mirrorRepository_one_check lib c ghClient cfg giteaUser orgTargets repo s :
  exists new check,
    calls (snd (main.mirrorRepository lib c ghClient cfg giteaUser orgTargets repo s))
    = calls s ++ new
    /\ List.filter isCheck new = [check] /\ checkOf check repo.
Proof.
  destruct (mirror_mirrorRepository (sends quiet) quiet (sends_refl _) (sends_trans _)
              (sends_Printf _) (sends_draw _) (sends_request _)
              (fun _ => eq_refl) (fun _ _ => eq_refl) (fun _ _ => eq_refl)
              lib c ghClient cfg giteaUser orgTargets repo s)
    as (giteaTarget & s1 & (before & E1 & Hbefore) & (rest & E2 & Hrest)).
  destruct (IsRepositoryMirrored_calls c repo giteaTarget s1) as (check & E & Hcheck & Htrue).
  exists (before ++ [check] ++ rest), check. split; [|split; [|done]].
  - rewrite E2, E, E1. by rewrite <- !app_assoc.
  - rewrite !List.filter_app, (filter_quiet before), (filter_quiet rest) by done.
    simpl. by rewrite Htrue.
Qed.

End checks.

Module wire.

Lemma transmitted_sublist (c : gitea.Client) (history new : list http.Request) :
  sublist (transmitted c history new) new.
Proof.
  revert history. induction new as [|req rest IH]; intros history; simpl; [constructor|].
  destruct (http.built _); simpl; [by constructor | by apply sublist_cons].
Qed.

Lemma filter_sublist {A} (f : A -> bool) (l k : list A) :
  sublist l k -> sublist (List.filter f l) (List.filter f k).
Proof.
  induction 1 as [|x l k _ IH|x l k _ IH]; simpl; [constructor| |].
  - destruct (f x); [by constructor | done].
  - destruct (f x); [by apply sublist_cons | done].
Qed.

Lemma Forall2_of_sublist {A B} (P : A -> B -> Prop) (l l' : list A) (k : list B) :
  Forall2 P l k -> sublist l' l -> exists k', sublist k' k /\ Forall2 P l' k'.
Proof.
  intros HP. revert l'. induction HP as [|x y l k Hxy _ IH]; intros l' Hsub.
  - apply sublist_nil_r in Hsub as ->. exists []. by split; constructor.
  - apply sublist_cons_r in Hsub as [Hsub | (l'' & -> & Hsub)].
    + destruct (IH _ Hsub) as (k' & Hk' & HP'). exists k'. split; [by apply sublist_cons | done].
    + destruct (IH _ Hsub) as (k' & Hk' & HP'). exists (y :: k').
      split; [by apply sublist_skip | by constructor].
Qed.

End wire.

(** X29. The loop over the repositories calls [doRequest] for the
    existence check of each repository of the list exactly once, in the
    order of the list, whatever the destination answers: an error on one
    repository does not stop the loop, and no repository is left out or
    checked twice.  A check whose request cannot be built is not sent, so
    the checks that leave the process are the checks of some of the
    repositories, each once and in the order of the list. *)
Theorem mirrorAll_checks_every_repository
  (rt : main.Runtime) (giteaClient : gitea.Client) (ghClient : github.Client)
  (cfg : config.Config) (giteaUser : gitea.Target.t)
  (orgTargets : gmap string gitea.Target.t) (filteredRepos : list ghrepo.Repository)
  (s : State) :
  exists new,
    calls (snd (main.mirrorAll rt giteaClient ghClient cfg giteaUser orgTargets
                               filteredRepos s))
    = calls s ++ new
    /\ Forall2 checkOf (List.filter isCheck new) filteredRepos
    /\ exists reached,
         sublist reached filteredRepos
         /\ Forall2 checkOf (List.filter isCheck (transmitted giteaClient (calls s) new))
                     reached.
Proof.
  assert (Hcalls : exists new,
    calls (snd (main.mirrorAll rt giteaClient ghClient cfg giteaUser orgTargets
                               filteredRepos s))
    = calls s ++ new
    /\ Forall2 checkOf (List.filter isCheck new) filteredRepos).
  { revert s. induction filteredRepos as [|repo rest IH]; intros s.
    - exists []. simpl. by rewrite app_nil_r.
    - simpl. unfold bind at 1.
      destruct (checks.mirrorRepository_one_check (main.library rt) giteaClient ghClient cfg
                  giteaUser orgTargets repo s) as (new1 & check & E1 & Hfilter & Hcheck).
      destruct (main.mirrorRepository _ _ _ _ _ _ _ s) as [err s1]. simpl in E1.
      unfold bind at 1.
      destruct err as [err|]; unfold Printf, ret; cbv beta iota;
        match goal with
        | |- context [main.mirrorAll _ _ _ _ _ _ _ ?s2] =>
            destruct (IH s2) as (new2 & E3 & Hrest)
        end;
        (exists (new1 ++ new2); split;
         [ rewrite E3; cbn [calls]; by rewrite E1, app_assoc
         | rewrite List.filter_app, Hfilter; simpl; by constructor ]). }
  destruct Hcalls as (new & E & Hchecks). exists new. split; [done|]. split; [done|].
  apply (wire.Forall2_of_sublist _ _ _ _ Hchecks).
  apply wire.filter_sublist, wire.transmitted_sublist.
Qed.

Example mirrorAll_checks_of_the_sample :
  List.filter isCheck
    (calls (snd (main.mirrorAll (sampleRuntime starredOrgEnv []) (sampleGitea [] 500) sampleGitHub
                                (sampleConfig false) sampleUser ∅ sampleCombined initial)))
  = [ http.mkRequest "GET" "/api/v1/repos/octo/lib-a" None;
      http.mkRequest "GET" "/api/v1/repos/octo/app-x" None;
      http.mkRequest "GET" "/api/v1/repos/octo/lib-a" None;
      http.mkRequest "GET" "/api/v1/repos/octo/lib-b" None ].
Proof. vm_compute. reflexivity. Qed.

(** A repository whose name makes the URL of its check unparsable: the
    check and the request for its issue are called for and not sent, the
    migrate request, which has the name in its body, is sent. *)
Example mirrorAll_unparsable_name :
  let run := main.mirrorAll (sampleRuntime starredOrgEnv []) (parsingGitea [] 204) sampleGitHub
               (sampleConfig false) sampleUser ∅ [sampleRepo "%zz" false false] initial in
  map (fun req => (http.method req, http.path req)) (calls (snd run))
  = [ ("GET", "/api/v1/repos/octo/%zz"); ("POST", "/api/v1/repos/migrate");
      ("POST", "/api/v1/repos/octo/%zz/issues") ]
  /\ map (fun req => (http.method req, http.path req))
         (transmitted (parsingGitea [] 204) [] (calls (snd run)))
     = [ ("POST", "/api/v1/repos/migrate") ].
Proof. vm_compute. done. Qed.

(** What a run sends before it reaches the repositories. *)

Section PreparationEffects.

Variable R : State -> State -> Prop.
Variable allowed : http.Request -> Prop.
Hypothesis R_refl : forall s, R s s.
Hypothesis R_trans : forall s1 s2 s3, R s1 s2 -> R s2 s3 -> R s1 s3.
Hypothesis R_Printf : forall line s, R s (logged line s).
Hypothesis R_draw : forall lib n s, R s (snd (gitea.randIntn lib n s)).
Hypothesis R_request :
  forall c method path body s,
    allowed (http.mkRequest method path body) ->
    R s (snd (gitea.doRequest c method path body s)).
Hypothesis allowed_org :
  forall orgName, allowed (http.mkRequest "GET" ("/api/v1/orgs/" +:+ orgName) None).
Hypothesis allowed_user : allowed (http.mkRequest "GET" "/api/v1/user" None).
Hypothesis allowed_create : forall body, allowed (http.mkRequest "POST" "/api/v1/orgs" body).

Ltac step := apply (keeps_bind R R_trans); [ | intros ? ].

Ltac preparation_effects :=
  repeat first
    [ apply (keeps_ret R R_refl)
    | apply (keeps_Printf R R_Printf)
    | apply (keeps_doRequest R allowed R_request); solve [auto]
    | step
    | match goal with
      | |- keeps _ (match ?x with _ => _ end) => destruct x
      | |- keeps _ (if ?b then _ else _) => destruct b
      | |- keeps _ (let (_, _) := ?x in _) => destruct x
      end ].

Lemma prepare_CreateOrganization c orgName visibility dryRun :
  keeps R (gitea.CreateOrganization c orgName visibility dryRun).
Proof. unfold gitea.CreateOrganization. preparation_effects. Qed.

Lemma prepare_GetUser lib c : keeps R (gitea.GetUser lib c).
Proof. unfold gitea.GetUser. preparation_effects. Qed.

Lemma stops_keeps {A} (m : M (Z * A)) : keeps R m -> stopsWithin R m.
Proof. intros H s _. apply H. Qed.

Lemma stops_bind {A B} (m : M A) (k : A -> M (Z * B)) :
  keeps R m -> (forall a, stopsWithin R (k a)) -> stopsWithin R (bind m k).
Proof.
  intros Hm Hk s. unfold bind. specialize (Hm s).
  destruct (m s) as [a s1]. simpl in Hm. intros Hstatus.
  eapply R_trans; [exact Hm | by apply Hk].
Qed.

Lemma stops_Fatalf {A} line (output : A) : stopsWithin R (main.Fatalf line output).
Proof. apply stops_keeps. unfold main.Fatalf. preparation_effects. Qed.

Lemma stops_completed {A B C} (m : M A) (k1 : A -> M B) (k2 : M unit) (output : C) :
  stopsWithin R (let* a := m in k1 a ;;; k2 ;;; ret (0, output)).
Proof.
  intros s. unfold bind. destruct (m s) as [a s1]. destruct (k1 a s1) as [b s2].
  by destruct (k2 s2) as [[] s3].
Qed.

Lemma stops_main rt : stopsWithin R (main.main rt).
Proof.
  unfold main.main.
  destruct (config.Load (main.environ rt)) as [cfg|err]; [|apply stops_Fatalf].
  cbv zeta.
  apply stops_bind; [apply (keeps_ShowConfig R); assumption | intros output].
  apply stops_bind.
  { destruct (negb (is_empty _)); [|preparation_effects].
    step; [apply prepare_CreateOrganization|]. preparation_effects. }
  intros _. apply stops_bind.
  { destruct (_ && _); [|preparation_effects].
    step; [apply prepare_CreateOrganization|]. preparation_effects. }
  intros _.
  apply stops_bind; [apply (keeps_GetRepositories R); assumption | intros githubRepos].
  destruct githubRepos as [githubRepos|err]; [|apply stops_Fatalf].
  apply stops_bind; [preparation_effects | intros _].
  apply stops_bind; [apply prepare_GetUser | intros giteaUser].
  destruct giteaUser as [giteaUser|err]; [|apply stops_Fatalf].
  apply stops_completed.
Qed.

End PreparationEffects.

(** X30. A run that ends with the exit status 1 has sent nothing under
    the repository paths of the destination: all it has sent is the
    lookup of the account of the token and lookups and creations of
    organizations.  The failures that end the process occur before the
    first repository is checked, and a failure on a repository does not
    end it. *)
Theorem fatal_exit_precedes_the_repositories (rt : main.Runtime) (s : State) :
  fst (fst (main.main rt s)) = 1 ->
  exists new,
    calls (snd (main.main rt s)) = calls s ++ new
    /\ Forall preparation new
    /\ Forall (fun req => underRepos req = false) new.
Proof.
  intros Hstatus.
  destruct (stops_main (sends (fun req => preparation req /\ underRepos req = false))
              (fun req => preparation req /\ underRepos req = false)
              (sends_refl _) (sends_trans _) (sends_Printf _) (sends_request _))
    with (rt := rt) (s := s) as (new & E & Hnew); try done.
  - intros orgName. split; [right; right; by exists orgName | done].
  - split; [by left | done].
  - intros body. split; [right; by left | done].
  - exists new. split; [done|]. by apply Forall_and.
Qed.

Lemma fatal_exit_precedes_the_repositories_witness :
  fst (fst (main.main (sampleRuntime organizationEnv []) initial)) = 1
  /\ exists new,
       calls (snd (main.main (sampleRuntime organizationEnv []) initial))
       = calls initial ++ new
       /\ Forall preparation new
       /\ Forall (fun req => underRepos req = false) new.
Proof.
  split; [reflexivity|].
  exact (fatal_exit_precedes_the_repositories (sampleRuntime organizationEnv []) initial
           eq_refl).
Defined.

Example fatal_exit_of_the_sample :
  let run := main.main (sampleRuntime organizationEnv []) initial in
  fst (fst run) = 1
  /\ logs (snd run)
     = [ "Created organization: mirrors"; "Found 2 repositories to mirror";
         "Failed to get Gitea user: failed to get user: status 404" ]
  /\ calls (snd run)
     = [ http.mkRequest "GET" "/api/v1/orgs/mirrors" None;
         http.mkRequest "POST" "/api/v1/orgs"
           (Some [("username", http.VString "mirrors");
                  ("visibility", http.VString "public")]);
         http.mkRequest "GET" "/api/v1/user" None ].
Proof. vm_compute. done. Qed.
